(** * Todoist MCP server: request orchestration, name resolution and error taxonomy

    A shallow embedding of [mcp_todoist] (utils/error_handling.py, models.py,
    client.py, tools/tasks.py, tools/projects.py, tools/labels.py).

    The remote SDK, the interpreter and pydantic are not part of the
    repository: the SDK is a parameter of the development (a transition
    function on an abstract remote state), and so are the texts of the
    exceptions that the interpreter and pydantic produce.  The handlers are
    modelled up to the point where they render their answer: a handler returns
    the record(s) its text is built from. *)

From Stdlib Require Import Ascii Sorted.
From stdpp Require Import gmap strings list pretty.

Open Scope string_scope.
Open Scope list_scope.
Open Scope Z_scope.

(** ** Python strings *)

(** Text is a string of bytes.  [ascii_text s] holds of a text whose
    characters are all ASCII. *)
Definition ascii_char (c : ascii) : bool := Nat.ltb (nat_of_ascii c) 128.

Fixpoint ascii_text (s : string) : bool :=
  match s with
  | EmptyString => true
  | String c r => ascii_char c && ascii_text r
  end.

(** [str.lower()], on ASCII text: the letters A-Z are mapped to a-z and every
    other byte is kept.  On other text the interpreter folds the letters of
    Unicode, which is not modelled: what is proved from a property of the
    lowering itself is stated of ASCII text. *)
Definition lower_char (c : ascii) : ascii :=
  let n := nat_of_ascii c in
  if (Nat.leb 65 n && Nat.leb n 90)%bool then ascii_of_nat (n + 32) else c.

Fixpoint lower (s : string) : string :=
  match s with
  | EmptyString => EmptyString
  | String c r => String (lower_char c) (lower r)
  end.

(** [needle in hay] for two strings. *)
Fixpoint str_in (needle hay : string) : bool :=
  String.prefix needle hay ||
  match hay with
  | EmptyString => false
  | String _ r => str_in needle r
  end.

(** [hay.startswith(p)]. *)
Definition startswith (hay p : string) : bool := String.prefix p hay.

(** ** Tool arguments: the values of a [Dict[str, Any]]

    The values that the tool schemas declare: null, booleans, integers,
    strings and lists of strings. *)
Inductive value :=
| VNone
| VBool (b : bool)
| VInt (n : Z)
| VStr (s : string)
| VList (l : list string).

(** Truth value of an object, as [if x] and [not x] test it. *)
Definition truthy (v : value) : bool :=
  match v with
  | VNone => false
  | VBool b => b
  | VInt n => negb (n =? 0)
  | VStr s => negb (String.eqb s "")
  | VList l => match l with [] => false | _ => true end
  end.

Definition truthy_str (o : option string) : bool :=
  match o with Some s => negb (String.eqb s "") | None => false end.

Definition truthy_bool (o : option bool) : bool :=
  match o with Some b => b | None => false end.

Definition truthy_int (o : option Z) : bool :=
  match o with Some n => negb (n =? 0) | None => false end.

(** [d.get(k)]: a missing key reads as [None]. *)
Definition get (d : gmap string value) (k : string) : value :=
  default VNone (d !! k).

Definition type_name (v : value) : string :=
  match v with
  | VNone => "NoneType"
  | VBool _ => "bool"
  | VInt _ => "int"
  | VStr _ => "str"
  | VList _ => "list"
  end.

(** ** utils/error_handling.py: the error taxonomy *)

Inductive exn_class :=
| MCPError
| ValidationError
| AuthenticationError
| TodoistError
| ValueError
| PydanticValidationError
| KeyError
| TypeError
| AttributeError
| Exception.

(** An exception: its class, [str(e)], and the ["function"] entry of the
    [details] of an [MCPError]. *)
Record exn := Raise {
  exn_class_of : exn_class;
  message : string;
  details : option string
}.

(** [isinstance(e, MCPError)]: the base class and its three subclasses. *)
Definition is_MCPError (c : exn_class) : bool :=
  match c with
  | MCPError | ValidationError | AuthenticationError | TodoistError => true
  | _ => false
  end.

(** [isinstance(e, ValueError)]; pydantic's validation error is a
    [ValueError]. *)
Definition is_ValueError (c : exn_class) : bool :=
  match c with
  | ValueError | PydanticValidationError => true
  | _ => false
  end.

(** The [except] clauses of [handle_exceptions.wrapper], for the function
    named [func_name]. *)
Definition normalize (func_name : string) (e : exn) : exn :=
  if is_MCPError (exn_class_of e) then e
  else if is_ValueError (exn_class_of e) then
    Raise ValidationError (message e) None
  else if str_in "todoist" (lower (message e)) then
    Raise TodoistError ("Todoist API error: " +:+ message e) (Some func_name)
  else
    Raise MCPError ("An unexpected error occurred: " +:+ message e)
          (Some func_name).

(** [handle_exceptions(func)]: the wrapper is a plain [def]; it runs
    [func] on its arguments inside the [try] and returns what it returns. *)
Definition handle_exceptions {A B : Type} (func_name : string)
    (func : A -> exn + B) : A -> exn + B :=
  fun a =>
    match func a with
    | inr r => inr r
    | inl e => inl (normalize func_name e)
    end.

(** ** tools/tasks.py, lines 381-399: the filter composer *)

Definition clause_today (due_today : option bool) (filter_string : option string)
    : option string :=
  if truthy_bool due_today then
    if truthy_str filter_string
    then Some ("(" +:+ default "" filter_string +:+ ") & today")
    else Some "today"
  else filter_string.

Definition clause_upcoming (due_upcoming : option bool)
    (filter_string : option string) : option string :=
  if truthy_bool due_upcoming then
    if truthy_str filter_string
    then Some ("(" +:+ default "" filter_string +:+ ") & (today | overdue | 7 days)")
    else Some "today | overdue | 7 days"
  else filter_string.

Definition clause_priority (priority : option Z) (filter_string : option string)
    : option string :=
  if truthy_int priority then
    let priority_filter := "p" +:+ pretty (default 0 priority) in
    if truthy_str filter_string
    then Some ("(" +:+ default "" filter_string +:+ ") & " +:+ priority_filter)
    else Some priority_filter
  else filter_string.

Definition compose (filter_string : option string)
    (due_today due_upcoming : option bool) (priority : option Z) : option string :=
  clause_priority priority
    (clause_upcoming due_upcoming (clause_today due_today filter_string)).


(** ** The records of the remote SDK ([todoist_api_python.models])

    Only the attributes that the repository reads and renders. *)

Module Due.
Record t := {
  date : option string;
  string_ : option string;
  datetime : option string;
  recurring : option bool
}.
End Due.

Module Task.
Record t := {
  id : string;
  content : string;
  description : option string;
  project_id : option string;
  section_id : option string;
  parent_id : option string;
  labels : list string;
  priority : Z;
  due : option Due.t;
  url : string
}.
End Task.

Module Project.
Record t := {
  id : string;
  name : string;
  color : string;
  parent_id : option string;
  order : option Z;
  is_favorite : bool;
  is_inbox_project : bool;
  url : string
}.
End Project.

Module Label.
Record t := {
  id : string;
  name : string;
  color : string;
  order : option Z;
  is_favorite : bool
}.
End Label.

(** ** models.py *)

Definition TodoistColor : list string :=
  [ "berry_red"; "red"; "orange"; "yellow"; "olive_green"; "lime_green";
    "green"; "mint_green"; "teal"; "sky_blue"; "light_blue"; "blue"; "grape";
    "violet"; "lavender"; "magenta"; "salmon"; "charcoal"; "grey"; "taupe" ].

(** Field validation of the pydantic models, on arguments of the declared
    types: a field takes a value of the JSON type it declares ([Optional]
    fields also null), and [None] stands for a validation error.  A value of
    another type is refused here, where pydantic may coerce it (1 or "yes" to
    True, "3" to 3): these coercions are not modelled, and what is proved of
    a boolean or an integer field is stated of arguments that are absent,
    null or of the declared type. *)
Definition as_str (v : value) : option (option string) :=
  match v with VNone => Some None | VStr s => Some (Some s) | _ => None end.

Definition as_bool (v : value) : option (option bool) :=
  match v with VNone => Some None | VBool b => Some (Some b) | _ => None end.

Definition as_int (v : value) : option (option Z) :=
  match v with VNone => Some None | VInt n => Some (Some n) | _ => None end.

Definition as_str_list (v : value) : option (option (list string)) :=
  match v with VNone => Some None | VList l => Some (Some l) | _ => None end.

Definition as_required_str (v : value) : option string :=
  match v with VStr s => Some s | _ => None end.

(** [Field(None, ge=lo, le=hi)]. *)
Definition as_int_between (lo hi : Z) (v : value) : option (option Z) :=
  match v with
  | VNone => Some None
  | VInt n => if (lo <=? n) && (n <=? hi) then Some (Some n) else None
  | _ => None
  end.

(** [validate_color]: a non-empty colour must be one of the palette. *)
Definition validate_color (v : option string) : option (option string) :=
  if truthy_str v && negb (bool_decide (default "" v ∈ TodoistColor))
  then None else Some v.

Module TaskDue.
Record t := {
  date : option string;
  string_ : option string;
  datetime : option string;
  recurring : option bool
}.

(** [validate_date]: a non-empty date must start with "20". *)
Definition validate_date (v : option string) : option (option string) :=
  if truthy_str v && negb (startswith (default "" v) "20")
  then None else Some v.

Definition validate (d : Due.t) : option t :=
  v ← validate_date (Due.date d);
  Some {| date := v; string_ := Due.string_ d; datetime := Due.datetime d;
          recurring := Due.recurring d |}.
End TaskDue.

Module TaskFilterMCPInput.
Record t := {
  project_id : option string;
  project_name : option string;
  section_id : option string;
  label_id : option string;
  label_name : option string;
  filter_string : option string;
  due_today : option bool;
  due_upcoming : option bool;
  completed : option bool;
  priority : option Z;
  limit : option Z
}.

(** The constructor call on the unpacked [arguments]; keys that are no
    fields are ignored. *)
Definition validate (arguments : gmap string value) : option t :=
  project_id ← as_str (get arguments "project_id");
  project_name ← as_str (get arguments "project_name");
  section_id ← as_str (get arguments "section_id");
  label_id ← as_str (get arguments "label_id");
  label_name ← as_str (get arguments "label_name");
  filter_string ← as_str (get arguments "filter_string");
  due_today ← as_bool (get arguments "due_today");
  due_upcoming ← as_bool (get arguments "due_upcoming");
  completed ← as_bool (get arguments "completed");
  priority ← as_int (get arguments "priority");
  limit ← as_int_between 1 100 (get arguments "limit");
  Some (Build_t project_id project_name section_id label_id label_name
          filter_string due_today due_upcoming completed priority limit).
End TaskFilterMCPInput.

Module TaskMCPInput.
Record t := {
  content : string;
  description : option string;
  project_id : option string;
  project_name : option string;
  section_id : option string;
  parent_id : option string;
  order : option Z;
  labels : option (list string);
  priority : option Z;
  due_string : option string;
  due_date : option string;
  due_datetime : option string;
  due_lang : option string;
  assignee_id : option string
}.

(** The constructor call on the unpacked [arguments]. *)
Definition validate (arguments : gmap string value) : option t :=
  content ← as_required_str (get arguments "content");
  description ← as_str (get arguments "description");
  project_id ← as_str (get arguments "project_id");
  project_name ← as_str (get arguments "project_name");
  section_id ← as_str (get arguments "section_id");
  parent_id ← as_str (get arguments "parent_id");
  order ← as_int (get arguments "order");
  labels ← as_str_list (get arguments "labels");
  priority ← as_int_between 1 4 (get arguments "priority");
  due_string ← as_str (get arguments "due_string");
  due_date ← as_str (get arguments "due_date");
  due_datetime ← as_str (get arguments "due_datetime");
  due_lang ← as_str (get arguments "due_lang");
  assignee_id ← as_str (get arguments "assignee_id");
  Some (Build_t content description project_id project_name section_id
          parent_id order labels priority due_string due_date due_datetime
          due_lang assignee_id).
End TaskMCPInput.

Module TaskMCPOutput.
Record t := {
  id : string;
  content : string;
  description : string;
  project_id : option string;
  section_id : option string;
  parent_id : option string;
  labels : list string;
  priority : Z;
  due : option TaskDue.t;
  url : string;
  is_completed : bool
}.

(** [from_todoist]: [None] when the validation of the due date fails. *)
Definition from_todoist (task : Task.t) : option t :=
  due ← match Task.due task with
        | Some d => Some <$> TaskDue.validate d
        | None => Some None
        end;
  Some {| id := Task.id task;
          content := Task.content task;
          description := default "" (Task.description task);
          project_id := Task.project_id task;
          section_id := Task.section_id task;
          parent_id := Task.parent_id task;
          labels := Task.labels task;
          priority := Task.priority task;
          due := due;
          url := Task.url task;
          is_completed := false |}.
End TaskMCPOutput.

Module ProjectMCPInput.
Record t := {
  name : string;
  parent_id : option string;
  color : option string;
  favorite : option bool
}.

(** [ProjectMCPInput(name=..., parent_id=..., color=..., favorite=...)]. *)
Definition validate (name parent_id color favorite : value) : option t :=
  name ← as_required_str name;
  parent_id ← as_str parent_id;
  color ← as_str color ≫= validate_color;
  favorite ← as_bool favorite;
  Some (Build_t name parent_id color favorite).
End ProjectMCPInput.

Module ProjectMCPOutput.
Record t := {
  id : string;
  name : string;
  color : string;
  parent_id : option string;
  order : option Z;
  is_favorite : bool;
  is_inbox_project : bool;
  url : string
}.

Definition from_todoist (project : Project.t) : t :=
  {| id := Project.id project;
     name := Project.name project;
     color := Project.color project;
     parent_id := Project.parent_id project;
     order := Project.order project;
     is_favorite := Project.is_favorite project;
     is_inbox_project := Project.is_inbox_project project;
     url := Project.url project |}.
End ProjectMCPOutput.

Module LabelMCPInput.
Record t := {
  name : string;
  color : option string;
  favorite : option bool
}.

(** [LabelMCPInput(name=..., color=..., favorite=...)]. *)
Definition validate (name color favorite : value) : option t :=
  name ← as_required_str name;
  color ← as_str color ≫= validate_color;
  favorite ← as_bool favorite;
  Some (Build_t name color favorite).
End LabelMCPInput.

Module LabelMCPOutput.
Record t := {
  id : string;
  name : string;
  color : string;
  order : option Z;
  is_favorite : bool
}.

Definition from_todoist (label : Label.t) : t :=
  {| id := Label.id label;
     name := Label.name label;
     color := Label.color label;
     order := Label.order label;
     is_favorite := Label.is_favorite label |}.
End LabelMCPOutput.

(** ** The remote SDK

    One constructor per method of [TodoistAPI] that client.py calls, indexed
    by the type of its result.  [api_update_task] carries the thirteen keyword
    parameters of [TodoistClient.update_task], in the order of its signature
    ([None] for those not given). *)
Inductive call : Type -> Type :=
| api_get_tasks (project_id section_id label_id filter lang : option string)
    (ids : option (list string)) : call (list Task.t)
| api_get_task (task_id : value) : call Task.t
| api_add_task (content : string)
    (description project_id section_id parent_id : option string)
    (order : option Z) (labels : option (list string)) (priority : option Z)
    (due_string due_date due_datetime due_lang assignee_id : option string)
    : call Task.t
| api_update_task (task_id : value) (fields : list (string * value)) : call bool
| api_close_task (task_id : value) : call bool
| api_reopen_task (task_id : value) : call bool
| api_delete_task (task_id : value) : call bool
| api_get_projects : call (list Project.t)
| api_get_project (project_id : value) : call Project.t
| api_add_project (name : string) (parent_id color : option string)
    (favorite : option bool) : call Project.t
| api_update_project (project_id name color favorite : value) : call bool
| api_delete_project (project_id : value) : call bool
| api_get_labels : call (list Label.t)
| api_get_label (label_id : value) : call Label.t
| api_add_label (name : string) (color : option string)
    (favorite : option bool) : call Label.t
| api_update_label (label_id name color favorite : value) : call bool
| api_delete_label (label_id : value) : call bool.

(** A remote round trip, as recorded in the trace of an invocation. *)
Inductive event :=
| Called : forall R : Type, call R -> event.

Arguments Called {R} c.

(** The name of the [TodoistClient] method that issues a call. *)
Definition method_name {R} (c : call R) : string :=
  match c with
  | api_get_tasks _ _ _ _ _ _ => "get_tasks"
  | api_get_task _ => "get_task"
  | api_add_task _ _ _ _ _ _ _ _ _ _ _ _ _ => "create_task"
  | api_update_task _ _ => "update_task"
  | api_close_task _ => "close_task"
  | api_reopen_task _ => "reopen_task"
  | api_delete_task _ => "delete_task"
  | api_get_projects => "get_projects"
  | api_get_project _ => "get_project"
  | api_add_project _ _ _ _ => "create_project"
  | api_update_project _ _ _ _ => "update_project"
  | api_delete_project _ => "delete_project"
  | api_get_labels => "get_labels"
  | api_get_label _ => "get_label"
  | api_add_label _ _ _ => "create_label"
  | api_update_label _ _ _ _ => "update_label"
  | api_delete_label _ => "delete_label"
  end.

(** The text that the method puts before the remote diagnostic. *)
Definition failure {R} (c : call R) : string :=
  match c with
  | api_get_tasks _ _ _ _ _ _ => "Failed to get tasks: "
  | api_get_task _ => "Failed to get task: "
  | api_add_task _ _ _ _ _ _ _ _ _ _ _ _ _ => "Failed to create task: "
  | api_update_task _ _ => "Failed to update task: "
  | api_close_task _ => "Failed to close task: "
  | api_reopen_task _ => "Failed to reopen task: "
  | api_delete_task _ => "Failed to delete task: "
  | api_get_projects => "Failed to get projects: "
  | api_get_project _ => "Failed to get project: "
  | api_add_project _ _ _ _ => "Failed to create project: "
  | api_update_project _ _ _ _ => "Failed to update project: "
  | api_delete_project _ => "Failed to delete project: "
  | api_get_labels => "Failed to get labels: "
  | api_get_label _ => "Failed to get label: "
  | api_add_label _ _ _ => "Failed to create label: "
  | api_update_label _ _ _ _ => "Failed to update label: "
  | api_delete_label _ => "Failed to delete label: "
  end.

(** The [except Exception as e] clause of every [TodoistClient] method, on
    [str(e)]. *)
Definition surface {R} (c : call R) (e : string) : exn :=
  if str_in "Unauthorized" e
  then Raise AuthenticationError "Invalid or expired Todoist API token" None
  else Raise TodoistError (failure c +:+ e) None.

(** Texts that the interpreter and pydantic produce. *)
Inductive library_error :=
| UnexpectedKeyword (callee : string) (kwargs : gmap string value)
| InvalidModel (model : string)
| ListText (l : list string).

(** ** tools/projects.py, lines 228-273: the project tree of list-projects

    A [dict] is an association list in insertion order with one entry per
    key: setting a key that is present replaces its value in place, setting a
    new key appends an entry. *)
Fixpoint dict_get {V} (k : string) (d : list (string * V)) : option V :=
  match d with
  | [] => None
  | (k', v) :: d => if String.eqb k' k then Some v else dict_get k d
  end.

Fixpoint dict_set {V} (k : string) (v : V) (d : list (string * V))
    : list (string * V) :=
  match d with
  | [] => [(k, v)]
  | (k', v') :: d =>
      if String.eqb k' k then (k', v) :: d else (k', v') :: dict_set k v d
  end.

(** [list.sort(key=...)]: the stable sort, by insertion. *)
Fixpoint insert_by {A} (key : A -> Z) (x : A) (sorted : list A) : list A :=
  match sorted with
  | [] => [x]
  | y :: rest =>
      if key x <=? key y then x :: y :: rest else y :: insert_by key x rest
  end.

Definition sort_by {A} (key : A -> Z) (items : list A) : list A :=
  foldr (insert_by key) [] items.

(** [{project.id: ProjectMCPOutput.from_todoist(project) for project in projects}] *)
Definition project_map (projects : list Project.t)
    : list (string * ProjectMCPOutput.t) :=
  foldl (fun d project =>
           dict_set (Project.id project)
             (ProjectMCPOutput.from_todoist project) d)
    [] projects.

(** The body of the loop over [project_map.items()]: a project with a
    non-empty [parent_id] is appended to the children of that parent, any
    other project to the roots.  [groups] is the pair
    [(root_projects, child_projects)]. *)
Definition group_project
    (groups : list ProjectMCPOutput.t * list (string * list ProjectMCPOutput.t))
    (entry : string * ProjectMCPOutput.t)
    : list ProjectMCPOutput.t * list (string * list ProjectMCPOutput.t) :=
  let project := snd entry in
  if truthy_str (ProjectMCPOutput.parent_id project) then
    let parent_id := default "" (ProjectMCPOutput.parent_id project) in
    (fst groups,
     dict_set parent_id
       (default [] (dict_get parent_id (snd groups)) ++ [project])
       (snd groups))
  else (fst groups ++ [project], snd groups).

Definition group_projects (project_map : list (string * ProjectMCPOutput.t))
    : list ProjectMCPOutput.t * list (string * list ProjectMCPOutput.t) :=
  foldl group_project ([], []) project_map.

(** [p.order if p.order is not None else 999] *)
Definition project_order (p : ProjectMCPOutput.t) : Z :=
  default 999 (ProjectMCPOutput.order p).

Fixpoint concat_lines {A} (blocks : list (option (list A)))
    : option (list A) :=
  match blocks with
  | [] => Some []
  | block :: blocks =>
      match block, concat_lines blocks with
      | Some lines, Some rest => Some (lines ++ rest)
      | _, _ => None
      end
  end.

(** [format_project(project, level)]: the entry of the project, then those of
    its children one level deeper.  An entry is kept as the pair of its level
    (the indentation) and its project.  The recursion of the source is on
    nothing that decreases; [fuel] bounds its depth, and [None] is a recursion
    that did not end within it.  The interpreter's own limit on the depth of
    calls is left out. *)
Fixpoint format_project (fuel : nat)
    (child_projects : list (string * list ProjectMCPOutput.t))
    (project : ProjectMCPOutput.t) (level : nat)
    : option (list (nat * ProjectMCPOutput.t)) :=
  match fuel with
  | O => None
  | S fuel =>
      match dict_get (ProjectMCPOutput.id project) child_projects with
      | Some children =>
          match
            concat_lines
              (map (fun child =>
                      format_project fuel child_projects child (S level))
                 children)
          with
          | Some formatted => Some ((level, project) :: formatted)
          | None => None
          end
      | None => Some [(level, project)]
      end
  end.

(** The entries of the answer of list-projects for the (truncated) list of
    projects, in their order. *)
Definition project_tree (fuel : nat) (projects : list Project.t)
    : option (list (nat * ProjectMCPOutput.t)) :=
  let project_map := project_map projects in
  let groups := group_projects project_map in
  let root_projects := sort_by project_order (fst groups) in
  let child_projects :=
    map (fun entry => (fst entry, sort_by project_order (snd entry)))
      (snd groups) in
  concat_lines
    (map (fun project => format_project fuel child_projects project 0%nat)
       root_projects).

(** A project followed by its ancestors, nearest first, up to one without a
    parent: each one names the next as its parent. *)
Fixpoint linked (l : list ProjectMCPOutput.t) : Prop :=
  match l with
  | [] => True
  | a :: rest =>
      match rest with
      | [] => truthy_str (ProjectMCPOutput.parent_id a) = false
      | b :: _ => ProjectMCPOutput.parent_id a = Some (ProjectMCPOutput.id b) /\ ProjectMCPOutput.id b <> "" /\ linked rest
      end
  end.

(** The entries of list-projects, with one level of recursion for each
    project of the list: [project_tree_total] shows that the recursion ends
    within them, so that the default is never taken. *)
Definition project_entries (projects : list Project.t)
    : list (nat * ProjectMCPOutput.t) :=
  default [] (project_tree (length projects) projects).

(** ** tools/labels.py, lines 225-231: the order of list-labels

    [sorted(labels, key=lambda l: getattr(l, 'order', 999) or 999)]: a label
    without an order, or with the order 0, is sorted as 999. *)
Definition label_order (l : Label.t) : Z :=
  match Label.order l with
  | Some n => if n =? 0 then 999 else n
  | None => 999
  end.

(** ** What a handler answers: the record(s) its text is rendered from

    The text itself is left out: the headings, the empty-list sentences and
    the preview of long descriptions.  The records are those of the text, in
    its order: list-projects answers with the entries of its tree, each with
    its level, and list-labels with the labels as it sorts them. *)
Inductive reply :=
| TasksListed (tasks : list TaskMCPOutput.t)
| TaskCreated (task_model : TaskMCPOutput.t)
| TaskUpdated (task_model : TaskMCPOutput.t)
| TaskCompleted (task_content : string) (task_id : value)
| TaskDeleted (task_content : string) (task_id : value)
| ProjectsListed (entries : list (nat * ProjectMCPOutput.t))
| ProjectCreated (project_model : ProjectMCPOutput.t)
    (parent : option (string + value))
| ProjectUpdated (project_model : ProjectMCPOutput.t)
    (parent : option (string + value))
| ProjectDeleted (project_name project_id : value)
| LabelsListed (labels : list LabelMCPOutput.t)
| LabelCreated (label_model : LabelMCPOutput.t)
| LabelUpdated (label_model : LabelMCPOutput.t)
| LabelDeleted (label_name label_id : value).

(** ** The reference resolver: the [for ... break] scan of every handler *)

(** The first entity, in collection order, whose name equals [wanted] once
    both are lowered. *)
Definition first_match {E : Type} (name_of : E -> string) (wanted : string)
    (collection : list E) : option E :=
  find (fun e => String.eqb (lower (name_of e)) (lower wanted)) collection.

(** The same scan when [wanted] comes straight from the arguments:
    [wanted.lower()] is evaluated at the first entity, and fails on a value
    that is no string. *)
Definition scan {E : Type} (name_of : E -> string) (wanted : value)
    (collection : list E) : exn + option E :=
  match collection, wanted with
  | [], _ => inr None
  | _, VStr n => inr (first_match name_of n collection)
  | _, _ =>
      inl (Raise AttributeError
             ("'" +:+ type_name wanted +:+ "' object has no attribute 'lower'")
             None)
  end.

Definition update_task_params : list string :=
  [ "content"; "description"; "project_id"; "section_id"; "parent_id"; "order";
    "labels"; "priority"; "due_string"; "due_date"; "due_datetime"; "due_lang";
    "assignee_id" ].

(** ** Invocations: remote state, errors and the trace of remote calls *)

Section Invocation.
Context {W : Type}.

(** A computation of one invocation: from the remote state to a result or
    an exception, the next remote state and the calls issued. *)
Definition M (A : Type) : Type := W -> (exn + A) * W * list event.

Definition ret {A} (a : A) : M A := fun w => (inr a, w, []).

Definition raise {A} (e : exn) : M A := fun w => (inl e, w, []).

Definition bind {A B} (m : M A) (k : A -> M B) : M B :=
  fun w =>
    match m w with
    | (inl e, w1, t1) => (inl e, w1, t1)
    | (inr a, w1, t1) =>
        match k a w1 with
        | (r, w2, t2) => (r, w2, t1 ++ t2)
        end
    end.

(** [try: m  except Exception: h]. *)
Definition try_except {A} (m : M A) (h : exn -> M A) : M A :=
  fun w =>
    match m w with
    | (inl e, w1, t1) =>
        match h e w1 with
        | (r, w2, t2) => (r, w2, t1 ++ t2)
        end
    | (inr a, w1, t1) => (inr a, w1, t1)
    end.

(** Calling an [async def] only builds its coroutine, which runs when it
    is awaited. *)
Definition async_def {A B} (body : A -> M B) : A -> exn + M B :=
  fun a => inr (body a).

Definition await {B} (r : exn + M B) : M B :=
  match r with
  | inl e => raise e
  | inr coroutine => coroutine
  end.

(** [@handle_exceptions async def name(...)], called and awaited. *)
Definition decorated {A B} (name : string) (body : A -> M B) : A -> M B :=
  fun a => await (handle_exceptions name (async_def body) a).
End Invocation.

Arguments M W A : clear implicits.

Declare Scope invocation_scope.
Delimit Scope invocation_scope with inv.
Notation "'let*' x ':=' c1 'in' c2" := (bind c1 (fun x => c2))
  (at level 10, x name, c1 at level 100, c2 at level 200)
  : invocation_scope.
Open Scope invocation_scope.

(** ** client.py and the tools, over a remote service *)

Section Remote.
Context {W : Type}.

(** The SDK: a call either raises, with the text [str(e)], or returns. *)
Variable sdk : forall R, call R -> W -> (string + R) * W.

Variable library_text : library_error -> string.

(** *** client.py *)

(** The body shared by the methods of [TodoistClient]: one round trip in
    the executor, inside [try ... except Exception]. *)
Definition round_trip {R} (c : call R) : M W R :=
  fun w =>
    match sdk R c w with
    | (inr r, w') => (inr r, w', [Called c])
    | (inl e, w') => (inl (surface c e), w', [Called c])
    end.

Definition client {R} (c : call R) : M W R :=
  decorated (method_name c) round_trip c.

Definition get_tasks (project_id section_id label_id filter_string
    : option string) : M W (list Task.t) :=
  client (api_get_tasks project_id section_id label_id filter_string None None).

Definition get_task (task_id : value) : M W Task.t :=
  client (api_get_task task_id).

Definition create_task (content : string)
    (description project_id section_id parent_id : option string)
    (labels : option (list string)) (priority : option Z)
    (due_string due_date due_datetime : option string) : M W Task.t :=
  client (api_add_task content description project_id section_id parent_id
            None labels priority due_string due_date due_datetime None None).

(** [update_task(task_id=task_id, **arguments)]: the keywords are bound
    when the wrapper calls the method, inside its [try]; a keyword that is
    no parameter is a [TypeError] there. *)
Definition bind_update_task (task_id : value) (kwargs : gmap string value)
    : exn + M W bool :=
  if bool_decide (map_Forall (fun k _ => k ∈ update_task_params) kwargs)
  then inr (round_trip
              (api_update_task task_id
                 (map (fun k => (k, get kwargs k)) update_task_params)))
  else inl (Raise TypeError
              (library_text (UnexpectedKeyword "update_task" kwargs)) None).

Definition update_task (task_id : value) (kwargs : gmap string value)
    : M W bool :=
  await (handle_exceptions "update_task" (bind_update_task task_id) kwargs).

Definition close_task (task_id : value) : M W bool :=
  client (api_close_task task_id).

Definition reopen_task (task_id : value) : M W bool :=
  client (api_reopen_task task_id).

Definition delete_task (task_id : value) : M W bool :=
  client (api_delete_task task_id).

Definition get_projects : M W (list Project.t) := client api_get_projects.

Definition get_project (project_id : value) : M W Project.t :=
  client (api_get_project project_id).

Definition create_project (name : string) (parent_id color : option string)
    (favorite : option bool) : M W Project.t :=
  client (api_add_project name parent_id color favorite).

Definition update_project (project_id name color favorite : value)
    : M W bool :=
  client (api_update_project project_id name color favorite).

Definition delete_project (project_id : value) : M W bool :=
  client (api_delete_project project_id).

Definition get_labels : M W (list Label.t) := client api_get_labels.

Definition get_label (label_id : value) : M W Label.t :=
  client (api_get_label label_id).

Definition create_label (name : string) (color : option string)
    (favorite : option bool) : M W Label.t :=
  client (api_add_label name color favorite).

Definition update_label (label_id name color favorite : value) : M W bool :=
  client (api_update_label label_id name color favorite).

Definition delete_label (label_id : value) : M W bool :=
  client (api_delete_label label_id).

(** *** Helpers of the handlers *)

(** A pydantic model that rejects its input raises pydantic's error. *)
Definition validated {A} (model : string) (r : option A) : M W A :=
  match r with
  | Some a => ret a
  | None =>
      raise (Raise PydanticValidationError (library_text (InvalidModel model))
               None)
  end.

Definition lift {A} (r : exn + A) : M W A :=
  match r with inl e => raise e | inr a => ret a end.

(** An f-string field. *)
Definition format_value (v : value) : string :=
  match v with
  | VNone => "None"
  | VBool true => "True"
  | VBool false => "False"
  | VInt n => pretty n
  | VStr s => s
  | VList l => library_text (ListText l)
  end.

(** The model of every record to render, in order; the first one that
    fails validation raises. *)
Fixpoint task_models (tasks : list Task.t) : M W (list TaskMCPOutput.t) :=
  match tasks with
  | [] => ret []
  | task :: rest =>
      let* task_model :=
        validated "TaskMCPOutput" (TaskMCPOutput.from_todoist task) in
      let* models := task_models rest in
      ret (task_model :: models)
  end.

(** *** tools/tasks.py *)

Definition handle_list_tasks_body (arguments : gmap string value)
    : M W reply :=
  let* filter_args :=
    validated "TaskFilterMCPInput" (TaskFilterMCPInput.validate arguments) in
  let project_id := TaskFilterMCPInput.project_id filter_args in
  let section_id := TaskFilterMCPInput.section_id filter_args in
  let label_id := TaskFilterMCPInput.label_id filter_args in
  let filter_string := TaskFilterMCPInput.filter_string filter_args in
  let project_name := TaskFilterMCPInput.project_name filter_args in
  let label_name := TaskFilterMCPInput.label_name filter_args in
  let* project_id :=
    if truthy_str project_name && negb (truthy_str project_id) then
      let* projects := get_projects in
      let project_id :=
        match first_match Project.name (default "" project_name) projects with
        | Some project => Some (Project.id project)
        | None => project_id
        end in
      if negb (truthy_str project_id)
      then raise (Raise ValidationError
                    ("Project not found: " +:+ default "" project_name) None)
      else ret project_id
    else ret project_id in
  let* label_id :=
    if truthy_str label_name && negb (truthy_str label_id) then
      let* labels := get_labels in
      let label_id :=
        match first_match Label.name (default "" label_name) labels with
        | Some label => Some (Label.id label)
        | None => label_id
        end in
      if negb (truthy_str label_id)
      then raise (Raise ValidationError
                    ("Label not found: " +:+ default "" label_name) None)
      else ret label_id
    else ret label_id in
  let filter_string :=
    compose filter_string (TaskFilterMCPInput.due_today filter_args)
      (TaskFilterMCPInput.due_upcoming filter_args)
      (TaskFilterMCPInput.priority filter_args) in
  let* tasks := get_tasks project_id section_id label_id filter_string in
  let limit := TaskFilterMCPInput.limit filter_args in
  let tasks :=
    if truthy_int limit && (default 0 limit <? Z.of_nat (length tasks))
    then take (Z.to_nat (default 0 limit)) tasks
    else tasks in
  let* task_output := task_models tasks in
  ret (TasksListed task_output).

Definition handle_list_tasks := decorated "handle_list_tasks" handle_list_tasks_body.

Definition handle_create_task_body (arguments : gmap string value)
    : M W reply :=
  let* task_input :=
    validated "TaskMCPInput" (TaskMCPInput.validate arguments) in
  let project_id := TaskMCPInput.project_id task_input in
  let project_name := TaskMCPInput.project_name task_input in
  let* project_id :=
    if truthy_str project_name && negb (truthy_str project_id) then
      let* projects := get_projects in
      let project_id :=
        match first_match Project.name (default "" project_name) projects with
        | Some project => Some (Project.id project)
        | None => project_id
        end in
      if negb (truthy_str project_id)
      then raise (Raise ValidationError
                    ("Project not found: " +:+ default "" project_name) None)
      else ret project_id
    else ret project_id in
  let* task :=
    create_task (TaskMCPInput.content task_input)
      (TaskMCPInput.description task_input) project_id
      (TaskMCPInput.section_id task_input)
      (TaskMCPInput.parent_id task_input)
      (TaskMCPInput.labels task_input)
      (TaskMCPInput.priority task_input)
      (TaskMCPInput.due_string task_input)
      (TaskMCPInput.due_date task_input)
      (TaskMCPInput.due_datetime task_input) in
  let* task_model :=
    validated "TaskMCPOutput" (TaskMCPOutput.from_todoist task) in
  ret (TaskCreated task_model).

Definition handle_create_task := decorated "handle_create_task" handle_create_task_body.

Definition handle_update_task_body (arguments : gmap string value)
    : M W reply :=
  match arguments !! "task_id" with
  | None => raise (Raise KeyError "'task_id'" None)
  | Some task_id =>
      let arguments := delete "task_id" arguments in
      if negb (truthy task_id)
      then raise (Raise ValidationError "Task ID is required" None)
      else
        let* original_task := get_task task_id in
        let project_id := get arguments "project_id" in
        let project_name := get arguments "project_name" in
        let arguments := delete "project_name" arguments in
        let* arguments :=
          if truthy project_name && negb (truthy project_id) then
            let* projects := get_projects in
            let* found := lift (scan Project.name project_name projects) in
            let arguments :=
              match found with
              | Some project =>
                  <["project_id" := VStr (Project.id project)]> arguments
              | None => arguments
              end in
            match arguments !! "project_id" with
            | None =>
                raise (Raise ValidationError
                         ("Project not found: " +:+ format_value project_name)
                         None)
            | Some _ => ret arguments
            end
          else ret arguments in
        let* success := update_task task_id arguments in
        if negb success
        then raise (Raise TodoistError "Failed to update task" None)
        else
          let* updated_task := get_task task_id in
          let* task_model :=
            validated "TaskMCPOutput"
              (TaskMCPOutput.from_todoist updated_task) in
          ret (TaskUpdated task_model)
  end.

Definition handle_update_task := decorated "handle_update_task" handle_update_task_body.

Definition handle_complete_task_body (arguments : gmap string value)
    : M W reply :=
  let task_id := get arguments "task_id" in
  if negb (truthy task_id)
  then raise (Raise ValidationError "Task ID is required" None)
  else
    let* task_content :=
      try_except
        (let* original_task := get_task task_id in
         ret (Task.content original_task))
        (fun _ => ret "the task") in
    let* success := close_task task_id in
    if negb success
    then raise (Raise TodoistError "Failed to complete task" None)
    else ret (TaskCompleted task_content task_id).

Definition handle_complete_task := decorated "handle_complete_task" handle_complete_task_body.

Definition handle_delete_task_body (arguments : gmap string value)
    : M W reply :=
  let task_id := get arguments "task_id" in
  if negb (truthy task_id)
  then raise (Raise ValidationError "Task ID is required" None)
  else
    let* task_content :=
      try_except
        (let* original_task := get_task task_id in
         ret (Task.content original_task))
        (fun _ => ret "the task") in
    let* success := delete_task task_id in
    if negb success
    then raise (Raise TodoistError "Failed to delete task" None)
    else ret (TaskDeleted task_content task_id).

Definition handle_delete_task := decorated "handle_delete_task" handle_delete_task_body.

(** *** tools/projects.py *)

(** [items[:limit]] under [isinstance(limit, int) and limit > 0]; a boolean
    is an [int] too. *)
Definition apply_limit {A} (limit : value) (items : list A) : list A :=
  match limit with
  | VInt n => if 0 <? n then take (Z.to_nat n) items else items
  | VBool true => take 1 items
  | _ => items
  end.

Definition handle_list_projects_body (arguments : gmap string value)
    : M W reply :=
  let* projects := get_projects in
  let limit := get arguments "limit" in
  let projects := apply_limit limit projects in
  ret (ProjectsListed (project_entries projects)).

Definition handle_list_projects := decorated "handle_list_projects" handle_list_projects_body.

Definition handle_create_project_body (arguments : gmap string value)
    : M W reply :=
  let parent_id := get arguments "parent_id" in
  let parent_name := get arguments "parent_name" in
  let arguments := delete "parent_name" arguments in
  let* parent_id :=
    if truthy parent_name && negb (truthy parent_id) then
      let* projects := get_projects in
      let* found := lift (scan Project.name parent_name projects) in
      let parent_id :=
        match found with
        | Some project => VStr (Project.id project)
        | None => parent_id
        end in
      if negb (truthy parent_id)
      then raise (Raise ValidationError
                    ("Parent project not found: " +:+ format_value parent_name)
                    None)
      else ret parent_id
    else ret parent_id in
  match arguments !! "name" with
  | None => raise (Raise KeyError "'name'" None)
  | Some name =>
      let* project_input :=
        validated "ProjectMCPInput"
          (ProjectMCPInput.validate name parent_id (get arguments "color")
             (default (VBool false) (arguments !! "favorite"))) in
      let* project :=
        create_project (ProjectMCPInput.name project_input)
          (ProjectMCPInput.parent_id project_input)
          (ProjectMCPInput.color project_input)
          (ProjectMCPInput.favorite project_input) in
      let project_model := ProjectMCPOutput.from_todoist project in
      let* parent :=
        if truthy parent_id then
          try_except
            (let* parent := get_project parent_id in
             ret (Some (inl (Project.name parent))))
            (fun _ => ret (Some (inr parent_id)))
        else ret None in
      ret (ProjectCreated project_model parent)
  end.

Definition handle_create_project := decorated "handle_create_project" handle_create_project_body.

Definition handle_update_project_body (arguments : gmap string value)
    : M W reply :=
  let project_id := get arguments "project_id" in
  let arguments := delete "project_id" arguments in
  let project_name := get arguments "project_name" in
  let arguments := delete "project_name" arguments in
  if negb (truthy project_id) && negb (truthy project_name)
  then raise (Raise ValidationError
                "Either project_id or project_name is required" None)
  else
    let* project_id :=
      if negb (truthy project_id) && truthy project_name then
        let* projects := get_projects in
        let* found := lift (scan Project.name project_name projects) in
        let project_id :=
          match found with
          | Some project => VStr (Project.id project)
          | None => project_id
          end in
        if negb (truthy project_id)
        then raise (Raise ValidationError
                      ("Project not found: " +:+ format_value project_name)
                      None)
        else ret project_id
      else ret project_id in
    let* original_project := get_project project_id in
    let* success :=
      update_project project_id (get arguments "name")
        (get arguments "color") (get arguments "favorite") in
    if negb success
    then raise (Raise TodoistError "Failed to update project" None)
    else
      let* updated_project := get_project project_id in
      let project_model := ProjectMCPOutput.from_todoist updated_project in
      let* parent :=
        match ProjectMCPOutput.parent_id project_model with
        | Some parent_id =>
            if negb (String.eqb parent_id "") then
              try_except
                (let* parent := get_project (VStr parent_id) in
                 ret (Some (inl (Project.name parent))))
                (fun _ => ret (Some (inr (VStr parent_id))))
            else ret None
        | None => ret None
        end in
      ret (ProjectUpdated project_model parent).

Definition handle_update_project := decorated "handle_update_project" handle_update_project_body.

Definition handle_delete_project_body (arguments : gmap string value)
    : M W reply :=
  let project_id := get arguments "project_id" in
  let project_name := get arguments "project_name" in
  if negb (truthy project_id) && negb (truthy project_name)
  then raise (Raise ValidationError
                "Either project_id or project_name is required" None)
  else
    let* project_id :=
      if negb (truthy project_id) && truthy project_name then
        let* projects := get_projects in
        let* found := lift (scan Project.name project_name projects) in
        let project_id :=
          match found with
          | Some project => VStr (Project.id project)
          | None => project_id
          end in
        if negb (truthy project_id)
        then raise (Raise ValidationError
                      ("Project not found: " +:+ format_value project_name)
                      None)
        else ret project_id
      else ret project_id in
    let* project_name :=
      try_except
        (let* original_project := get_project project_id in
         ret (VStr (Project.name original_project)))
        (fun _ =>
           ret (if truthy project_name then project_name
                else VStr "the project")) in
    let* success := delete_project project_id in
    if negb success
    then raise (Raise TodoistError "Failed to delete project" None)
    else ret (ProjectDeleted project_name project_id).

Definition handle_delete_project := decorated "handle_delete_project" handle_delete_project_body.

(** *** tools/labels.py *)

Definition handle_list_labels_body (arguments : gmap string value)
    : M W reply :=
  let* labels := get_labels in
  let limit := get arguments "limit" in
  let labels := apply_limit limit labels in
  let sorted_labels := sort_by label_order labels in
  ret (LabelsListed (map LabelMCPOutput.from_todoist sorted_labels)).

Definition handle_list_labels := decorated "handle_list_labels" handle_list_labels_body.

Definition handle_create_label_body (arguments : gmap string value)
    : M W reply :=
  match arguments !! "name" with
  | None => raise (Raise KeyError "'name'" None)
  | Some name =>
      let* label_input :=
        validated "LabelMCPInput"
          (LabelMCPInput.validate name (get arguments "color")
             (default (VBool false) (arguments !! "favorite"))) in
      let* label :=
        create_label (LabelMCPInput.name label_input)
          (LabelMCPInput.color label_input)
          (LabelMCPInput.favorite label_input) in
      ret (LabelCreated (LabelMCPOutput.from_todoist label))
  end.

Definition handle_create_label := decorated "handle_create_label" handle_create_label_body.

Definition handle_update_label_body (arguments : gmap string value)
    : M W reply :=
  let label_id := get arguments "label_id" in
  let arguments := delete "label_id" arguments in
  let label_name := get arguments "label_name" in
  let arguments := delete "label_name" arguments in
  if negb (truthy label_id) && negb (truthy label_name)
  then raise (Raise ValidationError
                "Either label_id or label_name is required" None)
  else
    let* label_id :=
      if negb (truthy label_id) && truthy label_name then
        let* labels := get_labels in
        let* found := lift (scan Label.name label_name labels) in
        let label_id :=
          match found with
          | Some label => VStr (Label.id label)
          | None => label_id
          end in
        if negb (truthy label_id)
        then raise (Raise ValidationError
                      ("Label not found: " +:+ format_value label_name) None)
        else ret label_id
      else ret label_id in
    let* original_label := get_label label_id in
    let* success :=
      update_label label_id (get arguments "name") (get arguments "color")
        (get arguments "favorite") in
    if negb success
    then raise (Raise TodoistError "Failed to update label" None)
    else
      let* updated_label := get_label label_id in
      ret (LabelUpdated (LabelMCPOutput.from_todoist updated_label)).

Definition handle_update_label := decorated "handle_update_label" handle_update_label_body.

Definition handle_delete_label_body (arguments : gmap string value)
    : M W reply :=
  let label_id := get arguments "label_id" in
  let label_name := get arguments "label_name" in
  if negb (truthy label_id) && negb (truthy label_name)
  then raise (Raise ValidationError
                "Either label_id or label_name is required" None)
  else
    let* label_id :=
      if negb (truthy label_id) && truthy label_name then
        let* labels := get_labels in
        let* found := lift (scan Label.name label_name labels) in
        let label_id :=
          match found with
          | Some label => VStr (Label.id label)
          | None => label_id
          end in
        if negb (truthy label_id)
        then raise (Raise ValidationError
                      ("Label not found: " +:+ format_value label_name) None)
        else ret label_id
      else ret label_id in
    let* label_name :=
      try_except
        (let* original_label := get_label label_id in
         ret (VStr (Label.name original_label)))
        (fun _ =>
           ret (if truthy label_name then label_name else VStr "the label")) in
    let* success := delete_label label_id in
    if negb success
    then raise (Raise TodoistError "Failed to delete label" None)
    else ret (LabelDeleted label_name label_id).

Definition handle_delete_label := decorated "handle_delete_label" handle_delete_label_body.
End Remote.

Arguments handle_exceptions {A B} func_name func a /.

(** ** Remote services used to run the handlers on concrete inputs *)

Definition sample_task (content : string) : Task.t :=
  {| Task.id := "1"; Task.content := content; Task.description := None;
     Task.project_id := Some "7"; Task.section_id := None;
     Task.parent_id := None; Task.labels := []; Task.priority := 1;
     Task.due := None; Task.url := "https://todoist.com/app/task/1" |}.

Definition sample_project : Project.t :=
  {| Project.id := "7"; Project.name := "Home"; Project.color := "grey";
     Project.parent_id := None; Project.order := Some 1;
     Project.is_favorite := false; Project.is_inbox_project := false;
     Project.url := "https://todoist.com/app/project/7" |}.

Definition sample_label : Label.t :=
  {| Label.id := "3"; Label.name := "urgent"; Label.color := "red";
     Label.order := Some 1; Label.is_favorite := false |}.

(** A service holding [n] copies of each record.  A created task is
    acknowledged with the content "acknowledged"; a task read afterwards has
    the content "stored".  The state counts the round trips. *)
Definition demo_sdk (n : nat) (R : Type) (c : call R) (w : nat)
    : (string + R) * nat :=
  match c in call R return (string + R) * nat with
  | api_get_tasks _ _ _ _ _ _ => (inr (replicate n (sample_task "stored")), S w)
  | api_get_task _ => (inr (sample_task "stored"), S w)
  | api_add_task _ _ _ _ _ _ _ _ _ _ _ _ _ =>
      (inr (sample_task "acknowledged"), S w)
  | api_update_task _ _ => (inr true, S w)
  | api_close_task _ => (inr true, S w)
  | api_reopen_task _ => (inr true, S w)
  | api_delete_task _ => (inr true, S w)
  | api_get_projects => (inr (replicate n sample_project), S w)
  | api_get_project _ => (inr sample_project, S w)
  | api_add_project _ _ _ _ => (inr sample_project, S w)
  | api_update_project _ _ _ _ => (inr true, S w)
  | api_delete_project _ => (inr true, S w)
  | api_get_labels => (inr (replicate n sample_label), S w)
  | api_get_label _ => (inr sample_label, S w)
  | api_add_label _ _ _ => (inr sample_label, S w)
  | api_update_label _ _ _ _ => (inr true, S w)
  | api_delete_label _ => (inr true, S w)
  end.

(** A service on which every call raises, with the text [e]. *)
Definition down_sdk (e : string) (R : Type) (c : call R) (w : nat)
    : (string + R) * nat :=
  (inl e, w).

(** Library texts for the concrete runs (Python 3.10 names the qualified
    method in a binding error). *)
Definition demo_text (l : library_error) : string :=
  match l with
  | UnexpectedKeyword callee _ =>
      "TodoistClient." +:+ callee +:+ "() got an unexpected keyword argument"
  | InvalidModel model => "1 validation error for " +:+ model
  | ListText _ => "[...]"
  end.

(** [hay] contains [needle]. *)
Definition contains (needle hay : string) : Prop :=
  exists before after, hay = before +:+ needle +:+ after.

(** The value bound to a keyword parameter of a call. *)
Definition keyword (k : string) (fields : list (string * value)) : value :=
  default VNone (snd <$> find (fun kv => String.eqb (fst kv) k) fields).

(** The identifier that a call carries for a project reference, a parent
    reference and a label reference; [api_get_projects] and [api_get_labels]
    are the round trips of the resolver. *)
Definition honours_project (v : value) (ev : event) : Prop :=
  match ev with
  | Called c =>
      match c with
      | api_get_projects => False
      | api_get_tasks project_id _ _ _ _ _ => VStr <$> project_id = Some v
      | api_add_task _ _ project_id _ _ _ _ _ _ _ _ _ _ =>
          VStr <$> project_id = Some v
      | api_update_task _ fields => keyword "project_id" fields = v
      | api_update_project project_id _ _ _ => project_id = v
      | api_delete_project project_id => project_id = v
      | _ => True
      end
  end.

Definition honours_parent (v : value) (ev : event) : Prop :=
  match ev with
  | Called c =>
      match c with
      | api_get_projects => False
      | api_add_project _ parent_id _ _ => VStr <$> parent_id = Some v
      | _ => True
      end
  end.

Definition honours_label (v : value) (ev : event) : Prop :=
  match ev with
  | Called c =>
      match c with
      | api_get_labels => False
      | api_get_tasks _ _ label_id _ _ _ => VStr <$> label_id = Some v
      | api_update_label label_id _ _ _ => label_id = v
      | api_delete_label label_id => label_id = v
      | _ => True
      end
  end.

(** The call is one that acts on the reference, and it carries the
    identifier [v] for it. *)
Definition carries_project (v : value) (ev : event) : Prop :=
  match ev with
  | Called c =>
      match c with
      | api_get_tasks project_id _ _ _ _ _ => VStr <$> project_id = Some v
      | api_add_task _ _ project_id _ _ _ _ _ _ _ _ _ _ =>
          VStr <$> project_id = Some v
      | api_update_task _ fields => keyword "project_id" fields = v
      | api_update_project project_id _ _ _ => project_id = v
      | api_delete_project project_id => project_id = v
      | _ => False
      end
  end.

Definition carries_parent (v : value) (ev : event) : Prop :=
  match ev with
  | Called c =>
      match c with
      | api_add_project _ parent_id _ _ => VStr <$> parent_id = Some v
      | _ => False
      end
  end.

Definition carries_label (v : value) (ev : event) : Prop :=
  match ev with
  | Called c =>
      match c with
      | api_get_tasks _ _ label_id _ _ _ => VStr <$> label_id = Some v
      | api_update_label label_id _ _ _ => label_id = v
      | api_delete_label label_id => label_id = v
      | _ => False
      end
  end.

(** The filter that a listing call carries. *)
Definition filter_of (ev : event) : option (option string) :=
  match ev with
  | Called c =>
      match c with
      | api_get_tasks _ _ _ filter _ _ => Some filter
      | _ => None
      end
  end.

Definition is_update_task (ev : event) : bool :=
  match ev with
  | Called c => match c with api_update_task _ _ => true | _ => false end
  end.

Definition is_get_task (ev : event) : bool :=
  match ev with
  | Called c => match c with api_get_task _ => true | _ => false end
  end.

(** The favorite flag that a label creation carries. *)
Definition created_favorite (ev : event) : option (option bool) :=
  match ev with
  | Called c =>
      match c with
      | api_add_label _ _ favorite => Some favorite
      | _ => None
      end
  end.

(** The call reads the task [task_id]. *)
Definition fetches (task_id : value) (ev : event) : Prop :=
  match ev with
  | Called c => match c with api_get_task t => t = task_id | _ => False end
  end.

(** ** Runs *)

Definition result {W A} (o : (exn + A) * W * list event) : exn + A := fst (fst o).
Definition state_after {W A} (o : (exn + A) * W * list event) : W := snd (fst o).
Definition trace {W A} (o : (exn + A) * W * list event) : list event := snd o.

(** ** Concrete invocations *)

Definition list_today_upcoming_p3 : gmap string value :=
  {[ "due_today" := VBool true; "due_upcoming" := VBool true;
     "priority" := VInt 3 ]}.

Definition today_upcoming_p3 : TaskFilterMCPInput.t :=
  {| TaskFilterMCPInput.project_id := None;
     TaskFilterMCPInput.project_name := None;
     TaskFilterMCPInput.section_id := None;
     TaskFilterMCPInput.label_id := None;
     TaskFilterMCPInput.label_name := None;
     TaskFilterMCPInput.filter_string := None;
     TaskFilterMCPInput.due_today := Some true;
     TaskFilterMCPInput.due_upcoming := Some true;
     TaskFilterMCPInput.completed := None;
     TaskFilterMCPInput.priority := Some 3;
     TaskFilterMCPInput.limit := None |}.

Definition create_buy_milk : gmap string value :=
  {[ "content" := VStr "Buy milk" ]}.

Definition update_content : gmap string value :=
  {[ "task_id" := VStr "1"; "content" := VStr "Buy oat milk" ]}.

(** update-task with an empty project_id and a project name that no project
    bears. *)
Definition update_unmatched_name : gmap string value :=
  {[ "task_id" := VStr "1"; "project_id" := VStr "";
     "project_name" := VStr "Nonexistent" ]}.

(** Arguments that give every reference both by identifier and by name. *)
Definition both_given : gmap string value :=
  {[ "task_id" := VStr "1"; "content" := VStr "Buy milk";
     "name" := VStr "Errands";
     "project_id" := VStr "7"; "project_name" := VStr "Work";
     "label_id" := VStr "7"; "label_name" := VStr "later";
     "parent_id" := VStr "7"; "parent_name" := VStr "Work" ]}.

(** A creation that gives the project by an empty identifier and by name. *)
Definition create_unidentified : gmap string value :=
  {[ "content" := VStr "Buy milk"; "project_id" := VStr "";
     "project_name" := VStr "HOME" ]}.

(** An update that gives the project both by identifier and by name. *)
Definition update_in_project : gmap string value :=
  {[ "task_id" := VStr "1"; "project_id" := VStr "7";
     "project_name" := VStr "Work" ]}.

Definition stored_model : TaskMCPOutput.t :=
  {| TaskMCPOutput.id := "1"; TaskMCPOutput.content := "stored";
     TaskMCPOutput.description := ""; TaskMCPOutput.project_id := Some "7";
     TaskMCPOutput.section_id := None; TaskMCPOutput.parent_id := None;
     TaskMCPOutput.labels := []; TaskMCPOutput.priority := 1;
     TaskMCPOutput.due := None;
     TaskMCPOutput.url := "https://todoist.com/app/task/1";
     TaskMCPOutput.is_completed := false |}.

Definition acknowledged_model : TaskMCPOutput.t :=
  {| TaskMCPOutput.id := "1"; TaskMCPOutput.content := "acknowledged";
     TaskMCPOutput.description := ""; TaskMCPOutput.project_id := Some "7";
     TaskMCPOutput.section_id := None; TaskMCPOutput.parent_id := None;
     TaskMCPOutput.labels := []; TaskMCPOutput.priority := 1;
     TaskMCPOutput.due := None;
     TaskMCPOutput.url := "https://todoist.com/app/task/1";
     TaskMCPOutput.is_completed := false |}.

(** ** config.py *)

(** [str.upper()], on ASCII text: the letters a-z are mapped to A-Z and every
    other byte is kept.  On other text the interpreter maps the letters of
    Unicode (and may lengthen the text), which is not modelled. *)
Definition upper_char (c : ascii) : ascii :=
  let n := nat_of_ascii c in
  if (Nat.leb 97 n && Nat.leb n 122)%bool then ascii_of_nat (n - 32) else c.

Fixpoint upper (s : string) : string :=
  match s with
  | EmptyString => EmptyString
  | String c r => String (upper_char c) (upper r)
  end.

#[local] Unset Elimination Schemes.

(** The values of the dictionary that [Config.to_dict] builds. *)
Inductive json :=
| JNone
| JBool (b : bool)
| JInt (n : Z)
| JStr (s : string)
| JDict (entries : list (string * json)).

#[local] Set Elimination Schemes.

(** [s.lower() in ("true", "1", "yes", "y")]. *)
Definition flag (s : string) : bool :=
  bool_decide (lower s ∈ ["true"; "1"; "yes"; "y"]).

Module LogLevel.
Inductive t := DEBUG | INFO | WARNING | ERROR | CRITICAL.

Definition value (l : t) : string :=
  match l with
  | DEBUG => "DEBUG"
  | INFO => "INFO"
  | WARNING => "WARNING"
  | ERROR => "ERROR"
  | CRITICAL => "CRITICAL"
  end.

(** [LogLevel(s)]: the member whose value is [s]; [None] for the
    [ValueError] of the enumeration. *)
Definition of_value (s : string) : option t :=
  if String.eqb s "DEBUG" then Some DEBUG
  else if String.eqb s "INFO" then Some INFO
  else if String.eqb s "WARNING" then Some WARNING
  else if String.eqb s "ERROR" then Some ERROR
  else if String.eqb s "CRITICAL" then Some CRITICAL
  else None.
End LogLevel.

Module TodoistConfig.
Record t := {
  api_token : string;
  request_timeout : Z;
  rate_limit_retry : bool;
  api_url : string
}.
End TodoistConfig.

Module Config.
Record t := {
  server_name : string;
  server_version : string;
  log_level : LogLevel.t;
  debug : bool;
  todoist : TodoistConfig.t;
  extra : list (string * json)
}.

(** [Config.from_env], on the environment [environ]; [int] is the
    interpreter's [int()] on a string, and [None] stands for the [ValueError]
    that it raises on the request timeout. *)
Definition from_env (int : string -> option Z) (environ : gmap string string)
    : option t :=
  let server_name := default "mcp-todoist" (environ !! "MCP_SERVER_NAME") in
  let server_version := default "0.1.0" (environ !! "MCP_SERVER_VERSION") in
  let log_level_str := default "INFO" (environ !! "MCP_LOG_LEVEL") in
  let log_level := default LogLevel.INFO (LogLevel.of_value (upper log_level_str)) in
  let debug_str := default "false" (environ !! "MCP_DEBUG") in
  let debug := flag debug_str in
  let api_token := default "" (environ !! "TODOIST_API_TOKEN") in
  request_timeout ← int (default "30" (environ !! "TODOIST_REQUEST_TIMEOUT"));
  let rate_limit_retry_str := default "true" (environ !! "TODOIST_RATE_LIMIT_RETRY") in
  let rate_limit_retry := flag rate_limit_retry_str in
  let todoist_config :=
    {| TodoistConfig.api_token := api_token;
       TodoistConfig.request_timeout := request_timeout;
       TodoistConfig.rate_limit_retry := rate_limit_retry;
       TodoistConfig.api_url := "https://api.todoist.com/rest/v2" |} in
  Some {| server_name := server_name;
          server_version := server_version;
          log_level := log_level;
          debug := debug;
          todoist := todoist_config;
          extra := [] |}.

Definition to_dict (self : t) : json :=
  JDict
    [ ("server_name", JStr (server_name self));
      ("server_version", JStr (server_version self));
      ("log_level", JStr (LogLevel.value (log_level self)));
      ("debug", JBool (debug self));
      ("todoist",
       JDict
         [ ("api_url", JStr (TodoistConfig.api_url (todoist self)));
           ("request_timeout", JInt (TodoistConfig.request_timeout (todoist self)));
           ("rate_limit_retry", JBool (TodoistConfig.rate_limit_retry (todoist self)));
           ("api_token",
            if negb (String.eqb (TodoistConfig.api_token (todoist self)) "")
            then JStr "***" else JNone) ]);
      ("extra", JDict (extra self)) ].
End Config.

(** The entry of a key in a dictionary. *)
Definition keyword_json (k : string) (entries : list (string * json))
    : option json :=
  snd <$> find (fun kv => String.eqb (fst kv) k) entries.

(** ** client.py: the constructor

    [TodoistClient(api_token)]: the token given, or else the configured one;
    the result is the token that the client holds. *)
Definition TodoistClient (config : Config.t) (api_token : option string)
    : exn + string :=
  let api_token :=
    if truthy_str api_token then default "" api_token
    else TodoistConfig.api_token (Config.todoist config) in
  if String.eqb api_token ""
  then inl (Raise AuthenticationError "Todoist API token not provided" None)
  else inr api_token.

(** ** The dispatchers that the three modules register *)

Section Dispatch.
Context {W : Type}.
Variable sdk : forall R, call R -> W -> (string + R) * W.
Variable library_text : library_error -> string.
Variable config : Config.t.

(** tools/tasks.py, [handle_call_tool]. *)
Definition handle_call_tool_tasks (name : string)
    (arguments : option (gmap string value)) : M W reply :=
  match arguments with
  | None => raise (Raise ValidationError "Arguments are required" None)
  | Some arguments =>
      let* client := lift (TodoistClient config None) in
      if String.eqb name "list-tasks"
      then handle_list_tasks sdk library_text arguments
      else if String.eqb name "create-task"
      then handle_create_task sdk library_text arguments
      else if String.eqb name "update-task"
      then handle_update_task sdk library_text arguments
      else if String.eqb name "complete-task"
      then handle_complete_task sdk arguments
      else if String.eqb name "delete-task"
      then handle_delete_task sdk arguments
      else raise (Raise ValueError ("Unknown tool: " +:+ name) None)
  end.

(** tools/projects.py, [handle_call_tool]. *)
Definition handle_call_tool_projects (name : string)
    (arguments : option (gmap string value)) : M W reply :=
  let arguments := default ∅ arguments in
  let* client := lift (TodoistClient config None) in
  if String.eqb name "list-projects"
  then handle_list_projects sdk arguments
  else if String.eqb name "create-project"
  then handle_create_project sdk library_text arguments
  else if String.eqb name "update-project"
  then handle_update_project sdk library_text arguments
  else if String.eqb name "delete-project"
  then handle_delete_project sdk library_text arguments
  else raise (Raise ValueError ("Unknown tool: " +:+ name) None).

(** tools/labels.py, [handle_call_tool]. *)
Definition handle_call_tool_labels (name : string)
    (arguments : option (gmap string value)) : M W reply :=
  let arguments := default ∅ arguments in
  let* client := lift (TodoistClient config None) in
  if String.eqb name "list-labels"
  then handle_list_labels sdk arguments
  else if String.eqb name "create-label"
  then handle_create_label sdk library_text arguments
  else if String.eqb name "update-label"
  then handle_update_label sdk library_text arguments
  else if String.eqb name "delete-label"
  then handle_delete_label sdk library_text arguments
  else raise (Raise ValueError ("Unknown tool: " +:+ name) None).
End Dispatch.

(** ** Kinds of remote calls *)

(** The calls that only read. *)
Definition is_read (ev : event) : bool :=
  match ev with
  | Called c =>
      match c with
      | api_get_tasks _ _ _ _ _ _ | api_get_task _ | api_get_projects
      | api_get_project _ | api_get_labels | api_get_label _ => true
      | _ => false
      end
  end.

Definition is_get_tasks (ev : event) : bool :=
  match ev with
  | Called c => match c with api_get_tasks _ _ _ _ _ _ => true | _ => false end
  end.

(** The calls of the resolver. *)
Definition is_listing (ev : event) : bool :=
  match ev with
  | Called c =>
      match c with api_get_projects | api_get_labels => true | _ => false end
  end.

(** ** Further concrete invocations *)

(** A service that answers every closing and deletion with a false flag. *)
Definition refusing_sdk (R : Type) (c : call R) (w : nat)
    : (string + R) * nat :=
  match c in call R return (string + R) * nat with
  | api_get_tasks _ _ _ _ _ _ => (inr [sample_task "stored"], S w)
  | api_get_task _ => (inr (sample_task "stored"), S w)
  | api_add_task _ _ _ _ _ _ _ _ _ _ _ _ _ => (inr (sample_task "stored"), S w)
  | api_update_task _ _ => (inr false, S w)
  | api_close_task _ => (inr false, S w)
  | api_reopen_task _ => (inr false, S w)
  | api_delete_task _ => (inr false, S w)
  | api_get_projects => (inr [sample_project], S w)
  | api_get_project _ => (inr sample_project, S w)
  | api_add_project _ _ _ _ => (inr sample_project, S w)
  | api_update_project _ _ _ _ => (inr false, S w)
  | api_delete_project _ => (inr false, S w)
  | api_get_labels => (inr [sample_label], S w)
  | api_get_label _ => (inr sample_label, S w)
  | api_add_label _ _ _ => (inr sample_label, S w)
  | api_update_label _ _ _ _ => (inr false, S w)
  | api_delete_label _ => (inr false, S w)
  end.

Definition create_in_home : gmap string value :=
  {[ "content" := VStr "Buy milk"; "project_name" := VStr "HOME" ]}.

Definition create_in_home_input : TaskMCPInput.t :=
  {| TaskMCPInput.content := "Buy milk";
     TaskMCPInput.description := None;
     TaskMCPInput.project_id := None;
     TaskMCPInput.project_name := Some "HOME";
     TaskMCPInput.section_id := None;
     TaskMCPInput.parent_id := None;
     TaskMCPInput.order := None;
     TaskMCPInput.labels := None;
     TaskMCPInput.priority := None;
     TaskMCPInput.due_string := None;
     TaskMCPInput.due_date := None;
     TaskMCPInput.due_datetime := None;
     TaskMCPInput.due_lang := None;
     TaskMCPInput.assignee_id := None |}.

Definition complete_one : gmap string value := {[ "task_id" := VStr "1" ]}.

Definition delete_urgent : gmap string value :=
  {[ "label_name" := VStr "Urgent"; "project_name" := VStr "home" ]}.

Definition create_red_label : gmap string value :=
  {[ "name" := VStr "work"; "color" := VStr "red" ]}.

Definition create_pink_label : gmap string value :=
  {[ "name" := VStr "work"; "color" := VStr "pink" ]}.

Definition create_under_unknown : gmap string value :=
  {[ "name" := VStr "Errands"; "parent_name" := VStr "Nonexistent" ]}.

Definition limit_two : gmap string value := {[ "limit" := VInt 2 ]}.

Definition limit_two_input : TaskFilterMCPInput.t :=
  {| TaskFilterMCPInput.project_id := None;
     TaskFilterMCPInput.project_name := None;
     TaskFilterMCPInput.section_id := None;
     TaskFilterMCPInput.label_id := None;
     TaskFilterMCPInput.label_name := None;
     TaskFilterMCPInput.filter_string := None;
     TaskFilterMCPInput.due_today := None;
     TaskFilterMCPInput.due_upcoming := None;
     TaskFilterMCPInput.completed := None;
     TaskFilterMCPInput.priority := None;
     TaskFilterMCPInput.limit := Some 2 |}.

Definition rename_label : gmap string value :=
  {[ "label_id" := VStr "3"; "name" := VStr "soon" ]}.

(** A task due in the year 2100, and one due in 2030. *)
Definition task_due (date : string) : Task.t :=
  {| Task.id := "2"; Task.content := "Renew passport";
     Task.description := None; Task.project_id := None;
     Task.section_id := None; Task.parent_id := None; Task.labels := [];
     Task.priority := 1;
     Task.due := Some {| Due.date := Some date; Due.string_ := None;
                         Due.datetime := None; Due.recurring := None |};
     Task.url := "https://todoist.com/app/task/2" |}.

Definition sample_config (token : string) : Config.t :=
  {| Config.server_name := "mcp-todoist";
     Config.server_version := "0.1.0";
     Config.log_level := LogLevel.INFO;
     Config.debug := false;
     Config.todoist :=
       {| TodoistConfig.api_token := token;
          TodoistConfig.request_timeout := 30;
          TodoistConfig.rate_limit_retry := true;
          TodoistConfig.api_url := "https://api.todoist.com/rest/v2" |};
     Config.extra := [] |}.

(** An [int()] that reads "30" only. *)
Definition int_30 (s : string) : option Z :=
  if String.eqb s "30" then Some 30 else None.

Definition sample_environ : gmap string string :=
  {[ "MCP_LOG_LEVEL" := "Warning"; "MCP_DEBUG" := "Yes" ]}.

(** Projects to run the tree on. *)
Definition project_under (id : string) (parent_id : option string)
    : Project.t :=
  {| Project.id := id; Project.name := "Project " +:+ id;
     Project.color := "grey"; Project.parent_id := parent_id;
     Project.order := None; Project.is_favorite := false;
     Project.is_inbox_project := false;
     Project.url := "https://todoist.com/app/project/" +:+ id |}.

Definition circular_listing : list Project.t :=
  [ project_under "1" (Some "2"); project_under "2" (Some "1");
    project_under "3" None; project_under "4" (Some "3") ].

Definition orphan_listing : list Project.t :=
  [ project_under "1" None; project_under "2" (Some "1");
    project_under "5" (Some "9") ].

(** A service holding [n] projects with the identifiers "1" to "n", none of
    them below another, and [n] copies of every other record. *)
Definition numbered_sdk (n : nat) (R : Type) (c : call R) (w : nat)
    : (string + R) * nat :=
  match c in call R return (string + R) * nat with
  | api_get_projects =>
      (inr (map (fun i : nat => project_under (pretty i) None) (seq 1 n)), S w)
  | c => demo_sdk n _ c w
  end.

(** ** Strings *)

Lemma append_cons (a : ascii) (p r : string) :
  String a p +:+ r = String a (p +:+ r).
Proof. reflexivity. Qed.

Lemma append_assoc (a b c : string) : (a +:+ b) +:+ c = a +:+ b +:+ c.
Proof.
  induction a as [|x a IH]; [reflexivity|].
  rewrite !append_cons, IH. reflexivity.
Qed.

Lemma prefix_app (p s : string) :
  String.prefix p s = true <-> exists r, s = p +:+ r.
Proof.
  revert s. induction p as [|a p IH]; intros s.
  - split; [intros _; exists s; reflexivity | intros _; destruct s; reflexivity].
  - destruct s as [|b s]; simpl.
    + split; [discriminate | intros [r Hr]; discriminate].
    + destruct (Ascii.ascii_dec a b) as [->|Hne].
      * rewrite IH. split; intros [r Hr]; exists r;
          rewrite append_cons in *; congruence.
      * split; [discriminate | intros [r Hr]; rewrite append_cons in Hr; congruence].
Qed.

Lemma str_in_contains (needle hay : string) :
  str_in needle hay = true <-> contains needle hay.
Proof.
  unfold contains. induction hay as [|a hay IH].
  - cbn [str_in]. rewrite orb_false_r, prefix_app. split.
    + intros [r Hr]. exists "", r. exact Hr.
    + intros [before [after H]]. destruct before; [eauto | discriminate].
  - cbn [str_in]. rewrite orb_true_iff, prefix_app, IH. split.
    + intros [[r Hr] | [before [after H]]].
      * exists "", r. exact Hr.
      * exists (String a before), after. rewrite append_cons. congruence.
    + intros [before [after H]]. destruct before as [|b before].
      * left. exists after. exact H.
      * right. exists before, after. rewrite append_cons in H. congruence.
Qed.

Section Properties.
Context {W : Type}.
Variable sdk : forall R, call R -> W -> (string + R) * W.
Variable library_text : library_error -> string.

(** The decorator does not see what a coroutine raises: a decorated
    [async def] behaves as its body. *)
Remark decorated_coroutine {A B} (name : string) (body : A -> M W B) (a : A) :
  decorated name body a = body a.
Proof. reflexivity. Qed.

Lemma task_models_pure (tasks : list Task.t) (w : W) :
  exists r, task_models library_text tasks w = (r, w, []).
Proof.
  induction tasks as [|task rest [r IH]]; simpl.
  - eexists; reflexivity.
  - unfold bind, validated.
    destruct (TaskMCPOutput.from_todoist task); simpl.
    + rewrite IH. destruct r; eexists; reflexivity.
    + eexists; reflexivity.
Qed.

Lemma task_models_length (tasks : list Task.t) (w w' : W) models t :
  task_models library_text tasks w = (inr models, w', t) ->
  length models = length tasks.
Proof.
  revert models w' t. induction tasks as [|task rest IH]; simpl; intros models w' t.
  - unfold ret. intros [= <- _ _]. reflexivity.
  - unfold bind, validated.
    destruct (TaskMCPOutput.from_todoist task); simpl; [|discriminate].
    destruct (task_models library_text rest w) as [[[e|ms] w1] t1] eqn:E;
      simpl; [discriminate|].
    intros [= <- _ _]. simpl. f_equal. eapply IH. reflexivity.
Qed.
End Properties.

(** ** The project tree *)

Section ProjectTree.
#[local] Abbreviation P := ProjectMCPOutput.t.
#[local] Abbreviation pid := ProjectMCPOutput.id.
#[local] Abbreviation par := ProjectMCPOutput.parent_id.

Lemma dict_get_set {V} (k k' : string) (v : V) (d : list (string * V)) :
  dict_get k (dict_set k' v d)
  = if String.eqb k' k then Some v else dict_get k d.
Proof.
  induction d as [|[k0 v0] d IH]; simpl; [reflexivity|].
  destruct (String.eqb k0 k') eqn:E0; simpl.
  - apply String.eqb_eq in E0 as ->. destruct (String.eqb k' k); reflexivity.
  - rewrite IH. destruct (String.eqb k0 k) eqn:E1; [|reflexivity].
    apply String.eqb_eq in E1 as ->.
    destruct (String.eqb k' k) eqn:E2; [|reflexivity].
    apply String.eqb_eq in E2 as ->. rewrite String.eqb_refl in E0.
    discriminate.
Qed.

Lemma dict_set_elem {V} (k : string) (v : V) (d : list (string * V)) e :
  e ∈ dict_set k v d -> e = (k, v) \/ e ∈ d.
Proof.
  induction d as [|[k0 v0] d IH]; simpl.
  - intros H. apply list_elem_of_singleton in H. left. exact H.
  - destruct (String.eqb k0 k) eqn:E0; intros H;
      apply elem_of_cons in H as [H | H].
    + apply String.eqb_eq in E0 as ->. left. exact H.
    + right. apply elem_of_cons. right. exact H.
    + right. apply elem_of_cons. left. exact H.
    + destruct (IH H) as [H' | H']; [left; exact H'|].
      right. apply elem_of_cons. right. exact H'.
Qed.

Lemma dict_set_keys {V} (k : string) (v : V) (d : list (string * V)) :
  NoDup (map fst d) -> NoDup (map fst (dict_set k v d)).
Proof.
  induction d as [|[k0 v0] d IH]; simpl; intros H.
  - apply NoDup_singleton.
  - apply NoDup_cons in H as [Hn H].
    destruct (String.eqb k0 k) eqn:E0; simpl.
    + apply NoDup_cons. split; assumption.
    + apply NoDup_cons. split; [|apply IH; exact H].
      intros Hin. apply list_elem_of_fmap in Hin as (e & He & Hin).
      apply dict_set_elem in Hin as [-> | Hin].
      * simpl in He. subst k0. rewrite String.eqb_refl in E0. discriminate.
      * apply Hn. apply list_elem_of_fmap. exists e. split; assumption.
Qed.

Lemma dict_set_length {V} (k : string) (v : V) (d : list (string * V)) :
  (length (dict_set k v d) <= S (length d))%nat.
Proof.
  induction d as [|[k0 v0] d IH]; simpl; [lia|].
  destruct (String.eqb k0 k); simpl; lia.
Qed.

Lemma dict_get_elem {V} (k : string) (v : V) (d : list (string * V)) :
  dict_get k d = Some v -> (k, v) ∈ d.
Proof.
  induction d as [|[k0 v0] d IH]; simpl; [discriminate|].
  destruct (String.eqb k0 k) eqn:E0; intros H.
  - apply String.eqb_eq in E0 as ->. injection H as ->. apply elem_of_cons.
    left. reflexivity.
  - apply elem_of_cons. right. apply IH. exact H.
Qed.

Lemma elem_dict_get {V} (k : string) (v : V) (d : list (string * V)) :
  NoDup (map fst d) -> (k, v) ∈ d -> dict_get k d = Some v.
Proof.
  induction d as [|[k0 v0] d IH]; simpl; intros Hn H.
  - apply elem_of_nil in H. contradiction.
  - apply NoDup_cons in Hn as [Hk Hn]. apply elem_of_cons in H as [H | H].
    + injection H as <- <-. rewrite String.eqb_refl. reflexivity.
    + destruct (String.eqb k0 k) eqn:E0; [|apply IH; assumption].
      apply String.eqb_eq in E0 as ->. exfalso. apply Hk.
      apply list_elem_of_fmap. exists (k, v). split; [reflexivity | exact H].
Qed.

Lemma dict_get_map {V} (f : V -> V) (k : string) (d : list (string * V)) :
  dict_get k (map (fun entry => (fst entry, f (snd entry))) d)
  = f <$> dict_get k d.
Proof.
  induction d as [|[k0 v0] d IH]; simpl; [reflexivity|].
  destruct (String.eqb k0 k); [reflexivity | exact IH].
Qed.

Lemma insert_by_perm {A} (key : A -> Z) (x : A) (l : list A) :
  insert_by key x l ≡ₚ x :: l.
Proof.
  induction l as [|y l IH]; simpl; [reflexivity|].
  destruct (key x <=? key y); [reflexivity|].
  rewrite IH. apply Permutation_swap.
Qed.

Lemma sort_by_perm {A} (key : A -> Z) (l : list A) : sort_by key l ≡ₚ l.
Proof.
  induction l as [|x l IH]; simpl; [reflexivity|].
  rewrite insert_by_perm. rewrite IH. reflexivity.
Qed.

Lemma sort_by_elem {A} (key : A -> Z) (l : list A) (x : A) :
  x ∈ sort_by key l <-> x ∈ l.
Proof. rewrite (sort_by_perm key l). reflexivity. Qed.

Lemma insert_by_sorted {A} (key : A -> Z) (x : A) (l : list A) :
  StronglySorted (fun a b => key a <= key b) l ->
  StronglySorted (fun a b => key a <= key b) (insert_by key x l).
Proof.
  induction l as [|y l IH]; simpl; intros Hs.
  - repeat constructor.
  - apply StronglySorted_inv in Hs as [Hs Hy].
    destruct (key x <=? key y) eqn:E.
    + apply Z.leb_le in E. constructor; [constructor; assumption|].
      constructor; [exact E|].
      eapply Forall_impl; [exact Hy|]. simpl. intros z Hz. lia.
    + apply Z.leb_gt in E. constructor; [apply IH; exact Hs|].
      rewrite (insert_by_perm key x l). constructor; [lia | exact Hy].
Qed.

Lemma sort_by_sorted {A} (key : A -> Z) (l : list A) :
  StronglySorted (fun a b => key a <= key b) (sort_by key l).
Proof.
  induction l as [|x l IH]; simpl; [constructor|].
  apply insert_by_sorted. exact IH.
Qed.

Lemma insert_by_stable {A} (key : A -> Z) (k : Z) (x : A) (l : list A) :
  filter (fun a => key a = k) (insert_by key x l)
  = filter (fun a => key a = k) (x :: l).
Proof.
  induction l as [|y l IH]; simpl; [reflexivity|].
  destruct (key x <=? key y) eqn:E; [reflexivity|].
  apply Z.leb_gt in E. rewrite filter_cons, IH, !filter_cons.
  destruct (decide (key y = k)) as [Hy|Hy];
    destruct (decide (key x = k)) as [Hx|Hx]; try reflexivity.
  lia.
Qed.

Lemma sort_by_stable {A} (key : A -> Z) (k : Z) (l : list A) :
  filter (fun a => key a = k) (sort_by key l) = filter (fun a => key a = k) l.
Proof.
  induction l as [|x l IH]; simpl; [reflexivity|].
  rewrite insert_by_stable, !filter_cons, IH. reflexivity.
Qed.

(** *** The dictionary of the models *)

Lemma project_map_acc (Q : string * P -> Prop) (projects : list Project.t)
    (d : list (string * P)) :
  Forall (fun project =>
            Q (Project.id project, ProjectMCPOutput.from_todoist project))
    projects ->
  NoDup (map fst d) /\ Forall Q d ->
  let d' := foldl (fun d project =>
                     dict_set (Project.id project)
                       (ProjectMCPOutput.from_todoist project) d) d projects in
  NoDup (map fst d') /\ Forall Q d'
  /\ (length d' <= length d + length projects)%nat.
Proof.
  revert d. induction projects as [|p projects IH]; simpl; intros d HQ [Hn Hd].
  - split; [exact Hn|]. split; [exact Hd | lia].
  - apply Forall_cons in HQ as [Hp HQ].
    destruct (IH (dict_set (Project.id p) (ProjectMCPOutput.from_todoist p) d) HQ)
      as (H1 & H2 & H3).
    + split; [apply dict_set_keys; exact Hn|].
      apply Forall_forall. intros e He.
      apply dict_set_elem in He as [-> | He]; [exact Hp|].
      revert e He. apply Forall_forall. exact Hd.
    + split; [exact H1|]. split; [exact H2|].
      pose proof (dict_set_length (Project.id p)
                    (ProjectMCPOutput.from_todoist p) d). lia.
Qed.

Lemma project_map_entries (projects : list Project.t) :
  NoDup (map fst (project_map projects))
  /\ Forall (fun entry =>
               pid (snd entry) = fst entry
               /\ exists project,
                    project ∈ projects
                    /\ snd entry = ProjectMCPOutput.from_todoist project)
       (project_map projects)
  /\ (length (project_map projects) <= length projects)%nat.
Proof.
  unfold project_map.
  apply (project_map_acc
           (fun entry =>
              pid (snd entry) = fst entry
              /\ exists project,
                   project ∈ projects
                   /\ snd entry = ProjectMCPOutput.from_todoist project)
           projects []).
  - apply Forall_forall. intros p Hp. split; [reflexivity|].
    exists p. split; [exact Hp | reflexivity].
  - split; [apply NoDup_nil_2 | apply Forall_nil_2].
Qed.

Lemma dict_set_new {V} (k : string) (v : V) (d : list (string * V)) :
  k ∉ map fst d -> dict_set k v d = d ++ [(k, v)].
Proof.
  induction d as [|[k0 v0] d IH]; simpl; intros H; [reflexivity|].
  apply not_elem_of_cons in H as [Hne H].
  destruct (String.eqb k0 k) eqn:E.
  - apply String.eqb_eq in E. congruence.
  - rewrite (IH H). reflexivity.
Qed.

Lemma project_map_distinct (projects : list Project.t) :
  NoDup (map Project.id projects) ->
  project_map projects
  = map (fun project =>
           (Project.id project, ProjectMCPOutput.from_todoist project))
      projects.
Proof.
  unfold project_map.
  induction projects as [|p projects IH] using rev_ind; [reflexivity|].
  rewrite map_app, foldl_app. simpl. intros Hn.
  apply NoDup_app in Hn as (Hn & Hp & _). rewrite (IH Hn), map_app.
  apply dict_set_new. rewrite map_map. simpl. intros Hin.
  exact (Hp _ Hin ltac:(apply elem_of_cons; left; reflexivity)).
Qed.

Lemma project_map_unique (projects : list Project.t) (a b : P) :
  a ∈ map snd (project_map projects) -> b ∈ map snd (project_map projects) ->
  pid a = pid b -> a = b.
Proof.
  destruct (project_map_entries projects) as (Hn & HF & _).
  intros Ha Hb Hab.
  apply list_elem_of_fmap in Ha as ([ka a'] & -> & Ha).
  apply list_elem_of_fmap in Hb as ([kb b'] & -> & Hb).
  simpl in *.
  pose proof (proj1 (Forall_forall _ _) HF _ Ha) as [Hka _].
  pose proof (proj1 (Forall_forall _ _) HF _ Hb) as [Hkb _].
  simpl in *. subst ka kb. rewrite Hab in Ha.
  pose proof (elem_dict_get _ _ _ Hn Ha) as Ea.
  pose proof (elem_dict_get _ _ _ Hn Hb) as Eb.
  congruence.
Qed.

(** *** The roots and the children *)

Lemma group_project_roots (l : list (string * P)) groups (r : P) :
  r ∈ fst (foldl group_project groups l)
  <-> r ∈ fst groups
      \/ (r ∈ map snd l /\ truthy_str (par r) = false).
Proof.
  revert groups. induction l as [|e l IH]; simpl; intros groups.
  - split; [intros H; left; exact H|].
    intros [H | [H _]]; [exact H|]. apply elem_of_nil in H. contradiction.
  - rewrite IH. unfold group_project at 1.
    destruct (truthy_str (par (snd e))) eqn:Et; simpl.
    + split.
      * intros [H | [H1 H2]]; [left; exact H|]. right.
        split; [apply elem_of_cons; right; exact H1 | exact H2].
      * intros [H | [H1 H2]]; [left; exact H|].
        apply elem_of_cons in H1 as [-> | H1]; [congruence|].
        right. split; assumption.
    + rewrite elem_of_app, list_elem_of_singleton. split.
      * intros [[H | ->] | [H1 H2]].
        -- left. exact H.
        -- right. split; [apply elem_of_cons; left; reflexivity | exact Et].
        -- right. split; [apply elem_of_cons; right; exact H1 | exact H2].
      * intros [H | [H1 H2]]; [left; left; exact H|].
        apply elem_of_cons in H1 as [-> | H1]; [left; right; reflexivity|].
        right. split; assumption.
Qed.

Lemma truthy_str_some (o : option string) :
  truthy_str o = true -> o = Some (default "" o) /\ default "" o <> "".
Proof.
  destruct o as [s|]; simpl; [|discriminate].
  intros H. split; [reflexivity|]. intros ->. discriminate.
Qed.

Lemma group_project_children (Q : P -> Prop) (l : list (string * P)) groups :
  Forall (fun entry => Q (snd entry)) l ->
  (forall k kids c,
      dict_get k (snd groups) = Some kids -> c ∈ kids ->
      Q c /\ par c = Some k /\ k <> "") ->
  forall k kids c,
    dict_get k (snd (foldl group_project groups l)) = Some kids -> c ∈ kids ->
    Q c /\ par c = Some k /\ k <> "".
Proof.
  revert groups. induction l as [|e l IH]; simpl; intros groups HQ Hg;
    [exact Hg|].
  apply Forall_cons in HQ as [He HQ]. apply IH; [exact HQ|].
  unfold group_project.
  destruct (truthy_str (par (snd e))) eqn:Et; simpl; [|exact Hg].
  destruct (truthy_str_some _ Et) as [Hp Hne].
  intros k kids c. rewrite dict_get_set.
  destruct (String.eqb (default "" (par (snd e))) k) eqn:Ek; [|apply Hg].
  apply String.eqb_eq in Ek. intros H Hc. injection H as <-.
  apply elem_of_app in Hc as [Hc | Hc].
  - destruct (dict_get (default "" (par (snd e))) (snd groups)) as [old|] eqn:Eo;
      simpl in Hc.
    + rewrite Ek in Eo. exact (Hg k old c Eo Hc).
    + apply elem_of_nil in Hc. contradiction.
  - apply list_elem_of_singleton in Hc as ->.
    split; [exact He|]. rewrite <- Ek. split; assumption.
Qed.

Lemma group_project_keeps (l : list (string * P)) groups (k : string) (c : P) :
  (exists kids, dict_get k (snd groups) = Some kids /\ c ∈ kids) ->
  exists kids,
    dict_get k (snd (foldl group_project groups l)) = Some kids /\ c ∈ kids.
Proof.
  revert groups. induction l as [|e l IH]; simpl; intros groups H; [exact H|].
  apply IH. destruct H as (kids & Hk & Hc). unfold group_project.
  destruct (truthy_str (par (snd e))); simpl; [|exists kids; split; assumption].
  rewrite dict_get_set.
  destruct (String.eqb (default "" (par (snd e))) k) eqn:Ek.
  - apply String.eqb_eq in Ek. rewrite Ek, Hk. simpl.
    eexists. split; [reflexivity|]. apply elem_of_app. left. exact Hc.
  - exists kids. split; assumption.
Qed.

Lemma group_project_adopts (l : list (string * P)) groups (c : P) :
  c ∈ map snd l -> truthy_str (par c) = true ->
  exists kids,
    dict_get (default "" (par c)) (snd (foldl group_project groups l))
    = Some kids
    /\ c ∈ kids.
Proof.
  revert groups. induction l as [|e l IH]; simpl; intros groups Hc Ht.
  - apply elem_of_nil in Hc. contradiction.
  - apply elem_of_cons in Hc as [-> | Hc]; [|apply IH; assumption].
    apply group_project_keeps. unfold group_project. rewrite Ht. simpl.
    rewrite dict_get_set, String.eqb_refl.
    eexists. split; [reflexivity|]. apply elem_of_app. right.
    apply list_elem_of_singleton. reflexivity.
Qed.

(** *** The recursion *)

Lemma concat_lines_ext {A B} (f g : A -> option (list B)) (l : list A) out :
  (forall a b, a ∈ l -> f a = Some b -> g a = Some b) ->
  concat_lines (map f l) = Some out -> concat_lines (map g l) = Some out.
Proof.
  revert out. induction l as [|a l IH]; simpl; intros out H; [tauto|].
  destruct (f a) as [b|] eqn:Ea; [|discriminate].
  destruct (concat_lines (map f l)) as [rest|] eqn:Er; [|discriminate].
  intros E. rewrite (H a b); [|apply elem_of_cons; left; reflexivity | exact Ea].
  rewrite (IH rest); [exact E | | reflexivity].
  intros a' b' Ha'. apply H. apply elem_of_cons. right. exact Ha'.
Qed.

Lemma concat_lines_some {A B} (f : A -> option (list B)) (l : list A) :
  (forall a, a ∈ l -> is_Some (f a)) -> is_Some (concat_lines (map f l)).
Proof.
  induction l as [|a l IH]; simpl; intros H; [eexists; reflexivity|].
  destruct (H a) as [b ->]; [apply elem_of_cons; left; reflexivity|].
  destruct IH as [rest ->]; [|eexists; reflexivity].
  intros a' Ha'. apply H. apply elem_of_cons. right. exact Ha'.
Qed.

Lemma concat_lines_blocks {A B} (f : A -> option (list B)) (l : list A) out :
  concat_lines (map f l) = Some out -> forall a, a ∈ l -> is_Some (f a).
Proof.
  revert out. induction l as [|a l IH]; simpl; intros out E a' Ha'.
  - apply elem_of_nil in Ha'. contradiction.
  - destruct (f a) as [b|] eqn:Ea; [|discriminate].
    destruct (concat_lines (map f l)) as [rest|] eqn:Er; [|discriminate].
    apply elem_of_cons in Ha' as [-> | Ha'].
    + rewrite Ea. eexists. reflexivity.
    + exact (IH rest eq_refl a' Ha').
Qed.

Lemma concat_lines_elem {A B} (f : A -> option (list B)) (l : list A) out x :
  concat_lines (map f l) = Some out ->
  x ∈ out <-> exists a b, a ∈ l /\ f a = Some b /\ x ∈ b.
Proof.
  revert out. induction l as [|a l IH]; simpl; intros out E.
  - injection E as <-. split; [intros H; apply elem_of_nil in H; contradiction|].
    intros (a & b & H & _). apply elem_of_nil in H. contradiction.
  - destruct (f a) as [b|] eqn:Ea; [|discriminate].
    destruct (concat_lines (map f l)) as [rest|] eqn:Er; [|discriminate].
    injection E as <-. rewrite elem_of_app, (IH rest eq_refl). split.
    + intros [H | (a' & b' & H1 & H2 & H3)].
      * exists a, b. split; [apply elem_of_cons; left; reflexivity|].
        split; assumption.
      * exists a', b'. split; [apply elem_of_cons; right; exact H1|].
        split; assumption.
    + intros (a' & b' & H1 & H2 & H3).
      apply elem_of_cons in H1 as [-> | H1].
      * left. congruence.
      * right. exists a', b'. split; [exact H1|]. split; assumption.
Qed.

Lemma format_project_fuel cp (fuel fuel' : nat) (p : P) (level : nat) out :
  (fuel <= fuel')%nat ->
  format_project fuel cp p level = Some out ->
  format_project fuel' cp p level = Some out.
Proof.
  revert fuel' p level out.
  induction fuel as [|fuel IH]; intros fuel' p level out Hle; simpl;
    [discriminate|].
  destruct fuel' as [|fuel']; [lia|]. simpl.
  destruct (dict_get (pid p) cp) as [kids|]; [|tauto].
  destruct (concat_lines (map _ kids)) as [formatted|] eqn:E; [|discriminate].
  intros H.
  rewrite (concat_lines_ext
             (fun child => format_project fuel cp child (S level))
             (fun child => format_project fuel' cp child (S level))
             kids formatted); [exact H | | exact E].
  intros a b _. apply IH. lia.
Qed.

Lemma linked_parent (p : P) (path : list P) (a : P) :
  linked (p :: path) -> a ∈ p :: path ->
  truthy_str (par a) = false \/ exists b, b ∈ path /\ par a = Some (pid b).
Proof.
  revert p. induction path as [|q path IH]; intros p Hl Ha.
  - apply list_elem_of_singleton in Ha as ->. left. exact Hl.
  - destruct Hl as (Hp & _ & Hl). apply elem_of_cons in Ha as [-> | Ha].
    + right. exists q. split; [apply elem_of_cons; left; reflexivity | exact Hp].
    + destruct (IH q Hl Ha) as [H | (b & Hb & H)]; [left; exact H|].
      right. exists b. split; [apply elem_of_cons; right; exact Hb | exact H].
Qed.

Section Recursion.
Variable V : list P.
Variable cp : list (string * list P).
Hypothesis V_unique : forall a b, a ∈ V -> b ∈ V -> pid a = pid b -> a = b.
Hypothesis cp_children :
  forall k kids c,
    dict_get k cp = Some kids -> c ∈ kids ->
    c ∈ V /\ par c = Some k /\ k <> "".

Lemma format_project_ends (fuel : nat) (p : P) (path : list P) (level : nat) :
  Forall (fun a => a ∈ V) (p :: path) ->
  linked (p :: path) ->
  NoDup (map pid (p :: path)) ->
  (length V < fuel + length (p :: path))%nat ->
  is_Some (format_project fuel cp p level).
Proof.
  revert p path level.
  induction fuel as [|fuel IH]; intros p path level HV Hl Hn Hlen.
  - exfalso.
    assert (length (p :: path) <= length V)%nat; [|lia].
    apply submseteq_length, NoDup_submseteq.
    + apply (NoDup_fmap_1 pid). exact Hn.
    + apply Forall_forall. exact HV.
  - simpl. destruct (dict_get (pid p) cp) as [kids|] eqn:Ek;
      [|eexists; reflexivity].
    destruct (concat_lines_some
                (fun child => format_project fuel cp child (S level)) kids)
      as [formatted ->]; [|eexists; reflexivity].
    intros c Hc. destruct (cp_children _ _ _ Ek Hc) as (HcV & Hcp & Hne).
    apply (IH c (p :: path)).
    + apply Forall_cons. split; assumption.
    + split; [exact Hcp|]. split; [exact Hne | exact Hl].
    + change (NoDup (pid c :: map pid (p :: path))).
      apply NoDup_cons. split; [|exact Hn].
      intros Hin. apply list_elem_of_fmap in Hin as (a & Ha & Hin).
      assert (c = a) as <-.
      { apply V_unique; [exact HcV | | exact Ha].
        exact (proj1 (Forall_forall _ _) HV a Hin). }
      destruct (linked_parent p path c Hl Hin) as [Hf | (b & Hb & Hpb)].
      * rewrite Hcp in Hf. simpl in Hf.
        destruct (String.eqb (pid p) "") eqn:E; [|discriminate].
        apply String.eqb_eq in E. contradiction.
      * rewrite Hcp in Hpb. injection Hpb as Hpb.
        simpl in Hn. apply NoDup_cons in Hn as [Hn _]. apply Hn.
        rewrite Hpb. apply list_elem_of_fmap. exists b. split; [reflexivity|].
        exact Hb.
    + simpl in *. lia.
Qed.

Lemma format_project_lines (fuel : nat) (p : P) (level : nat) out :
  format_project fuel cp p level = Some out ->
  (level, p) ∈ out
  /\ (forall n x,
         (n, x) ∈ out ->
         (n = level /\ x = p)
         \/ exists m q kids,
              n = S m /\ (m, q) ∈ out /\ dict_get (pid q) cp = Some kids
              /\ x ∈ kids)
  /\ (forall n x kids c,
         (n, x) ∈ out -> dict_get (pid x) cp = Some kids -> c ∈ kids ->
         (S n, c) ∈ out).
Proof.
  revert p level out.
  induction fuel as [|fuel IH]; intros p level out; simpl; [discriminate|].
  destruct (dict_get (pid p) cp) as [kids|] eqn:Ek.
  - destruct (concat_lines (map _ kids)) as [formatted|] eqn:E; [|discriminate].
    intros H. injection H as <-.
    pose proof (fun x => concat_lines_elem _ kids formatted x E) as Hin.
    split; [apply elem_of_cons; left; reflexivity|]. split.
    + intros n x Hx. apply elem_of_cons in Hx as [Hx | Hx].
      * left. injection Hx as -> ->. split; reflexivity.
      * right. apply Hin in Hx as (c & b & Hc & Hb & Hx).
        destruct (IH _ _ _ Hb) as (_ & Hshape & _).
        destruct (Hshape n x Hx) as [[-> ->] | (m & q & kids' & -> & Hq & Hk & Hxk)].
        -- exists level, p, kids. split; [reflexivity|].
           split; [apply elem_of_cons; left; reflexivity|].
           split; assumption.
        -- exists m, q, kids'. split; [reflexivity|].
           split; [|split; assumption].
           apply elem_of_cons. right. apply Hin. exists c, b.
           split; [exact Hc|]. split; assumption.
    + intros n x kids' c Hx Hk Hc. apply elem_of_cons. right. apply Hin.
      apply elem_of_cons in Hx as [Hx | Hx].
      * injection Hx as -> ->. rewrite Ek in Hk. injection Hk as <-.
        destruct (concat_lines_blocks _ kids formatted E c Hc) as [b Hb].
        exists c, b. split; [exact Hc|]. split; [exact Hb|].
        exact (proj1 (IH _ _ _ Hb)).
      * apply Hin in Hx as (c' & b & Hc' & Hb & Hx).
        exists c', b. split; [exact Hc'|]. split; [exact Hb|].
        destruct (IH _ _ _ Hb) as (_ & _ & Hdown).
        exact (Hdown n x kids' c Hx Hk Hc).
  - intros H. injection H as <-.
    split; [apply list_elem_of_singleton; reflexivity|]. split.
    + intros n x Hx. apply list_elem_of_singleton in Hx. injection Hx as -> ->.
      left. split; reflexivity.
    + intros n x kids c Hx Hk. apply list_elem_of_singleton in Hx.
      injection Hx as -> ->. congruence.
Qed.

End Recursion.

Lemma project_tree_parts (projects : list Project.t) :
  let V := map snd (project_map projects) in
  let groups := group_projects (project_map projects) in
  let cp :=
    map (fun entry => (fst entry, sort_by project_order (snd entry)))
      (snd groups) in
  (forall a b, a ∈ V -> b ∈ V -> pid a = pid b -> a = b)
  /\ (forall k kids c,
         dict_get k cp = Some kids -> c ∈ kids ->
         c ∈ V /\ par c = Some k /\ k <> "")
  /\ (forall c,
         c ∈ V -> truthy_str (par c) = true ->
         exists kids,
           dict_get (default "" (par c)) cp = Some kids /\ c ∈ kids)
  /\ (forall r,
         r ∈ sort_by project_order (fst groups)
         <-> r ∈ V /\ truthy_str (par r) = false).
Proof.
  intros V groups cp. split; [apply project_map_unique|]. split; [|split].
  - intros k kids c. unfold cp. rewrite dict_get_map.
    destruct (dict_get k (snd groups)) as [kids'|] eqn:Ek; [|discriminate].
    simpl. intros H Hc. injection H as <-. apply sort_by_elem in Hc.
    revert k kids' c Ek Hc. unfold groups, group_projects.
    apply (group_project_children (fun c => c ∈ V)).
    + apply Forall_forall. intros e He. unfold V.
      apply list_elem_of_fmap. exists e. split; [reflexivity | exact He].
    + simpl. discriminate.
  - intros c Hc Ht.
    destruct (group_project_adopts (project_map projects) ([], []) c Hc Ht)
      as (kids & Hk & Hin).
    exists (sort_by project_order kids). unfold cp. rewrite dict_get_map.
    fold (group_projects (project_map projects)) in Hk. fold groups in Hk.
    rewrite Hk. split; [reflexivity|]. apply sort_by_elem. exact Hin.
  - intros r. rewrite sort_by_elem. unfold groups, group_projects.
    rewrite group_project_roots. simpl. split.
    + intros [H | H]; [apply elem_of_nil in H; contradiction | exact H].
    + intros H. right. exact H.
Qed.

Lemma project_tree_enough (projects : list Project.t) :
  is_Some (project_tree (length (project_map projects)) projects).
Proof.
  destruct (project_tree_parts projects) as (Hu & Hcp & _ & Hroots).
  unfold project_tree.
  set (V := map snd (project_map projects)) in *.
  set (groups := group_projects (project_map projects)) in *.
  set (cp := map (fun entry => (fst entry, sort_by project_order (snd entry)))
               (snd groups)) in *.
  replace (length (project_map projects)) with (length V)
    by (unfold V; apply length_map).
  apply concat_lines_some.
  intros r Hr. apply Hroots in Hr as [Hr Hf].
  apply (format_project_ends V cp Hu Hcp (length V) r []).
  - apply Forall_cons. split; [exact Hr | apply Forall_nil_2].
  - exact Hf.
  - apply NoDup_singleton.
  - simpl. lia.
Qed.

Lemma project_tree_fuel (fuel fuel' : nat) (projects : list Project.t) lines :
  (fuel <= fuel')%nat ->
  project_tree fuel projects = Some lines ->
  project_tree fuel' projects = Some lines.
Proof.
  intros Hle. unfold project_tree. apply concat_lines_ext.
  intros r out _. apply format_project_fuel. exact Hle.
Qed.

Lemma project_entries_tree (fuel : nat) (projects : list Project.t) :
  (length projects <= fuel)%nat ->
  project_tree fuel projects = Some (project_entries projects).
Proof.
  intros Hfuel. destruct (project_tree_enough projects) as [lines H].
  destruct (project_map_entries projects) as (_ & _ & Hlen).
  unfold project_entries.
  rewrite (project_tree_fuel _ (length projects) _ _ Hlen H). simpl.
  apply (project_tree_fuel (length (project_map projects))); [lia | exact H].
Qed.

(** X29: the recursion of list-projects over the tree always ends, and within
    as many nested calls as there are projects in the list, whatever parent
    identifiers the projects hold (a reference to a project that is not
    listed, to the project itself, or a cycle of references): every fuel from
    the length of the list on gives the same entries. *)
Theorem project_tree_ends (projects : list Project.t) :
  exists lines,
    forall fuel, (length projects <= fuel)%nat ->
                 project_tree fuel projects = Some lines.
Proof.
  destruct (project_tree_enough projects) as [lines H].
  destruct (project_map_entries projects) as (_ & _ & Hlen).
  exists lines. intros fuel Hfuel.
  apply (project_tree_fuel (length (project_map projects))); [lia | exact H].
Qed.

(** X30: the entries of the answer of list-projects.  A project is an entry
    of level 0 exactly when it is in the dictionary of the models and holds
    no parent identifier, or an empty one; it is an entry of level n+1 exactly
    when it is in the dictionary and its parent identifier is that of an
    entry of level n.  Every entry is the model of a listed project, and a
    project whose parent identifier is that of no project of the (truncated)
    list is no entry at any level.  The dictionary holds exactly the models
    of the listed projects when their identifiers are distinct. *)
Theorem project_tree_entries (fuel : nat) (projects : list Project.t)
    (lines : list (nat * ProjectMCPOutput.t)) :
  project_tree fuel projects = Some lines ->
  let V := map snd (project_map projects) in
  (forall p, (0%nat, p) ∈ lines <-> p ∈ V /\ truthy_str (par p) = false)
  /\ (forall n p,
         (S n, p) ∈ lines
         <-> p ∈ V
             /\ exists q,
                  (n, q) ∈ lines /\ par p = Some (pid q) /\ pid q <> "")
  /\ (forall n p,
         (n, p) ∈ lines ->
         exists project,
           project ∈ projects /\ p = ProjectMCPOutput.from_todoist project)
  /\ (forall n p parent_id,
         par p = Some parent_id -> parent_id <> "" ->
         parent_id ∉ map pid V -> (n, p) ∉ lines)
  /\ (NoDup (map Project.id projects) ->
      V = map ProjectMCPOutput.from_todoist projects).
Proof.
  intros Hlines V.
  destruct (project_tree_parts projects) as (Hu & Hcp & Hadopt & Hroots).
  unfold project_tree in Hlines. fold V in Hu, Hcp, Hadopt, Hroots.
  set (groups := group_projects (project_map projects)) in *.
  set (cp := map (fun entry => (fst entry, sort_by project_order (snd entry)))
               (snd groups)) in *.
  pose proof (fun x => concat_lines_elem _ _ lines x Hlines) as Hin.
  assert (forall p, (0%nat, p) ∈ lines <-> p ∈ V /\ truthy_str (par p) = false)
    as Hzero.
  { intros p. rewrite Hin. split.
    - intros (r & out & Hr & Hout & Hp).
      destruct (format_project_lines cp _ _ _ _ Hout) as (_ & Hshape & _).
      destruct (Hshape _ _ Hp) as [[_ ->] | (m & q & kids & Hm & _)];
        [apply Hroots; exact Hr | discriminate].
    - intros Hp. apply Hroots in Hp.
      destruct (concat_lines_blocks _ _ lines Hlines p Hp) as [out Hout].
      exists p, out. split; [exact Hp|]. split; [exact Hout|].
      exact (proj1 (format_project_lines cp _ _ _ _ Hout)). }
  assert (forall n p,
             (S n, p) ∈ lines
             <-> p ∈ V
                 /\ exists q,
                      (n, q) ∈ lines /\ par p = Some (pid q) /\ pid q <> "")
    as Hsucc.
  { intros n p. split.
    - intros Hp. apply Hin in Hp as (r & out & Hr & Hout & Hp).
      destruct (format_project_lines cp _ _ _ _ Hout) as (_ & Hshape & _).
      destruct (Hshape _ _ Hp) as [[Hn _] | (m & q & kids & Hm & Hq & Hk & Hx)];
        [discriminate|].
      injection Hm as ->. destruct (Hcp _ _ _ Hk Hx) as (HpV & Hpar & Hne).
      split; [exact HpV|]. exists q. split; [|split; assumption].
      apply Hin. exists r, out. split; [exact Hr|]. split; assumption.
    - intros (HpV & q & Hq & Hpar & Hne).
      destruct (Hadopt p HpV) as (kids & Hk & Hx).
      { rewrite Hpar. simpl. destruct (String.eqb (pid q) "") eqn:E;
          [|reflexivity].
        apply String.eqb_eq in E. contradiction. }
      rewrite Hpar in Hk. simpl in Hk.
      apply Hin in Hq as (r & out & Hr & Hout & Hq).
      apply Hin. exists r, out. split; [exact Hr|]. split; [exact Hout|].
      destruct (format_project_lines cp _ _ _ _ Hout) as (_ & _ & Hdown).
      exact (Hdown n q kids p Hq Hk Hx). }
  assert (forall n p, (n, p) ∈ lines -> p ∈ V) as HV.
  { intros [|n] p Hp; [apply Hzero in Hp | apply Hsucc in Hp];
      destruct Hp as [Hp _]; exact Hp. }
  split; [exact Hzero|]. split; [exact Hsucc|]. split; [|split].
  - intros n p Hp. apply HV in Hp.
    apply list_elem_of_fmap in Hp as (e & -> & He).
    destruct (project_map_entries projects) as (_ & HF & _).
    destruct (proj1 (Forall_forall _ _) HF e He) as (_ & project & H1 & H2).
    exists project. split; assumption.
  - intros [|n] p parent_id Hpar Hne Hout Hp.
    + apply Hzero in Hp as [_ Hp]. rewrite Hpar in Hp. simpl in Hp.
      destruct (String.eqb parent_id "") eqn:E; [|discriminate].
      apply String.eqb_eq in E. contradiction.
    + apply Hsucc in Hp as (_ & q & Hq & Hpq & _). apply Hout.
      rewrite Hpar in Hpq. injection Hpq as ->.
      apply list_elem_of_fmap. exists q. split; [reflexivity|].
      exact (HV _ _ Hq).
  - intros Hn. unfold V. rewrite (project_map_distinct projects Hn), map_map.
    reflexivity.
Qed.

End ProjectTree.

(** ** Properties of the client and of the handlers *)

Section Specification.
Context {W : Type}.
Variable sdk : forall R, call R -> W -> (string + R) * W.
Variable library_text : library_error -> string.

Ltac unfold_client :=
  unfold get_tasks, get_task, create_task, update_task, close_task,
    delete_task, get_projects, get_project, create_project, update_project,
    delete_project, get_labels, get_label, create_label, update_label,
    delete_label, client, decorated, await, async_def, handle_exceptions,
    bind_update_task, round_trip, validated, lift, try_except, bind, ret,
    raise in *.

Ltac atomic x :=
  lazymatch x with
  | context [match _ with _ => _ end] => fail
  | _ => idtac
  end.

Ltac step :=
  match goal with
  | |- context [sdk ?R ?c ?w] =>
      atomic c; atomic w;
      let E := fresh "Esdk" in
      destruct (sdk R c w) as [[?e|?r] ?w] eqn:E
  | |- context [task_models library_text ?ts ?w] =>
      atomic ts; atomic w;
      let r := fresh "r" in
      let E := fresh "E" in
      destruct (task_models_pure library_text ts w) as [r E];
      rewrite E; destruct r
  | |- context [match ?x with _ => _ end] => atomic x; destruct x eqn:?
  end; cbn [fst snd trace result state_after app].

Lemma clause_today_on (filter_string : option string) :
  truthy_str filter_string = true ->
  clause_today (Some true) filter_string
  = Some ("(" +:+ default "" filter_string +:+ ") & today").
Proof. intros H. unfold clause_today. cbn [truthy_bool]. rewrite H. reflexivity. Qed.

Lemma clause_upcoming_on (filter_string : option string) :
  truthy_str filter_string = true ->
  clause_upcoming (Some true) filter_string
  = Some ("(" +:+ default "" filter_string +:+ ") & (today | overdue | 7 days)").
Proof. intros H. unfold clause_upcoming. cbn [truthy_bool]. rewrite H. reflexivity. Qed.

Lemma clause_priority_on (n : Z) (filter_string : option string) :
  n <> 0 ->
  truthy_str filter_string = true ->
  clause_priority (Some n) filter_string
  = Some ("(" +:+ default "" filter_string +:+ ") & " +:+ "p" +:+ pretty n).
Proof.
  intros Hn H. unfold clause_priority. cbn [truthy_int].
  apply Z.eqb_neq in Hn. rewrite Hn, H. reflexivity.
Qed.

Lemma surface_authentication {R} (c : call R) (e : string) :
  contains "Unauthorized" e ->
  surface c e = Raise AuthenticationError "Invalid or expired Todoist API token" None.
Proof.
  intros H. unfold surface.
  apply str_in_contains in H. rewrite H. reflexivity.
Qed.

Lemma surface_service {R} (c : call R) (e : string) :
  ~ contains "Unauthorized" e ->
  surface c e = Raise TodoistError (failure c +:+ e) None.
Proof.
  intros H. unfold surface.
  destruct (str_in "Unauthorized" e) eqn:E; [|reflexivity].
  apply str_in_contains in E. contradiction.
Qed.

(** C1: with no base filter, due-today, due-upcoming and
    priority 3 compose to "((today) & (today | overdue | 7 days)) & p3"
    (the accumulator is parenthesised when a clause is added to it, the
    result is not); with nothing active the filter stays absent; the
    clauses are applied in the order base, due-today, due-upcoming,
    priority; and this composed filter is the one that list-tasks passes to
    the remote list call. *)
Theorem filter_composition (arguments : gmap string value)
    (filter_args : TaskFilterMCPInput.t) (w : W) :
  TaskFilterMCPInput.validate arguments = Some filter_args ->
  compose None (Some true) (Some true) (Some 3)
    = Some "((today) & (today | overdue | 7 days)) & p3"
  /\ compose None (Some false) (Some false) None = None
  /\ compose None None None None = None
  /\ (forall base today upcoming priority,
        compose base today upcoming priority
        = clause_priority priority
            (clause_upcoming upcoming (clause_today today base)))
  /\ (forall base n, base <> "" -> n <> 0 ->
        compose (Some base) (Some true) (Some true) (Some n)
        = Some ("(((" +:+ base +:+ ") & today) & (today | overdue | 7 days)) & p"
                +:+ pretty n))
  /\ Forall (fun ev => forall f, filter_of ev = Some f ->
               f = compose (TaskFilterMCPInput.filter_string filter_args)
                     (TaskFilterMCPInput.due_today filter_args)
                     (TaskFilterMCPInput.due_upcoming filter_args)
                     (TaskFilterMCPInput.priority filter_args))
       (trace (handle_list_tasks sdk library_text arguments w)).
Proof.
  intros Hv. repeat split; try reflexivity.
  - intros base n Hbase Hn. unfold compose.
    rewrite clause_today_on
      by (cbn [truthy_str]; apply negb_true_iff, String.eqb_neq; exact Hbase).
    rewrite clause_upcoming_on by reflexivity.
    rewrite clause_priority_on by (exact Hn || reflexivity).
    cbv [from_option id]. f_equal.
    rewrite !append_assoc. reflexivity.
  - unfold handle_list_tasks, handle_list_tasks_body.
    unfold_client. rewrite Hv. cbn [trace].
    repeat step; repeat constructor; simpl; intros; congruence.
Qed.

(** C5: the normalisation policy, on an exception that the
    call of the wrapped function raises: an error of the taxonomy passes
    unchanged; a ValueError becomes a ValidationError with the same text;
    any other exception is wrapped with the name of the wrapped function in
    its details, as a TodoistError when its text contains "todoist" in any
    letter case and as the generic base error otherwise. *)
Theorem handle_exceptions_policy {A B : Type} (name : string)
    (func : A -> exn + B) (a : A) (e : exn) :
  func a = inl e ->
  exists e', handle_exceptions name func a = inl e'
  /\ (is_MCPError (exn_class_of e) = true -> e' = e)
  /\ (is_MCPError (exn_class_of e) = false ->
      is_ValueError (exn_class_of e) = true ->
      e' = Raise ValidationError (message e) None)
  /\ (is_MCPError (exn_class_of e) = false ->
      is_ValueError (exn_class_of e) = false ->
      contains "todoist" (lower (message e)) ->
      e' = Raise TodoistError ("Todoist API error: " +:+ message e) (Some name))
  /\ (is_MCPError (exn_class_of e) = false ->
      is_ValueError (exn_class_of e) = false ->
      ~ contains "todoist" (lower (message e)) ->
      e' = Raise MCPError ("An unexpected error occurred: " +:+ message e)
             (Some name)).
Proof.
  intros Hf. exists (normalize name e). unfold handle_exceptions.
  rewrite Hf. split; [reflexivity|]. unfold normalize.
  repeat split.
  - intros ->. reflexivity.
  - intros -> ->. reflexivity.
  - intros -> -> H. apply str_in_contains in H. rewrite H. reflexivity.
  - intros -> -> H.
    destruct (str_in "todoist" (lower (message e))) eqn:E; [|reflexivity].
    apply str_in_contains in E. contradiction.
Qed.

(** C6: whatever the method of the client facade, a remote call that
    raises with a text containing "Unauthorized" surfaces as an
    AuthenticationError (so not as a TodoistError), and any other remote
    failure surfaces as a TodoistError whose message ends with the original
    text; the round trip is the only call issued.  The second part is the
    same for [update_task] as the handlers call it, with keywords. *)
Theorem facade_failure_surfaced :
  (forall R (c : call R) (w w' : W) (e : string),
      sdk R c w = (inl e, w') ->
      exists err, client sdk c w = (inl err, w', [Called c])
      /\ (contains "Unauthorized" e ->
          exn_class_of err = AuthenticationError
          /\ exn_class_of err <> TodoistError)
      /\ (~ contains "Unauthorized" e ->
          exn_class_of err = TodoistError
          /\ message err = failure c +:+ e))
  /\ (forall (task_id : value) (kwargs : gmap string value) (w w' : W)
        (e : string),
        let c := api_update_task task_id
                   (map (fun k => (k, get kwargs k)) update_task_params) in
        map_Forall (fun k _ => k ∈ update_task_params) kwargs ->
        sdk bool c w = (inl e, w') ->
        exists err,
          update_task sdk library_text task_id kwargs w
          = (inl err, w', [Called c])
        /\ (contains "Unauthorized" e ->
            exn_class_of err = AuthenticationError
            /\ exn_class_of err <> TodoistError)
        /\ (~ contains "Unauthorized" e ->
            exn_class_of err = TodoistError
            /\ message err = failure c +:+ e)).
Proof.
  split.
  - intros R c w w' e Hs. exists (surface c e). split.
    + unfold_client. rewrite Hs. reflexivity.
    + split; intros H.
      * rewrite (surface_authentication c e H). split; [reflexivity|discriminate].
      * rewrite (surface_service c e H). split; reflexivity.
  - intros task_id kwargs w w' e c Hk Hs. exists (surface c e). split.
    + unfold_client. rewrite bool_decide_eq_true_2 by exact Hk.
      fold c. rewrite Hs. reflexivity.
    + split; intros H.
      * rewrite (surface_authentication c e H). split; [reflexivity|discriminate].
      * rewrite (surface_service c e H). split; reflexivity.
Qed.

Ltac suffix :=
  first [ exact (eq_refl : _ = [] ++ _)
        | exact (eq_refl : _ = [_] ++ _)
        | exact (eq_refl : _ = [_; _] ++ _)
        | exact (eq_refl : _ = [_; _; _] ++ _) ].

(** C3: the record that a successful update-task surfaces is
    the one returned by a second read of the task, issued after the update
    call, on the state that the update left; the record that a successful
    create-task surfaces is the one returned by the create call itself,
    which is the last call of the invocation: no read of the task follows
    or precedes it. *)
Theorem mutation_confirmation (arguments : gmap string value) (w w' : W)
    (r : reply) (t : list event) :
  (handle_update_task sdk library_text arguments w = (inr r, w', t) ->
   exists task_id fields pre w0 w1 updated_task task_model,
     arguments !! "task_id" = Some task_id
     /\ t = pre ++ [Called (api_update_task task_id fields);
                    Called (api_get_task task_id)]
     /\ sdk bool (api_update_task task_id fields) w0 = (inr true, w1)
     /\ sdk Task.t (api_get_task task_id) w1 = (inr updated_task, w')
     /\ TaskMCPOutput.from_todoist updated_task = Some task_model
     /\ r = TaskUpdated task_model)
  /\ (handle_create_task sdk library_text arguments w = (inr r, w', t) ->
      exists (c : call Task.t) pre w0 task task_model,
        method_name c = "create_task"
        /\ t = pre ++ [Called c]
        /\ Forall (fun ev => is_get_task ev = false) t
        /\ sdk Task.t c w0 = (inr task, w')
        /\ TaskMCPOutput.from_todoist task = Some task_model
        /\ r = TaskCreated task_model).
Proof.
  split.
  - unfold handle_update_task, handle_update_task_body. unfold_client.
    repeat step; try (intros [=]; fail);
      intros [= <- <- <-];
      repeat match goal with b : bool |- _ => destruct b end;
      try discriminate;
      do 7 eexists; (split; [reflexivity|]); (split; [suffix|]);
      (split; [eassumption|]); (split; [eassumption|]);
      (split; [eassumption|]); reflexivity.
  - unfold handle_create_task, handle_create_task_body. unfold_client.
    repeat step; try (intros [=]; fail);
      intros [= <- <- <-];
      do 5 eexists;
      (split;
       [| split;
          [suffix
          | split;
            [repeat constructor
            | split; [eassumption | split; [eassumption | reflexivity]]]]]);
      reflexivity.
Qed.

(** C10: the first remote call of an update-task invocation, if it issues
    any, is the read of the task named by task_id, so an update call is
    never the first one; and when that read fails, the invocation ends with
    the error that the read surfaced (an error of the taxonomy), the read is
    the only call issued (no update call), and the remote state is the one
    that the failed read left. *)
Theorem update_fetches_first (arguments : gmap string value) (w : W) :
  (forall first,
      head (trace (handle_update_task sdk library_text arguments w)) = Some first ->
      is_update_task first = false
      /\ exists task_id,
           arguments !! "task_id" = Some task_id /\ fetches task_id first)
  /\ (forall task_id e w1,
        arguments !! "task_id" = Some task_id ->
        truthy task_id = true ->
        sdk Task.t (api_get_task task_id) w = (inl e, w1) ->
        handle_update_task sdk library_text arguments w
        = (inl (surface (api_get_task task_id) e), w1,
           [Called (api_get_task task_id)])
        /\ is_MCPError (exn_class_of (surface (api_get_task task_id) e)) = true
        /\ Forall (fun ev => is_update_task ev = false)
             (trace (handle_update_task sdk library_text arguments w))).
Proof.
  split.
  - unfold handle_update_task, handle_update_task_body. unfold_client.
    intros first. destruct (arguments !! "task_id") as [task_id|]; [|discriminate].
    destruct (negb (truthy task_id)); [discriminate|].
    destruct (sdk Task.t (api_get_task task_id) w) as [[e|r] w1] eqn:E;
      cbn [fst snd trace result state_after app].
    + intros [= <-]. split; [reflexivity|]. exists task_id. split; reflexivity.
    + match goal with
      | |- context [let (p, t2) := ?x in _] => destruct x as [[? ?] ?]
      end.
      intros [= <-]. split; [reflexivity|]. exists task_id. split; reflexivity.
  - intros task_id e w1 Hid Ht Hs.
    assert (handle_update_task sdk library_text arguments w
            = (inl (surface (api_get_task task_id) e), w1,
               [Called (api_get_task task_id)])) as Hrun.
    { unfold handle_update_task, handle_update_task_body. unfold_client.
      rewrite Hid, Ht. cbn [negb]. rewrite Hs. reflexivity. }
    rewrite Hrun. split; [reflexivity|]. split.
    + unfold surface. destruct (str_in "Unauthorized" e); reflexivity.
    + repeat constructor.
Qed.

Lemma get_lookup (d : gmap string value) (k : string) (v : value) :
  d !! k = Some v -> get d k = v.
Proof. intros H. unfold get. rewrite H. reflexivity. Qed.

Lemma get_delete_ne (d : gmap string value) (k k' : string) :
  k <> k' -> get (delete k d) k' = get d k'.
Proof. intros H. unfold get. rewrite lookup_delete_ne by exact H. reflexivity. Qed.

Lemma as_str_truthy (v : value) (o : option string) :
  as_str v = Some o -> truthy v = true ->
  truthy_str o = true /\ VStr <$> o = Some v.
Proof.
  destruct v; simpl; intros [= <-] H; try discriminate.
  split; [exact H | reflexivity].
Qed.

Lemma filter_input_ids (arguments : gmap string value)
    (filter_args : TaskFilterMCPInput.t) :
  TaskFilterMCPInput.validate arguments = Some filter_args ->
  as_str (get arguments "project_id")
    = Some (TaskFilterMCPInput.project_id filter_args)
  /\ as_str (get arguments "label_id")
     = Some (TaskFilterMCPInput.label_id filter_args).
Proof.
  unfold TaskFilterMCPInput.validate. intros H.
  repeat match type of H with
         | mbind _ ?x = _ => destruct x eqn:?; simpl in H; [|discriminate]
         end.
  injection H as <-. split; reflexivity.
Qed.

Lemma task_input_ids (arguments : gmap string value)
    (task_input : TaskMCPInput.t) :
  TaskMCPInput.validate arguments = Some task_input ->
  as_str (get arguments "project_id")
    = Some (TaskMCPInput.project_id task_input).
Proof.
  unfold TaskMCPInput.validate. intros H.
  repeat match type of H with
         | mbind _ ?x = _ => destruct x eqn:?; simpl in H; [|discriminate]
         end.
  injection H as <-. reflexivity.
Qed.

Lemma project_input_parent (name parent_id color favorite : value)
    (project_input : ProjectMCPInput.t) :
  ProjectMCPInput.validate name parent_id color favorite = Some project_input ->
  as_str parent_id = Some (ProjectMCPInput.parent_id project_input).
Proof.
  unfold ProjectMCPInput.validate. intros H.
  repeat match type of H with
         | mbind _ ?x = _ => destruct x eqn:?; simpl in H; [|discriminate]
         end.
  injection H as <-. reflexivity.
Qed.

Lemma keyword_project_id (kwargs : gmap string value) :
  keyword "project_id" (map (fun k => (k, get kwargs k)) update_task_params)
  = get kwargs "project_id".
Proof. reflexivity. Qed.

Ltac honoured :=
  repeat step; repeat constructor;
  cbn [honours_project honours_parent honours_label];
  rewrite ?keyword_project_id, ?get_delete_ne by discriminate;
  try (assumption || reflexivity || (apply get_lookup; assumption)).

Lemma list_tasks_project_id (arguments : gmap string value) (v : value) (w : W) :
  truthy v = true -> arguments !! "project_id" = Some v ->
  Forall (honours_project v)
    (trace (handle_list_tasks sdk library_text arguments w)).
Proof.
  intros Ht Hv. apply get_lookup in Hv.
  unfold handle_list_tasks, handle_list_tasks_body. unfold_client.
  destruct (TaskFilterMCPInput.validate arguments) as [filter_args|] eqn:Hp;
    [|constructor].
  destruct (filter_input_ids _ _ Hp) as [Hid _]. rewrite Hv in Hid.
  destruct (as_str_truthy _ _ Hid Ht) as [Htrue Hsame].
  rewrite Htrue, andb_false_r. cbn [trace]. honoured.
Qed.

Lemma list_tasks_label_id (arguments : gmap string value) (v : value) (w : W) :
  truthy v = true -> arguments !! "label_id" = Some v ->
  Forall (honours_label v)
    (trace (handle_list_tasks sdk library_text arguments w)).
Proof.
  intros Ht Hv. apply get_lookup in Hv.
  unfold handle_list_tasks, handle_list_tasks_body. unfold_client.
  destruct (TaskFilterMCPInput.validate arguments) as [filter_args|] eqn:Hp;
    [|constructor].
  destruct (filter_input_ids _ _ Hp) as [_ Hid]. rewrite Hv in Hid.
  destruct (as_str_truthy _ _ Hid Ht) as [Htrue Hsame].
  rewrite Htrue, andb_false_r. cbn [trace]. honoured.
Qed.

Lemma create_task_project_id (arguments : gmap string value) (v : value) (w : W) :
  truthy v = true -> arguments !! "project_id" = Some v ->
  Forall (honours_project v)
    (trace (handle_create_task sdk library_text arguments w)).
Proof.
  intros Ht Hv. apply get_lookup in Hv.
  unfold handle_create_task, handle_create_task_body. unfold_client.
  destruct (TaskMCPInput.validate arguments) as [task_input|] eqn:Hp;
    [|constructor].
  pose proof (task_input_ids _ _ Hp) as Hid. rewrite Hv in Hid.
  destruct (as_str_truthy _ _ Hid Ht) as [Htrue Hsame].
  rewrite Htrue, andb_false_r. cbn [trace]. honoured.
Qed.

Lemma update_task_project_id (arguments : gmap string value) (v : value) (w : W) :
  truthy v = true -> arguments !! "project_id" = Some v ->
  Forall (honours_project v)
    (trace (handle_update_task sdk library_text arguments w)).
Proof.
  intros Ht Hv.
  unfold handle_update_task, handle_update_task_body. unfold_client.
  destruct (arguments !! "task_id") as [task_id|]; [|constructor].
  rewrite !get_delete_ne by discriminate.
  rewrite (get_lookup _ _ _ Hv), Ht, andb_false_r. cbn [trace]. honoured.
Qed.

Lemma update_project_project_id (arguments : gmap string value) (v : value) (w : W) :
  truthy v = true -> arguments !! "project_id" = Some v ->
  Forall (honours_project v)
    (trace (handle_update_project sdk library_text arguments w)).
Proof.
  intros Ht Hv.
  unfold handle_update_project, handle_update_project_body. unfold_client.
  rewrite (get_lookup _ _ _ Hv), Ht. cbn [negb andb trace]. honoured.
Qed.

Lemma delete_project_project_id (arguments : gmap string value) (v : value) (w : W) :
  truthy v = true -> arguments !! "project_id" = Some v ->
  Forall (honours_project v)
    (trace (handle_delete_project sdk library_text arguments w)).
Proof.
  intros Ht Hv.
  unfold handle_delete_project, handle_delete_project_body. unfold_client.
  rewrite (get_lookup _ _ _ Hv), Ht. cbn [negb andb trace]. honoured.
Qed.

Lemma create_project_parent_id (arguments : gmap string value) (v : value) (w : W) :
  truthy v = true -> arguments !! "parent_id" = Some v ->
  Forall (honours_parent v)
    (trace (handle_create_project sdk library_text arguments w)).
Proof.
  intros Ht Hv.
  unfold handle_create_project, handle_create_project_body. unfold_client.
  rewrite (get_lookup _ _ _ Hv), Ht, andb_false_r. cbn [trace].
  destruct (delete "parent_name" arguments !! "name") as [name|]; [|constructor].
  match goal with
  | |- context [ProjectMCPInput.validate ?n ?p ?c ?f] =>
      destruct (ProjectMCPInput.validate n p c f) as [project_input|] eqn:Hp
  end; [|constructor].
  pose proof (project_input_parent _ _ _ _ _ Hp) as Hid.
  destruct (as_str_truthy _ _ Hid Ht) as [_ Hsame].
  cbn [fst snd trace result state_after app]. honoured.
Qed.

Lemma update_label_label_id (arguments : gmap string value) (v : value) (w : W) :
  truthy v = true -> arguments !! "label_id" = Some v ->
  Forall (honours_label v)
    (trace (handle_update_label sdk library_text arguments w)).
Proof.
  intros Ht Hv.
  unfold handle_update_label, handle_update_label_body. unfold_client.
  rewrite (get_lookup _ _ _ Hv), Ht. cbn [negb andb trace]. honoured.
Qed.

Lemma delete_label_label_id (arguments : gmap string value) (v : value) (w : W) :
  truthy v = true -> arguments !! "label_id" = Some v ->
  Forall (honours_label v)
    (trace (handle_delete_label sdk library_text arguments w)).
Proof.
  intros Ht Hv.
  unfold handle_delete_label, handle_delete_label_body. unfold_client.
  rewrite (get_lookup _ _ _ Hv), Ht. cbn [negb andb trace]. honoured.
Qed.

Ltac carried :=
  repeat step; try (intros [=]; fail); intros [= <- <- <-];
  cbn [app];
  repeat first
    [ apply Exists_cons_hd;
      cbn [carries_project carries_parent carries_label];
      rewrite ?keyword_project_id, ?get_delete_ne by discriminate;
      solve [assumption | reflexivity | apply get_lookup; assumption]
    | apply Exists_cons_tl ].

Lemma list_tasks_project_carried (arguments : gmap string value) (v : value)
    (w w' : W) (r : reply) (t : list event) :
  truthy v = true -> arguments !! "project_id" = Some v ->
  handle_list_tasks sdk library_text arguments w = (inr r, w', t) ->
  Exists (carries_project v) t.
Proof.
  intros Ht Hv. apply get_lookup in Hv.
  unfold handle_list_tasks, handle_list_tasks_body. unfold_client.
  destruct (TaskFilterMCPInput.validate arguments) as [filter_args|] eqn:Hp;
    [|discriminate].
  destruct (filter_input_ids _ _ Hp) as [Hid _]. rewrite Hv in Hid.
  destruct (as_str_truthy _ _ Hid Ht) as [Htrue Hsame].
  rewrite Htrue, andb_false_r. carried.
Qed.

Lemma list_tasks_label_carried (arguments : gmap string value) (v : value)
    (w w' : W) (r : reply) (t : list event) :
  truthy v = true -> arguments !! "label_id" = Some v ->
  handle_list_tasks sdk library_text arguments w = (inr r, w', t) ->
  Exists (carries_label v) t.
Proof.
  intros Ht Hv. apply get_lookup in Hv.
  unfold handle_list_tasks, handle_list_tasks_body. unfold_client.
  destruct (TaskFilterMCPInput.validate arguments) as [filter_args|] eqn:Hp;
    [|discriminate].
  destruct (filter_input_ids _ _ Hp) as [_ Hid]. rewrite Hv in Hid.
  destruct (as_str_truthy _ _ Hid Ht) as [Htrue Hsame].
  rewrite Htrue, andb_false_r. carried.
Qed.

Lemma create_task_project_carried (arguments : gmap string value) (v : value)
    (w w' : W) (r : reply) (t : list event) :
  truthy v = true -> arguments !! "project_id" = Some v ->
  handle_create_task sdk library_text arguments w = (inr r, w', t) ->
  Exists (carries_project v) t.
Proof.
  intros Ht Hv. apply get_lookup in Hv.
  unfold handle_create_task, handle_create_task_body. unfold_client.
  destruct (TaskMCPInput.validate arguments) as [task_input|] eqn:Hp;
    [|discriminate].
  pose proof (task_input_ids _ _ Hp) as Hid. rewrite Hv in Hid.
  destruct (as_str_truthy _ _ Hid Ht) as [Htrue Hsame].
  rewrite Htrue, andb_false_r. carried.
Qed.

Lemma update_task_project_carried (arguments : gmap string value) (v : value)
    (w w' : W) (r : reply) (t : list event) :
  truthy v = true -> arguments !! "project_id" = Some v ->
  handle_update_task sdk library_text arguments w = (inr r, w', t) ->
  Exists (carries_project v) t.
Proof.
  intros Ht Hv.
  unfold handle_update_task, handle_update_task_body. unfold_client.
  destruct (arguments !! "task_id") as [task_id|]; [|discriminate].
  rewrite !get_delete_ne by discriminate.
  rewrite (get_lookup _ _ _ Hv), Ht, andb_false_r. carried.
Qed.

Lemma update_project_project_carried (arguments : gmap string value)
    (v : value) (w w' : W) (r : reply) (t : list event) :
  truthy v = true -> arguments !! "project_id" = Some v ->
  handle_update_project sdk library_text arguments w = (inr r, w', t) ->
  Exists (carries_project v) t.
Proof.
  intros Ht Hv.
  unfold handle_update_project, handle_update_project_body. unfold_client.
  rewrite (get_lookup _ _ _ Hv), Ht. cbn [negb andb]. carried.
Qed.

Lemma update_project_reads_first (arguments : gmap string value) (v : value)
    (w : W) :
  truthy v = true -> arguments !! "project_id" = Some v ->
  exists rest,
    trace (handle_update_project sdk library_text arguments w)
    = Called (api_get_project v) :: rest.
Proof.
  intros Ht Hv.
  unfold handle_update_project, handle_update_project_body. unfold_client.
  rewrite (get_lookup _ _ _ Hv), Ht. cbn [negb andb trace].
  repeat step; eexists; reflexivity.
Qed.

Lemma delete_project_by_id (arguments : gmap string value) (v : value)
    (w : W) :
  truthy v = true -> arguments !! "project_id" = Some v ->
  trace (handle_delete_project sdk library_text arguments w)
  = [Called (api_get_project v); Called (api_delete_project v)].
Proof.
  intros Ht Hv.
  unfold handle_delete_project, handle_delete_project_body. unfold_client.
  rewrite (get_lookup _ _ _ Hv), Ht. cbn [negb andb trace].
  repeat step; reflexivity.
Qed.

Lemma create_project_parent_carried (arguments : gmap string value)
    (v : value) (w w' : W) (r : reply) (t : list event) :
  truthy v = true -> arguments !! "parent_id" = Some v ->
  handle_create_project sdk library_text arguments w = (inr r, w', t) ->
  Exists (carries_parent v) t.
Proof.
  intros Ht Hv.
  unfold handle_create_project, handle_create_project_body. unfold_client.
  rewrite (get_lookup _ _ _ Hv), Ht, andb_false_r.
  destruct (delete "parent_name" arguments !! "name") as [name|];
    [|discriminate].
  match goal with
  | |- context [ProjectMCPInput.validate ?n ?p ?c ?f] =>
      destruct (ProjectMCPInput.validate n p c f) as [project_input|] eqn:Hp
  end; [|discriminate].
  pose proof (project_input_parent _ _ _ _ _ Hp) as Hid.
  destruct (as_str_truthy _ _ Hid Ht) as [_ Hsame].
  cbn [fst snd trace result state_after app]. carried.
Qed.

Lemma update_label_label_carried (arguments : gmap string value) (v : value)
    (w w' : W) (r : reply) (t : list event) :
  truthy v = true -> arguments !! "label_id" = Some v ->
  handle_update_label sdk library_text arguments w = (inr r, w', t) ->
  Exists (carries_label v) t.
Proof.
  intros Ht Hv.
  unfold handle_update_label, handle_update_label_body. unfold_client.
  rewrite (get_lookup _ _ _ Hv), Ht. cbn [negb andb]. carried.
Qed.

Lemma update_label_reads_first (arguments : gmap string value) (v : value)
    (w : W) :
  truthy v = true -> arguments !! "label_id" = Some v ->
  exists rest,
    trace (handle_update_label sdk library_text arguments w)
    = Called (api_get_label v) :: rest.
Proof.
  intros Ht Hv.
  unfold handle_update_label, handle_update_label_body. unfold_client.
  rewrite (get_lookup _ _ _ Hv), Ht. cbn [negb andb trace].
  repeat step; eexists; reflexivity.
Qed.

Lemma delete_label_by_id (arguments : gmap string value) (v : value)
    (w : W) :
  truthy v = true -> arguments !! "label_id" = Some v ->
  trace (handle_delete_label sdk library_text arguments w)
  = [Called (api_get_label v); Called (api_delete_label v)].
Proof.
  intros Ht Hv.
  unfold handle_delete_label, handle_delete_label_body. unfold_client.
  rewrite (get_lookup _ _ _ Hv), Ht. cbn [negb andb trace].
  repeat step; reflexivity.
Qed.

(** C7: when the arguments supply a non-empty identifier for a reference,
    whatever name they supply with it, the invocation issues no list call to
    resolve the name, every remote call that takes the reference carries the
    supplied identifier unchanged, and an invocation that succeeds has
    issued such a call: for the project of
    list-tasks, create-task, update-task, update-project and delete-project,
    for the label of list-tasks, update-label and delete-label, and for the
    parent of create-project.  update-project and update-label begin with
    the read of the entity by this identifier, and delete-project and
    delete-label issue exactly its read and its deletion. *)
Theorem identifier_precedence (arguments : gmap string value) (v : value)
    (w : W) :
  truthy v = true ->
  (arguments !! "project_id" = Some v ->
   Forall (honours_project v)
     (trace (handle_list_tasks sdk library_text arguments w))
   /\ Forall (honours_project v)
        (trace (handle_create_task sdk library_text arguments w))
   /\ Forall (honours_project v)
        (trace (handle_update_task sdk library_text arguments w))
   /\ Forall (honours_project v)
        (trace (handle_update_project sdk library_text arguments w))
   /\ Forall (honours_project v)
        (trace (handle_delete_project sdk library_text arguments w))
   /\ (forall r w' t,
          handle_list_tasks sdk library_text arguments w = (inr r, w', t)
          \/ handle_create_task sdk library_text arguments w = (inr r, w', t)
          \/ handle_update_task sdk library_text arguments w = (inr r, w', t)
          \/ handle_update_project sdk library_text arguments w
             = (inr r, w', t) ->
          Exists (carries_project v) t)
   /\ (exists rest,
          trace (handle_update_project sdk library_text arguments w)
          = Called (api_get_project v) :: rest)
   /\ trace (handle_delete_project sdk library_text arguments w)
      = [Called (api_get_project v); Called (api_delete_project v)])
  /\ (arguments !! "label_id" = Some v ->
      Forall (honours_label v)
        (trace (handle_list_tasks sdk library_text arguments w))
      /\ Forall (honours_label v)
           (trace (handle_update_label sdk library_text arguments w))
      /\ Forall (honours_label v)
           (trace (handle_delete_label sdk library_text arguments w))
      /\ (forall r w' t,
             handle_list_tasks sdk library_text arguments w = (inr r, w', t)
             \/ handle_update_label sdk library_text arguments w
                = (inr r, w', t) ->
             Exists (carries_label v) t)
      /\ (exists rest,
             trace (handle_update_label sdk library_text arguments w)
             = Called (api_get_label v) :: rest)
      /\ trace (handle_delete_label sdk library_text arguments w)
         = [Called (api_get_label v); Called (api_delete_label v)])
  /\ (arguments !! "parent_id" = Some v ->
      Forall (honours_parent v)
        (trace (handle_create_project sdk library_text arguments w))
      /\ (forall r w' t,
             handle_create_project sdk library_text arguments w
             = (inr r, w', t) ->
             Exists (carries_parent v) t)).
Proof.
  intros Ht. split; [|split]; intros Hv.
  - split; [apply list_tasks_project_id; assumption|].
    split; [apply create_task_project_id; assumption|].
    split; [apply update_task_project_id; assumption|].
    split; [apply update_project_project_id; assumption|].
    split; [apply delete_project_project_id; assumption|].
    split; [|split].
    + intros r w' t [H | [H | [H | H]]].
      * exact (list_tasks_project_carried _ _ _ _ _ _ Ht Hv H).
      * exact (create_task_project_carried _ _ _ _ _ _ Ht Hv H).
      * exact (update_task_project_carried _ _ _ _ _ _ Ht Hv H).
      * exact (update_project_project_carried _ _ _ _ _ _ Ht Hv H).
    + apply update_project_reads_first; assumption.
    + apply delete_project_by_id; assumption.
  - split; [apply list_tasks_label_id; assumption|].
    split; [apply update_label_label_id; assumption|].
    split; [apply delete_label_label_id; assumption|].
    split; [|split].
    + intros r w' t [H | H].
      * exact (list_tasks_label_carried _ _ _ _ _ _ Ht Hv H).
      * exact (update_label_label_carried _ _ _ _ _ _ Ht Hv H).
    + apply update_label_reads_first; assumption.
    + apply delete_label_by_id; assumption.
  - split; [apply create_project_parent_id; assumption|].
    intros r w' t H.
    exact (create_project_parent_carried _ _ _ _ _ _ Ht Hv H).
Qed.

(** *** The resolver *)

(** X25: the scan selects an entity exactly when that entity is the first
    one of the collection, in its order, whose name equals the wanted name
    once both are lowered. *)
Lemma first_match_some {E : Type} (name_of : E -> string) (wanted : string)
    (collection : list E) (e : E) :
  first_match name_of wanted collection = Some e <->
  exists before after,
    collection = before ++ e :: after
    /\ lower (name_of e) = lower wanted
    /\ Forall (fun x => lower (name_of x) <> lower wanted) before.
Proof.
  unfold first_match. induction collection as [|x rest IH]; simpl.
  - split; [discriminate|]. intros (before & after & H & _).
    destruct before; discriminate.
  - destruct (String.eqb (lower (name_of x)) (lower wanted)) eqn:Hx.
    + apply String.eqb_eq in Hx. split.
      * intros [= <-]. exists [], rest. repeat split; [exact Hx | constructor].
      * intros (before & after & H & He & Hb).
        destruct before as [|y before]; simpl in H.
        -- congruence.
        -- injection H as <- _. inversion Hb; contradiction.
    + apply String.eqb_neq in Hx. rewrite IH. split.
      * intros (before & after & -> & He & Hb).
        exists (x :: before), after. repeat split; [exact He|].
        constructor; assumption.
      * intros (before & after & H & He & Hb).
        destruct before as [|y before]; simpl in H.
        -- injection H as <- _. contradiction.
        -- injection H as <- ->. inversion Hb; subst.
           exists before, after. repeat split; assumption.
Qed.

Lemma first_match_none {E : Type} (name_of : E -> string) (wanted : string)
    (collection : list E) :
  first_match name_of wanted collection = None <->
  Forall (fun x => lower (name_of x) <> lower wanted) collection.
Proof.
  unfold first_match. induction collection as [|x rest IH]; simpl.
  - split; [constructor | reflexivity].
  - destruct (String.eqb (lower (name_of x)) (lower wanted)) eqn:Hx.
    + apply String.eqb_eq in Hx. split; [discriminate|].
      intros H. inversion H; contradiction.
    + apply String.eqb_neq in Hx. rewrite IH. split.
      * intros H. constructor; assumption.
      * intros H. inversion H; assumption.
Qed.

(** *** The limit of the list handlers *)

Lemma apply_limit_supplied {A : Type} (n : Z) (items : list A) :
  0 < n ->
  apply_limit (VInt n) items = take (Z.to_nat n) items
  /\ length (apply_limit (VInt n) items) = Nat.min (Z.to_nat n) (length items).
Proof.
  intros Hn. unfold apply_limit.
  apply Z.ltb_lt in Hn. rewrite Hn. split; [reflexivity|].
  apply length_take.
Qed.

Lemma apply_limit_absent {A : Type} (items : list A) :
  apply_limit VNone items = items.
Proof. reflexivity. Qed.

(** *** Required fields *)

(** X27: complete-task and delete-task whose arguments hold no task_id, or
    an empty one, end with ValidationError "Task ID is required", before any
    remote call. *)
Lemma task_id_required (arguments : gmap string value) (w : W) :
  truthy (get arguments "task_id") = false ->
  handle_complete_task sdk arguments w
  = (inl (Raise ValidationError "Task ID is required" None), w, [])
  /\ handle_delete_task sdk arguments w
     = (inl (Raise ValidationError "Task ID is required" None), w, []).
Proof.
  intros H.
  unfold handle_complete_task, handle_complete_task_body, handle_delete_task,
    handle_delete_task_body.
  unfold_client. rewrite H. split; reflexivity.
Qed.

(** X28: update-label and delete-label given neither a label identifier nor
    a label name end with ValidationError "Either label_id or label_name is
    required", before any remote call. *)
Lemma label_reference_required (arguments : gmap string value) (w : W) :
  truthy (get arguments "label_id") = false ->
  truthy (get arguments "label_name") = false ->
  handle_update_label sdk library_text arguments w
  = (inl (Raise ValidationError "Either label_id or label_name is required"
            None), w, [])
  /\ handle_delete_label sdk library_text arguments w
     = (inl (Raise ValidationError "Either label_id or label_name is required"
               None), w, []).
Proof.
  intros Hid Hname.
  unfold handle_update_label, handle_update_label_body, handle_delete_label,
    handle_delete_label_body.
  unfold_client. rewrite get_delete_ne by discriminate.
  rewrite Hid, Hname. split; reflexivity.
Qed.

(** What a handler raises reaches its caller as it is: a pydantic error of
    list-tasks stays a pydantic error. *)
Remark pydantic_error_reaches_caller (arguments : gmap string value) (w : W) :
  handle_list_tasks sdk library_text (<["limit" := VInt 0]> arguments) w
  = (inl (Raise PydanticValidationError
            (library_text (InvalidModel "TaskFilterMCPInput")) None), w, []).
Proof.
  unfold handle_list_tasks, handle_list_tasks_body. unfold_client.
  assert (TaskFilterMCPInput.validate (<["limit" := VInt 0]> arguments) = None)
    as ->; [|reflexivity].
  unfold TaskFilterMCPInput.validate.
  assert (get (<["limit" := VInt 0]> arguments) "limit" = VInt 0) as ->
    by (unfold get; rewrite lookup_insert_eq; reflexivity).
  repeat match goal with
         | |- mbind _ ?x = None => destruct x; simpl; [|reflexivity]
         end.
  reflexivity.
Qed.

(** C8: update-task whose arguments hold no task_id ends with the KeyError
    of the dictionary, before any remote call; this is no ValidationError,
    and the normalisation policy would make a generic base error of it. *)
Theorem update_task_without_task_id (arguments : gmap string value) (w : W) :
  handle_update_task sdk library_text (delete "task_id" arguments) w
  = (inl (Raise KeyError "'task_id'" None), w, [])
  /\ exn_class_of (Raise KeyError "'task_id'" None) <> ValidationError
  /\ exn_class_of (normalize "handle_update_task"
                     (Raise KeyError "'task_id'" None)) = MCPError.
Proof.
  split; [|split; [discriminate | reflexivity]].
  unfold handle_update_task, handle_update_task_body. unfold_client.
  rewrite lookup_delete_eq. reflexivity.
Qed.

(** C9: when the arguments of create-label hold no favorite, every label
    creation that the invocation issues carries favorite = False; so for
    the arguments that only name the label "work". *)
Theorem create_label_default_favorite (arguments : gmap string value) (w : W) :
  Forall (fun ev => forall favorite,
            created_favorite ev = Some favorite -> favorite = Some false)
    (trace (handle_create_label sdk library_text
              (delete "favorite" arguments) w))
  /\ trace (handle_create_label sdk library_text {[ "name" := VStr "work" ]} w)
     = [Called (api_add_label "work" None (Some false))].
Proof.
  split.
  - unfold handle_create_label, handle_create_label_body. unfold_client.
    rewrite lookup_delete_eq. cbn [default from_option].
    destruct (delete "favorite" arguments !! "name") as [name|]; [|constructor].
    match goal with
    | |- context [LabelMCPInput.validate ?n ?c ?f] =>
        destruct (LabelMCPInput.validate n c f) as [label_input|] eqn:Hp
    end; [|constructor].
    assert (LabelMCPInput.favorite label_input = Some false) as Hf.
    { unfold LabelMCPInput.validate in Hp.
      repeat match type of Hp with
             | mbind _ ?x = _ => destruct x eqn:?; simpl in Hp; [|discriminate]
             end.
      injection Hp as <-. simpl in *. congruence. }
    cbn [fst snd trace result state_after app].
    repeat step; repeat constructor; cbn [created_favorite];
      intros favorite [= <-]; exact Hf.
  - unfold handle_create_label, handle_create_label_body. unfold_client.
    unfold get. rewrite lookup_singleton_eq, !lookup_singleton_ne by discriminate.
    cbn [default from_option id].
    change (LabelMCPInput.validate (VStr "work") VNone (VBool false))
      with (Some (LabelMCPInput.Build_t "work" None (Some false))).
    cbn [LabelMCPInput.name LabelMCPInput.color LabelMCPInput.favorite].
    destruct (sdk Label.t (api_add_label "work" None (Some false)) w)
      as [[e|label] w1]; reflexivity.
Qed.

Lemma filter_input_limit (arguments : gmap string value)
    (filter_args : TaskFilterMCPInput.t) (n : Z) :
  TaskFilterMCPInput.validate arguments = Some filter_args ->
  TaskFilterMCPInput.limit filter_args = Some n ->
  1 <= n <= 100.
Proof.
  unfold TaskFilterMCPInput.validate. intros H.
  repeat match type of H with
         | mbind _ ?x = _ => destruct x eqn:?; simpl in H; [|discriminate]
         end.
  injection H as <-. simpl. intros ->.
  match goal with
  | E : as_int_between 1 100 ?v = Some (Some n) |- _ =>
      unfold as_int_between in E; destruct v; try discriminate;
      destruct (1 <=? n0) eqn:Hlo; destruct (n0 <=? 100) eqn:Hhi;
      try discriminate; injection E as ->
  end.
  split; [apply Z.leb_le | apply Z.leb_le]; assumption.
Qed.

(** With a limit supplied, list-tasks renders the first min(limit, total)
    records of the remote list. *)
Lemma list_tasks_limit_supplied (arguments : gmap string value)
    (filter_args : TaskFilterMCPInput.t) (n : Z) (w w' : W)
    (tasks : list TaskMCPOutput.t) (t : list event) :
  TaskFilterMCPInput.validate arguments = Some filter_args ->
  TaskFilterMCPInput.limit filter_args = Some n ->
  handle_list_tasks sdk library_text arguments w = (inr (TasksListed tasks), w', t) ->
  exists (c : call (list Task.t)) w0 w1 remote,
    method_name c = "get_tasks"
    /\ sdk (list Task.t) c w0 = (inr remote, w1)
    /\ length tasks = Nat.min (Z.to_nat n) (length remote).
Proof.
  intros Hv Hn. pose proof (filter_input_limit _ _ _ Hv Hn) as Hrange.
  unfold handle_list_tasks, handle_list_tasks_body. unfold_client.
  rewrite Hv, Hn. cbn [truthy_int default from_option id].
  assert ((n =? 0) = false) as -> by (apply Z.eqb_neq; lia). cbn [negb andb].
  repeat match goal with
         | |- context [sdk ?R ?c ?w] =>
             atomic c; atomic w;
             let E := fresh "Esdk" in
             destruct (sdk R c w) as [[?e|?r] ?w] eqn:E;
             cbn [fst snd trace result state_after app]
         | |- context [match ?x with _ => _ end] =>
             atomic x;
             lazymatch x with
             | task_models _ _ _ => fail
             | _ => destruct x eqn:?
             end;
             cbn [fst snd trace result state_after app]
         end;
    try (intros [=]; fail);
    match goal with
    | |- context [task_models library_text ?ts ?w] =>
        destruct (task_models library_text ts w) as [[[?|models] ?] ?] eqn:Hm
    end;
    cbn [fst snd trace result state_after app];
    try (intros [=]; fail);
    intros [= <- _ _];
    rewrite (task_models_length library_text _ _ _ _ _ Hm);
    eexists _, _, _, _;
    (split; [| split; [eassumption | rewrite ?length_take; lia]]);
    reflexivity.
Qed.

(** ** Further properties *)

(** X1: whatever the wrapper re-raises is an error of the taxonomy, and a
    second pass of the policy, under any function name, leaves it as it
    is. *)
Theorem normalize_settles (name name' : string) (e : exn) :
  is_MCPError (exn_class_of (normalize name e)) = true
  /\ normalize name' (normalize name e) = normalize name e.
Proof.
  unfold normalize.
  destruct (is_MCPError (exn_class_of e)) eqn:Hm.
  - rewrite Hm. split; reflexivity.
  - destruct (is_ValueError (exn_class_of e)); [split; reflexivity|].
    destruct (str_in "todoist" (lower (message e))); split; reflexivity.
Qed.




(** X4: the model of a task is refused exactly when the task has a due
    record whose date is not empty and does not start with "20"; when it is
    accepted it keeps the identifier, the content, the labels, the priority
    and the ids of the task, and an absent description becomes the empty
    text. *)
Theorem from_todoist_accepts (task : Task.t) :
  (TaskMCPOutput.from_todoist task = None <->
   exists d date,
     Task.due task = Some d /\ Due.date d = Some date
     /\ date <> "" /\ startswith date "20" = false)
  /\ (forall task_model,
        TaskMCPOutput.from_todoist task = Some task_model ->
        TaskMCPOutput.id task_model = Task.id task
        /\ TaskMCPOutput.content task_model = Task.content task
        /\ TaskMCPOutput.description task_model = default "" (Task.description task)
        /\ TaskMCPOutput.labels task_model = Task.labels task
        /\ TaskMCPOutput.priority task_model = Task.priority task
        /\ TaskMCPOutput.project_id task_model = Task.project_id task
        /\ TaskMCPOutput.is_completed task_model = false).
Proof.
  unfold TaskMCPOutput.from_todoist, TaskDue.validate, TaskDue.validate_date,
    startswith.
  destruct (Task.due task) as [d|]; cbn.
  - destruct (Due.date d) as [date|] eqn:Edate; cbn.
    + destruct (String.eqb date "") eqn:He; cbn.
      * apply String.eqb_eq in He. split.
        -- split; [discriminate|].
           intros (d' & date' & Hd & Hdate & Hne & _). congruence.
        -- intros m [= <-]. repeat split.
      * apply String.eqb_neq in He.
        destruct (String.prefix "20" date) eqn:Hs; cbn.
        -- split.
           ++ split; [discriminate|].
              intros (d' & date' & Hd & Hdate & _ & Hf). congruence.
           ++ intros m [= <-]. repeat split.
        -- split.
           ++ split; [|reflexivity]. intros _. exists d, date.
              repeat split; assumption.
           ++ intros m [=].
    + split.
      * split; [discriminate|].
        intros (d' & date' & Hd & Hdate & _). congruence.
      * intros m [= <-]. repeat split.
  - split.
    + split; [discriminate|]. intros (d' & date' & [=] & _).
    + intros m [= <-]. repeat split.
Qed.

Lemma truthy_paren (s : string) : truthy_str (Some ("(" +:+ s)) = true.
Proof. reflexivity. Qed.

(** X5: the composed filter is empty or absent exactly when the base filter
    is and no clause is active (a priority of 0 activates none); and when no
    clause is active the base filter is returned as it is. *)
Theorem compose_active (base : option string) (today upcoming : option bool)
    (priority : option Z) :
  truthy_str (compose base today upcoming priority)
  = truthy_str base || truthy_bool today || truthy_bool upcoming
    || truthy_int priority
  /\ (truthy_bool today || truthy_bool upcoming || truthy_int priority = false ->
      compose base today upcoming priority = base).
Proof.
  unfold compose, clause_priority, clause_upcoming, clause_today.
  destruct (truthy_bool today), (truthy_bool upcoming), (truthy_int priority),
    (truthy_str base) eqn:Hb;
    rewrite ?truthy_paren; cbn [truthy_str negb orb String.eqb];
    rewrite ?truthy_paren, ?Hb; split; try reflexivity; try discriminate.
Qed.

Lemma contains_wrap (s acc rest : string) :
  contains s acc -> contains s ("(" +:+ acc +:+ rest).
Proof.
  intros (before & after & ->). exists ("(" +:+ before), (after +:+ rest).
  rewrite !append_assoc. reflexivity.
Qed.

Lemma append_empty (s : string) : s +:+ "" = s.
Proof.
  induction s as [|a s IH]; [reflexivity|].
  rewrite append_cons, IH. reflexivity.
Qed.

Lemma contains_self (s : string) : contains s s.
Proof.
  exists "", "". change (s = s +:+ ""). symmetry. apply append_empty.
Qed.

(** X6: a base filter that is not empty is carried into the composed filter
    as it is: the composed filter contains it, and contains it between
    parentheses as soon as one clause is active. *)
Theorem compose_keeps_base (base : string) (today upcoming : option bool)
    (priority : option Z) :
  base <> "" ->
  exists composed,
    compose (Some base) today upcoming priority = Some composed
    /\ contains base composed
    /\ (truthy_bool today || truthy_bool upcoming || truthy_int priority = true ->
        contains ("(" +:+ base +:+ ")") composed).
Proof.
  intros Hb. apply String.eqb_neq in Hb.
  assert (forall rest, contains ("(" +:+ base +:+ ")") ("(" +:+ base +:+ ")" +:+ rest))
    as Hhere.
  { intros rest. exists "", rest. rewrite !append_assoc. reflexivity. }
  assert (forall rest, contains base ("(" +:+ base +:+ rest)) as Hbase.
  { intros rest. apply contains_wrap, contains_self. }
  unfold compose, clause_priority, clause_upcoming, clause_today.
  destruct (truthy_bool today), (truthy_bool upcoming), (truthy_int priority);
    cbn [truthy_str]; rewrite ?Hb; cbn [negb]; rewrite ?truthy_paren;
    cbv [from_option id]; eexists; (split; [reflexivity|]);
    (split; [| first [ discriminate | intros _ ]]);
    repeat first [ apply contains_self
                 | apply (Hhere (" & today"))
                 | apply (Hhere (" & (today | overdue | 7 days)"))
                 | apply (Hhere (" & " +:+ "p" +:+ pretty (default 0 priority)))
                 | apply Hbase
                 | apply contains_wrap ].
Qed.

Lemma lower_char_idempotent (c : ascii) : lower_char (lower_char c) = lower_char c.
Proof. destruct c as [[] [] [] [] [] [] [] []]; reflexivity. Qed.

Lemma lower_upper_char (c : ascii) : lower_char (upper_char c) = lower_char c.
Proof. destruct c as [[] [] [] [] [] [] [] []]; reflexivity. Qed.

Lemma lower_idempotent (s : string) : lower (lower s) = lower s.
Proof.
  induction s as [|c s IH]; [reflexivity|].
  simpl. rewrite lower_char_idempotent, IH. reflexivity.
Qed.

Lemma lower_upper (s : string) : lower (upper s) = lower s.
Proof.
  induction s as [|c s IH]; [reflexivity|].
  simpl. rewrite lower_upper_char, IH. reflexivity.
Qed.

(** X7: on ASCII text the scan does not depend on the letter case of the
    name it is given, nor on the letter case of the names of the entities: a
    name, its lower case and its upper case select the same entity, and
    lowering the name of every entity selects the entity at the same
    position. *)
Theorem first_match_ignores_case {E : Type} (name_of : E -> string)
    (wanted : string) (collection : list E) :
  ascii_text wanted = true ->
  Forall (fun e => ascii_text (name_of e) = true) collection ->
  first_match name_of (lower wanted) collection
  = first_match name_of wanted collection
  /\ first_match name_of (upper wanted) collection
     = first_match name_of wanted collection
  /\ first_match (fun e => lower (name_of e)) wanted collection
     = first_match name_of wanted collection.
Proof.
  intros _ _. unfold first_match. rewrite lower_idempotent, lower_upper.
  repeat split.
  induction collection as [|e rest IH]; [reflexivity|].
  simpl. rewrite lower_idempotent, IH. reflexivity.
Qed.

(** X8: the constructor of the client prefers the token it is given to the
    configured one, refuses to build a client when neither holds a token
    (AuthenticationError), and otherwise holds a token that is not empty. *)
Theorem client_token (config : Config.t) (api_token : option string) :
  (forall token, api_token = Some token -> token <> "" ->
     TodoistClient config api_token = inr token)
  /\ (truthy_str api_token = false ->
      TodoistConfig.api_token (Config.todoist config) <> "" ->
      TodoistClient config api_token
      = inr (TodoistConfig.api_token (Config.todoist config)))
  /\ (truthy_str api_token = false ->
      TodoistConfig.api_token (Config.todoist config) = "" ->
      TodoistClient config api_token
      = inl (Raise AuthenticationError "Todoist API token not provided" None))
  /\ (forall token, TodoistClient config api_token = inr token -> token <> "").
Proof.
  unfold TodoistClient. repeat split.
  - intros token -> Hne. cbn [truthy_str default from_option id].
    apply String.eqb_neq in Hne. rewrite Hne. cbn [negb]. rewrite Hne.
    reflexivity.
  - intros -> Hne. apply String.eqb_neq in Hne. rewrite Hne. reflexivity.
  - intros -> ->. reflexivity.
  - intros token.
    destruct (String.eqb _ "") eqn:He; [discriminate|].
    intros [= <-]. apply String.eqb_neq. exact He.
Qed.

(** X9: the dictionary of a configuration does not show the token: two
    configurations that differ only in their tokens, both set, have the same
    dictionary, whose token entry is "***"; with no token the entry is
    None. *)
Theorem to_dict_hides_token (server_name server_version : string)
    (log_level : LogLevel.t) (debug : bool) (request_timeout : Z)
    (rate_limit_retry : bool) (api_url : string) (extra : list (string * json))
    (token token' : string) :
  let config t :=
    {| Config.server_name := server_name;
       Config.server_version := server_version;
       Config.log_level := log_level;
       Config.debug := debug;
       Config.todoist :=
         {| TodoistConfig.api_token := t;
            TodoistConfig.request_timeout := request_timeout;
            TodoistConfig.rate_limit_retry := rate_limit_retry;
            TodoistConfig.api_url := api_url |};
       Config.extra := extra |} in
  token <> "" -> token' <> "" ->
  Config.to_dict (config token) = Config.to_dict (config token')
  /\ exists entries todoist,
       Config.to_dict (config token) = JDict entries
       /\ keyword_json "todoist" entries = Some (JDict todoist)
       /\ keyword_json "api_token" todoist = Some (JStr "***").
Proof.
  intros config Ht Ht'. apply String.eqb_neq in Ht, Ht'.
  unfold Config.to_dict, config.
  cbn [Config.todoist TodoistConfig.api_token]. rewrite Ht, Ht'.
  split; [reflexivity|]. eexists _, _. repeat split.
Qed.

Lemma upper_lower_char (c : ascii) : upper_char (lower_char c) = upper_char c.
Proof. destruct c as [[] [] [] [] [] [] [] []]; reflexivity. Qed.

Lemma upper_lower (s : string) : upper (lower s) = upper s.
Proof.
  induction s as [|c s IH]; [reflexivity|].
  simpl. rewrite upper_lower_char, IH. reflexivity.
Qed.

Lemma of_value_upper (text : string) (level : LogLevel.t) :
  LogLevel.of_value (upper text) = Some level
  <-> lower text = lower (LogLevel.value level).
Proof.
  split.
  - unfold LogLevel.of_value.
    repeat match goal with
           | |- context [String.eqb ?a ?b] =>
               destruct (String.eqb a b) eqn:E;
               [apply String.eqb_eq in E | clear E]
           end; intros [= <-];
      rewrite <- (lower_upper text), E; reflexivity.
  - intros H. rewrite <- upper_lower, H, upper_lower.
    destruct level; reflexivity.
Qed.

(** X10: loading the configuration fails exactly when the request timeout
    is no integer.  On ASCII text, the log level is the one whose name the
    variable spells in any letter case ("Warning" as well as "warning" or
    "WARNING"), and INFO when the variable spells none of the five names or
    is not set; the debug flag is set exactly when the variable spells "true",
    "1", "yes" or "y" in any letter case. *)
Theorem from_env_reads (int : string -> option Z)
    (environ : gmap string string) :
  (Config.from_env int environ = None <->
   int (default "30" (environ !! "TODOIST_REQUEST_TIMEOUT")) = None)
  /\ (forall config text level,
        Config.from_env int environ = Some config ->
        environ !! "MCP_LOG_LEVEL" = Some text ->
        ascii_text text = true ->
        lower text = lower (LogLevel.value level) ->
        Config.log_level config = level)
  /\ (forall config text,
        Config.from_env int environ = Some config ->
        environ !! "MCP_LOG_LEVEL" = Some text ->
        ascii_text text = true ->
        (forall level, lower text <> lower (LogLevel.value level)) ->
        Config.log_level config = LogLevel.INFO)
  /\ (forall config,
        Config.from_env int environ = Some config ->
        environ !! "MCP_LOG_LEVEL" = None ->
        Config.log_level config = LogLevel.INFO)
  /\ (forall config text,
        Config.from_env int environ = Some config ->
        environ !! "MCP_DEBUG" = Some text ->
        ascii_text text = true ->
        (Config.debug config = true
         <-> lower text ∈ ["true"; "1"; "yes"; "y"]))
  /\ (forall config,
        Config.from_env int environ = Some config ->
        environ !! "MCP_DEBUG" = None ->
        Config.debug config = false).
Proof.
  unfold Config.from_env.
  destruct (int (default "30" (environ !! "TODOIST_REQUEST_TIMEOUT"))) as [n|];
    cbn.
  - split; [split; discriminate|]. split; [|split; [|split; [|split]]].
    + intros config text level [= <-] -> _ H. cbn.
      apply of_value_upper in H. rewrite H. reflexivity.
    + intros config text [= <-] -> _ H. cbn.
      destruct (LogLevel.of_value (upper text)) as [level|] eqn:E;
        [|reflexivity].
      apply of_value_upper in E. destruct (H level E).
    + intros config [= <-] ->. reflexivity.
    + intros config text [= <-] -> _. cbn. unfold flag.
      apply bool_decide_eq_true.
    + intros config [= <-] ->. reflexivity.
  - split; [split; reflexivity|]. repeat split; intros; discriminate.
Qed.

(** X11: create-task given a project name and no project identifier lists
    the projects once; when a project bears the name (in any letter case) the
    task is created in the first such project, and when none does the
    invocation ends with ValidationError "Project not found: <name>" and no
    creation is sent. *)
Theorem create_task_resolves_name (arguments : gmap string value)
    (task_input : TaskMCPInput.t) (name : string) (w w1 : W)
    (projects : list Project.t) :
  TaskMCPInput.validate arguments = Some task_input ->
  TaskMCPInput.project_name task_input = Some name ->
  name <> "" ->
  truthy_str (TaskMCPInput.project_id task_input) = false ->
  sdk (list Project.t) api_get_projects w = (inr projects, w1) ->
  (forall project,
      first_match Project.name name projects = Some project ->
      Project.id project <> "" ->
      trace (handle_create_task sdk library_text arguments w)
      = [Called api_get_projects;
         Called (api_add_task (TaskMCPInput.content task_input)
                   (TaskMCPInput.description task_input)
                   (Some (Project.id project))
                   (TaskMCPInput.section_id task_input)
                   (TaskMCPInput.parent_id task_input) None
                   (TaskMCPInput.labels task_input)
                   (TaskMCPInput.priority task_input)
                   (TaskMCPInput.due_string task_input)
                   (TaskMCPInput.due_date task_input)
                   (TaskMCPInput.due_datetime task_input) None None)])
  /\ (first_match Project.name name projects = None ->
      handle_create_task sdk library_text arguments w
      = (inl (Raise ValidationError ("Project not found: " +:+ name) None), w1,
         [Called api_get_projects])).
Proof.
  intros Hv Hname Hne Hid Hs. apply String.eqb_neq in Hne.
  unfold handle_create_task, handle_create_task_body. unfold_client.
  rewrite Hv, Hname, Hid. cbn [truthy_str default from_option id].
  rewrite Hne. cbn [negb andb]. rewrite Hs. split.
  - intros project -> Hp. apply String.eqb_neq in Hp.
    cbn [truthy_str]. rewrite Hp. cbn [negb].
    repeat step; reflexivity.
  - intros ->. rewrite Hid. reflexivity.
Qed.

(** X12: the three list handlers only read: every remote call they issue is
    a get; list-tasks issues at most three calls, and lists the tasks at most
    once, as its last call. *)
Theorem list_handlers_only_read (arguments : gmap string value) (w : W) :
  Forall (fun ev => is_read ev = true)
    (trace (handle_list_tasks sdk library_text arguments w))
  /\ Forall (fun ev => is_read ev = true)
       (trace (handle_list_projects sdk arguments w))
  /\ Forall (fun ev => is_read ev = true)
       (trace (handle_list_labels sdk arguments w))
  /\ (length (trace (handle_list_tasks sdk library_text arguments w)) <= 3)%nat
  /\ exists resolution listing,
       trace (handle_list_tasks sdk library_text arguments w)
       = resolution ++ listing
       /\ Forall (fun ev => is_listing ev = true) resolution
       /\ (listing = [] \/ exists ev, listing = [ev] /\ is_get_tasks ev = true).
Proof.
  split; [|split; [|split; [|split]]].
  - unfold handle_list_tasks, handle_list_tasks_body. unfold_client.
    repeat step; repeat constructor.
  - unfold handle_list_projects, handle_list_projects_body. unfold_client.
    repeat step; repeat constructor.
  - unfold handle_list_labels, handle_list_labels_body. unfold_client.
    repeat step; repeat constructor.
  - unfold handle_list_tasks, handle_list_tasks_body. unfold_client.
    repeat step; cbn [length]; lia.
  - unfold handle_list_tasks, handle_list_tasks_body. unfold_client.
    repeat step;
      first
        [ (exists []; eexists; split; [reflexivity|]; split; [constructor|];
           first [ left; reflexivity | right; eexists; split; reflexivity ])
        | (eexists [_]; eexists; split; [reflexivity|];
           split; [repeat constructor|];
           first [ left; reflexivity | right; eexists; split; reflexivity ])
        | (eexists [_; _]; eexists; split; [reflexivity|];
           split; [repeat constructor|];
           first [ left; reflexivity | right; eexists; split; reflexivity ]) ].
Qed.

(** X13: with a task_id, complete-task and delete-task always issue the same
    two calls, the read of the task and then the closing (the deletion),
    whether the read succeeds or not; a failed read only replaces the content
    of the task by "the task" in the answer, and an answer is given only when
    the service acknowledged the mutation with True. *)
Theorem pre_fetch_never_blocks (arguments : gmap string value) (w : W) :
  let task_id := get arguments "task_id" in
  truthy task_id = true ->
  trace (handle_complete_task sdk arguments w)
  = [Called (api_get_task task_id); Called (api_close_task task_id)]
  /\ trace (handle_delete_task sdk arguments w)
     = [Called (api_get_task task_id); Called (api_delete_task task_id)]
  /\ (forall r w' t,
        handle_complete_task sdk arguments w = (inr r, w', t) ->
        exists content,
          r = TaskCompleted content task_id
          /\ sdk bool (api_close_task task_id)
               (snd (sdk Task.t (api_get_task task_id) w)) = (inr true, w')
          /\ content
             = match fst (sdk Task.t (api_get_task task_id) w) with
               | inr task => Task.content task
               | inl _ => "the task"
               end)
  /\ (forall r w' t,
        handle_delete_task sdk arguments w = (inr r, w', t) ->
        exists content,
          r = TaskDeleted content task_id
          /\ sdk bool (api_delete_task task_id)
               (snd (sdk Task.t (api_get_task task_id) w)) = (inr true, w')
          /\ content
             = match fst (sdk Task.t (api_get_task task_id) w) with
               | inr task => Task.content task
               | inl _ => "the task"
               end).
Proof.
  intros task_id Ht. subst task_id.
  unfold handle_complete_task, handle_complete_task_body, handle_delete_task,
    handle_delete_task_body.
  unfold_client. rewrite Ht. cbn [negb].
  split; [|split; [|split]].
  - repeat step; reflexivity.
  - repeat step; reflexivity.
  - intros r w' t.
    repeat step; try (intros [=]; fail); intros [= <- <- <-];
      repeat match goal with b : bool |- _ => destruct b end;
      try discriminate; eexists; repeat split.
  - intros r w' t.
    repeat step; try (intros [=]; fail); intros [= <- <- <-];
      repeat match goal with b : bool |- _ => destruct b end;
      try discriminate; eexists; repeat split.
Qed.

(** X14: when the service answers the closing or the deletion of a task with
    a false flag, the invocation ends with TodoistError "Failed to complete
    task" ("Failed to delete task"), after the same two calls. *)
Theorem refused_mutation_fails (arguments : gmap string value) (w w2 : W) :
  let task_id := get arguments "task_id" in
  let w1 := snd (sdk Task.t (api_get_task task_id) w) in
  truthy task_id = true ->
  (sdk bool (api_close_task task_id) w1 = (inr false, w2) ->
   handle_complete_task sdk arguments w
   = (inl (Raise TodoistError "Failed to complete task" None), w2,
      [Called (api_get_task task_id); Called (api_close_task task_id)]))
  /\ (sdk bool (api_delete_task task_id) w1 = (inr false, w2) ->
      handle_delete_task sdk arguments w
      = (inl (Raise TodoistError "Failed to delete task" None), w2,
         [Called (api_get_task task_id); Called (api_delete_task task_id)])).
Proof.
  intros task_id w1 Ht. subst task_id w1.
  unfold handle_complete_task, handle_complete_task_body, handle_delete_task,
    handle_delete_task_body.
  unfold_client. rewrite Ht. cbn [negb].
  split; intros Hs;
    destruct (sdk Task.t (api_get_task (get arguments "task_id")) w)
      as [[e|task] w1]; cbn [fst snd] in *; rewrite Hs; reflexivity.
Qed.

Lemma filter_input_rejects_limit (arguments : gmap string value) (n : Z) :
  get arguments "limit" = VInt n -> n < 1 \/ 100 < n ->
  TaskFilterMCPInput.validate arguments = None.
Proof.
  intros Hl Hn. unfold TaskFilterMCPInput.validate. rewrite Hl.
  assert (as_int_between 1 100 (VInt n) = None) as ->.
  { unfold as_int_between.
    destruct (1 <=? n) eqn:Hlo; destruct (n <=? 100) eqn:Hhi; try reflexivity.
    apply Z.leb_le in Hlo, Hhi. lia. }
  repeat match goal with
         | |- mbind _ ?x = None => destruct x; simpl; [|reflexivity]
         end.
  reflexivity.
Qed.

(** X15: list-tasks given an integer limit below 1 or above 100 ends with
    the validation error of its input model, before any remote call. *)
Theorem list_tasks_rejects_limit (arguments : gmap string value) (n : Z) (w : W) :
  get arguments "limit" = VInt n ->
  n < 1 \/ 100 < n ->
  handle_list_tasks sdk library_text arguments w
  = (inl (Raise PydanticValidationError
            (library_text (InvalidModel "TaskFilterMCPInput")) None), w, []).
Proof.
  intros Hl Hn.
  unfold handle_list_tasks, handle_list_tasks_body. unfold_client.
  rewrite (filter_input_rejects_limit _ _ Hl Hn). reflexivity.
Qed.

Lemma task_input_rejects (arguments : gmap string value) :
  as_required_str (get arguments "content") = None
  \/ as_int_between 1 4 (get arguments "priority") = None ->
  TaskMCPInput.validate arguments = None.
Proof.
  intros H. unfold TaskMCPInput.validate.
  destruct H as [H | H].
  - rewrite H. reflexivity.
  - destruct (as_int_between 1 4 (get arguments "priority")); [discriminate|].
    repeat match goal with
           | |- mbind _ ?x = None =>
               lazymatch x with
               | None => fail
               | _ => destruct x; simpl; [|reflexivity]
               end
           end.
    reflexivity.
Qed.

(** X16: create-task whose arguments hold no content (or a content that is
    no text), or an integer priority outside 1..4, ends with the validation
    error of its input model, before any remote call. *)
Theorem create_task_rejects (arguments : gmap string value) (w : W) :
  (forall s, get arguments "content" <> VStr s)
  \/ (exists n, get arguments "priority" = VInt n /\ (n < 1 \/ 4 < n)) ->
  handle_create_task sdk library_text arguments w
  = (inl (Raise PydanticValidationError
            (library_text (InvalidModel "TaskMCPInput")) None), w, []).
Proof.
  intros H.
  unfold handle_create_task, handle_create_task_body. unfold_client.
  rewrite task_input_rejects; [reflexivity|].
  destruct H as [H | (n & Hp & Hn)].
  - left. destruct (get arguments "content"); try reflexivity.
    exfalso. exact (H s eq_refl).
  - right. rewrite Hp. unfold as_int_between.
    destruct (1 <=? n) eqn:Hlo; destruct (n <=? 4) eqn:Hhi; try reflexivity.
    apply Z.leb_le in Hlo, Hhi. lia.
Qed.

(** X17: the limit of list-labels and list-projects is applied to the
    remote list before it is arranged: for an integer limit n above 0 the
    answer is built from the first min(n, total) records, and from the whole
    list when the limit is absent, is an integer not above 0, or is a text.
    list-labels answers with the models of these labels in ascending order of
    their order (a label without an order, or with the order 0, counts as
    999), labels of equal order in the order of the remote list;
    list-projects answers with the entries of the tree of these projects. *)
Theorem list_limit_prefix (arguments : gmap string value) (w w1 w2 : W)
    (labels : list Label.t) (projects : list Project.t) :
  sdk (list Label.t) api_get_labels w = (inr labels, w1) ->
  sdk (list Project.t) api_get_projects w = (inr projects, w2) ->
  exists k sorted_labels entries,
    result (handle_list_labels sdk arguments w)
    = inr (LabelsListed (map LabelMCPOutput.from_todoist sorted_labels))
    /\ sorted_labels ≡ₚ take k labels
    /\ StronglySorted (fun a b => label_order a <= label_order b) sorted_labels
    /\ (forall o,
           filter (fun l => label_order l = o) sorted_labels
           = filter (fun l => label_order l = o) (take k labels))
    /\ result (handle_list_projects sdk arguments w)
       = inr (ProjectsListed entries)
    /\ (forall fuel,
           (length (take k projects) <= fuel)%nat ->
           project_tree fuel (take k projects) = Some entries)
    /\ (forall n, get arguments "limit" = VInt n -> 0 < n -> k = Z.to_nat n)
    /\ ((get arguments "limit" = VNone
         \/ (exists n, get arguments "limit" = VInt n /\ n <= 0)
         \/ (exists s, get arguments "limit" = VStr s)) ->
        take k labels = labels /\ take k projects = projects).
Proof.
  intros Hl Hp.
  assert (exists k,
             apply_limit (get arguments "limit") labels = take k labels
             /\ apply_limit (get arguments "limit") projects = take k projects
             /\ (forall n, get arguments "limit" = VInt n -> 0 < n ->
                           k = Z.to_nat n)
             /\ ((get arguments "limit" = VNone
                  \/ (exists n, get arguments "limit" = VInt n /\ n <= 0)
                  \/ (exists s, get arguments "limit" = VStr s)) ->
                 take k labels = labels /\ take k projects = projects))
    as (k & Hkl & Hkp & Hn & Hall).
  { destruct (get arguments "limit") as [|[]|n|s|l] eqn:Hlim; cbn [apply_limit].
    - exists (Nat.max (length labels) (length projects)).
      rewrite !firstn_all2 by lia. repeat split; try discriminate.
    - exists 1%nat. repeat split; try discriminate;
        destruct H as [H | [(n & H & _) | (s & H)]]; discriminate.
    - exists (Nat.max (length labels) (length projects)).
      rewrite !firstn_all2 by lia. repeat split; try discriminate.
    - destruct (0 <? n) eqn:Hn.
      + exists (Z.to_nat n). apply Z.ltb_lt in Hn. repeat split.
        * intros n' [= <-] _. reflexivity.
        * destruct H as [H | [(n' & [= <-] & H) | (s & H)]];
            try discriminate; lia.
        * destruct H as [H | [(n' & [= <-] & H) | (s & H)]];
            try discriminate; lia.
      + exists (Nat.max (length labels) (length projects)).
        apply Z.ltb_ge in Hn.
        rewrite !firstn_all2 by lia. repeat split.
        intros n' [= <-] H. lia.
    - exists (Nat.max (length labels) (length projects)).
      rewrite !firstn_all2 by lia. repeat split; try discriminate.
    - exists (Nat.max (length labels) (length projects)).
      rewrite !firstn_all2 by lia. repeat split; try discriminate;
        destruct H as [H | [(n & H & _) | (s & H)]]; discriminate. }
  exists k, (sort_by label_order (take k labels)),
    (project_entries (take k projects)).
  unfold handle_list_labels, handle_list_labels_body, handle_list_projects,
    handle_list_projects_body.
  unfold_client. rewrite Hl, Hp. cbn [result fst]. rewrite Hkl, Hkp.
  split; [reflexivity|]. split; [apply sort_by_perm|].
  split; [apply sort_by_sorted|]. split; [intros o; apply sort_by_stable|].
  split; [reflexivity|]. split; [intros fuel; apply project_entries_tree|].
  split; [exact Hn | exact Hall].
Qed.

(** X18: the record that a successful update-label (update-project) answers
    with is the one returned by a read of the label (project) issued right
    after the update call, on the state that the update left, and the update
    was acknowledged with True; update-project may follow it by one read of
    the parent project. *)
Theorem update_rereads (arguments : gmap string value) (w w' : W)
    (t : list event) :
  (forall label_model,
      handle_update_label sdk library_text arguments w
      = (inr (LabelUpdated label_model), w', t) ->
      exists label_id name color favorite pre w0 w1 updated_label,
        t = pre ++ [Called (api_update_label label_id name color favorite);
                    Called (api_get_label label_id)]
        /\ sdk bool (api_update_label label_id name color favorite) w0
           = (inr true, w1)
        /\ sdk Label.t (api_get_label label_id) w1 = (inr updated_label, w')
        /\ label_model = LabelMCPOutput.from_todoist updated_label)
  /\ (forall project_model parent,
        handle_update_project sdk library_text arguments w
        = (inr (ProjectUpdated project_model parent), w', t) ->
        exists project_id name color favorite pre post w0 w1 w2 updated_project,
          t = pre ++ [Called (api_update_project project_id name color favorite);
                      Called (api_get_project project_id)] ++ post
          /\ sdk bool (api_update_project project_id name color favorite) w0
             = (inr true, w1)
          /\ sdk Project.t (api_get_project project_id) w1
             = (inr updated_project, w2)
          /\ project_model = ProjectMCPOutput.from_todoist updated_project
          /\ (post = [] /\ w2 = w'
              \/ exists parent_id,
                   Project.parent_id updated_project = Some parent_id
                   /\ post = [Called (api_get_project (VStr parent_id))])).
Proof.
  split.
  - intros label_model.
    unfold handle_update_label, handle_update_label_body. unfold_client.
    repeat step; try (intros [=]; fail); intros [= <- <- <-];
      repeat match goal with b : bool |- _ => destruct b end;
      try discriminate;
      do 8 eexists; (split; [suffix|]);
      (split; [eassumption|]); (split; [eassumption|]); reflexivity.
  - intros project_model parent.
    unfold handle_update_project, handle_update_project_body. unfold_client.
    cbn [ProjectMCPOutput.parent_id ProjectMCPOutput.from_todoist].
    repeat step; try (intros [=]; fail); intros [= <- <- <- <-];
      repeat match goal with b : bool |- _ => destruct b end;
      try discriminate;
      do 10 eexists;
      (split;
       [ first [ exact (eq_refl : _ = [] ++ [_; _] ++ _)
               | exact (eq_refl : _ = [_] ++ [_; _] ++ _)
               | exact (eq_refl : _ = [_; _] ++ [_; _] ++ _) ] |]);
      (split; [eassumption|]); (split; [eassumption|]);
      (split; [reflexivity|]);
      first [ left; split; reflexivity
            | right; eexists; split; [eassumption | reflexivity] ].
Qed.

(** X19: delete-label and delete-project given only a name list the
    entities, and then read and delete the first entity that bears the name
    (in any letter case), whether the read succeeds or not; when no entity
    bears it they end with ValidationError "... not found: <name>" and send
    no deletion. *)
Theorem delete_by_name (arguments : gmap string value) (name : string)
    (w w1 w2 : W) (labels : list Label.t) (projects : list Project.t) :
  name <> "" ->
  sdk (list Label.t) api_get_labels w = (inr labels, w1) ->
  sdk (list Project.t) api_get_projects w = (inr projects, w2) ->
  (truthy (get arguments "label_id") = false ->
   get arguments "label_name" = VStr name ->
   (forall label,
       first_match Label.name name labels = Some label ->
       Label.id label <> "" ->
       trace (handle_delete_label sdk library_text arguments w)
       = [Called api_get_labels; Called (api_get_label (VStr (Label.id label)));
          Called (api_delete_label (VStr (Label.id label)))])
   /\ (first_match Label.name name labels = None ->
       handle_delete_label sdk library_text arguments w
       = (inl (Raise ValidationError ("Label not found: " +:+ name) None), w1,
          [Called api_get_labels])))
  /\ (truthy (get arguments "project_id") = false ->
      get arguments "project_name" = VStr name ->
      (forall project,
          first_match Project.name name projects = Some project ->
          Project.id project <> "" ->
          trace (handle_delete_project sdk library_text arguments w)
          = [Called api_get_projects;
             Called (api_get_project (VStr (Project.id project)));
             Called (api_delete_project (VStr (Project.id project)))])
      /\ (first_match Project.name name projects = None ->
          handle_delete_project sdk library_text arguments w
          = (inl (Raise ValidationError ("Project not found: " +:+ name) None),
             w2, [Called api_get_projects]))).
Proof.
  intros Hne Hl Hp. apply String.eqb_neq in Hne.
  split; intros Hid Hname.
  - unfold handle_delete_label, handle_delete_label_body. unfold_client.
    rewrite Hid, Hname. cbn [truthy negb andb]. rewrite Hne. cbn [negb].
    rewrite Hl. cbn [fst snd]. split.
    + intros label Hm Hi. apply String.eqb_neq in Hi.
      unfold scan. destruct labels as [|l0 rest]; [discriminate|].
      rewrite Hm. cbn [truthy]. rewrite Hi. cbn [negb].
      repeat step; reflexivity.
    + intros Hm. unfold scan. destruct labels as [|l0 rest].
      * rewrite Hid. reflexivity.
      * rewrite Hm, Hid. reflexivity.
  - unfold handle_delete_project, handle_delete_project_body. unfold_client.
    rewrite Hid, Hname. cbn [truthy negb andb]. rewrite Hne. cbn [negb].
    rewrite Hp. cbn [fst snd]. split.
    + intros project Hm Hi. apply String.eqb_neq in Hi.
      unfold scan. destruct projects as [|p0 rest]; [discriminate|].
      rewrite Hm. cbn [truthy]. rewrite Hi. cbn [negb].
      repeat step; reflexivity.
    + intros Hm. unfold scan. destruct projects as [|p0 rest].
      * rewrite Hid. reflexivity.
      * rewrite Hm, Hid. reflexivity.
Qed.

(** X20: create-label given a name and a colour that is not empty: a
    colour that is none of the twenty names of the palette ends the
    invocation with the validation error of the input model, before any
    remote call; with a colour of the palette, and a favorite flag that is
    absent, null or a boolean, the creation is the only call, and it carries
    the name, the colour and the flag (False when it is absent). *)
Theorem create_label_colour (arguments : gmap string value) (name color : string)
    (w : W) :
  arguments !! "name" = Some (VStr name) ->
  get arguments "color" = VStr color ->
  color <> "" ->
  (color ∉ TodoistColor ->
   handle_create_label sdk library_text arguments w
   = (inl (Raise PydanticValidationError
             (library_text (InvalidModel "LabelMCPInput")) None), w, []))
  /\ (color ∈ TodoistColor ->
      forall favorite,
        arguments !! "favorite" = None /\ favorite = Some false
        \/ arguments !! "favorite" = Some VNone /\ favorite = None
        \/ (exists b, arguments !! "favorite" = Some (VBool b)
                      /\ favorite = Some b) ->
        trace (handle_create_label sdk library_text arguments w)
        = [Called (api_add_label name (Some color) favorite)]).
Proof.
  intros Hn Hc Hne. apply String.eqb_neq in Hne.
  unfold handle_create_label, handle_create_label_body. unfold_client.
  rewrite Hn, Hc. unfold LabelMCPInput.validate, validate_color.
  cbn [as_required_str as_str mbind option_bind truthy_str default from_option id].
  rewrite Hne. cbn [negb andb]. split; intros Hin.
  - rewrite bool_decide_eq_false_2 by exact Hin. reflexivity.
  - rewrite bool_decide_eq_true_2 by exact Hin. cbn [negb].
    intros favorite [[-> ->] | [[-> ->] | (b & -> & ->)]]; cbn;
      repeat step; reflexivity.
Qed.

(** X21: create-project given a parent name and no parent identifier: when
    no project bears the name the invocation ends with ValidationError
    "Parent project not found: <name>" after the listing, and no project is
    created. *)
Theorem create_project_unknown_parent (arguments : gmap string value)
    (name : string) (w w1 : W) (projects : list Project.t) :
  name <> "" ->
  truthy (get arguments "parent_id") = false ->
  get arguments "parent_name" = VStr name ->
  sdk (list Project.t) api_get_projects w = (inr projects, w1) ->
  first_match Project.name name projects = None ->
  handle_create_project sdk library_text arguments w
  = (inl (Raise ValidationError ("Parent project not found: " +:+ name) None),
     w1, [Called api_get_projects]).
Proof.
  intros Hne Hid Hname Hs Hm. apply String.eqb_neq in Hne.
  unfold handle_create_project, handle_create_project_body. unfold_client.
  rewrite Hid, Hname. cbn [truthy negb andb]. rewrite Hne. cbn [negb andb].
  rewrite Hs. cbn [fst snd]. unfold scan.
  destruct projects as [|p0 rest].
  - rewrite Hid. reflexivity.
  - rewrite Hm, Hid. reflexivity.
Qed.

(** X22: the models of the listed tasks are built all or none: when every
    task is accepted the models are those of the tasks, in their order, and
    no remote call is made; when one task is refused the listing ends with
    the validation error of the model. *)
Theorem task_models_all_or_none (tasks : list Task.t) (w : W) :
  (Forall (fun task => TaskMCPOutput.from_todoist task <> None) tasks ->
   exists models,
     task_models library_text tasks w = (inr models, w, [])
     /\ Forall2 (fun task model => TaskMCPOutput.from_todoist task = Some model)
          tasks models)
  /\ (Exists (fun task => TaskMCPOutput.from_todoist task = None) tasks ->
      task_models library_text tasks w
      = (inl (Raise PydanticValidationError
                (library_text (InvalidModel "TaskMCPOutput")) None), w, [])).
Proof.
  induction tasks as [|task rest [IHall IHone]]; cbn [task_models].
  - split; [|intros H; inversion H].
    intros _. exists []. split; [reflexivity | constructor].
  - unfold bind, validated. split.
    + intros H. inversion H as [|? ? Ht Hr]; subst.
      destruct (TaskMCPOutput.from_todoist task) as [model|] eqn:E;
        [|contradiction].
      destruct (IHall Hr) as (models & Hm & HF).
      unfold ret at 1. rewrite Hm.
      exists (model :: models). split; [reflexivity|]. constructor; assumption.
    + intros H.
      destruct (TaskMCPOutput.from_todoist task) as [model|] eqn:E;
        [|reflexivity].
      inversion H as [? ? Ht | ? ? Hr]; subst; [congruence|].
      unfold ret at 1. rewrite (IHone Hr). reflexivity.
Qed.

(** X23: update-project and delete-project given neither a project
    identifier nor a project name end with ValidationError "Either project_id
    or project_name is required", before any remote call. *)
Theorem project_reference_required (arguments : gmap string value) (w : W) :
  truthy (get arguments "project_id") = false ->
  truthy (get arguments "project_name") = false ->
  handle_update_project sdk library_text arguments w
  = (inl (Raise ValidationError "Either project_id or project_name is required"
            None), w, [])
  /\ handle_delete_project sdk library_text arguments w
     = (inl (Raise ValidationError
               "Either project_id or project_name is required" None), w, []).
Proof.
  intros Hid Hname.
  unfold handle_update_project, handle_update_project_body,
    handle_delete_project, handle_delete_project_body.
  unfold_client. rewrite get_delete_ne by discriminate.
  rewrite Hid, Hname. split; reflexivity.
Qed.

(** X24: the dispatchers: without a configured token every tool call ends
    with AuthenticationError before any remote call (the dispatcher of the
    task tools first refuses absent arguments with ValidationError, the two
    others read absent arguments as an empty dictionary); with a token, a
    name that is none of the tools of the dispatcher ends with ValueError
    "Unknown tool: <name>" and no remote call. *)
Theorem dispatch_guards (config : Config.t) (name : string)
    (arguments : option (gmap string value)) (w : W) :
  handle_call_tool_tasks sdk library_text config name None w
  = (inl (Raise ValidationError "Arguments are required" None), w, [])
  /\ handle_call_tool_labels sdk library_text config name None w
     = handle_call_tool_labels sdk library_text config name (Some ∅) w
  /\ handle_call_tool_projects sdk library_text config name None w
     = handle_call_tool_projects sdk library_text config name (Some ∅) w
  /\ (TodoistConfig.api_token (Config.todoist config) = "" ->
      (is_Some arguments ->
       handle_call_tool_tasks sdk library_text config name arguments w
       = (inl (Raise AuthenticationError "Todoist API token not provided" None),
          w, []))
      /\ handle_call_tool_projects sdk library_text config name arguments w
         = (inl (Raise AuthenticationError "Todoist API token not provided"
                   None), w, [])
      /\ handle_call_tool_labels sdk library_text config name arguments w
         = (inl (Raise AuthenticationError "Todoist API token not provided"
                   None), w, []))
  /\ (TodoistConfig.api_token (Config.todoist config) <> "" ->
      (is_Some arguments ->
       name ∉ ["list-tasks"; "create-task"; "update-task"; "complete-task";
               "delete-task"] ->
       handle_call_tool_tasks sdk library_text config name arguments w
       = (inl (Raise ValueError ("Unknown tool: " +:+ name) None), w, []))
      /\ (name ∉ ["list-projects"; "create-project"; "update-project";
                  "delete-project"] ->
          handle_call_tool_projects sdk library_text config name arguments w
          = (inl (Raise ValueError ("Unknown tool: " +:+ name) None), w, []))
      /\ (name ∉ ["list-labels"; "create-label"; "update-label";
                  "delete-label"] ->
          handle_call_tool_labels sdk library_text config name arguments w
          = (inl (Raise ValueError ("Unknown tool: " +:+ name) None), w, []))).
Proof.
  unfold handle_call_tool_tasks, handle_call_tool_projects,
    handle_call_tool_labels, TodoistClient.
  cbn [truthy_str default from_option id].
  split; [reflexivity|]. split; [reflexivity|]. split; [reflexivity|].
  split.
  - intros ->. unfold lift, bind, raise. cbn.
    split; [intros [a ->]; reflexivity|]. split; reflexivity.
  - intros Ht. apply String.eqb_neq in Ht. rewrite Ht.
    unfold lift, bind, raise, ret. cbn.
    assert (forall a b : string, a <> b -> String.eqb a b = false) as Hneq
      by (intros a b; apply String.eqb_neq).
    split; [|split].
    + intros [a ->] Hn.
      rewrite !Hneq by (intros ->; apply Hn; set_solver). reflexivity.
    + intros Hn.
      rewrite !Hneq by (intros ->; apply Hn; set_solver). reflexivity.
    + intros Hn.
      rewrite !Hneq by (intros ->; apply Hn; set_solver). reflexivity.
Qed.
Lemma task_models_some (tasks : list Task.t) (w w' : W)
    (models : list TaskMCPOutput.t) (t : list event) :
  task_models library_text tasks w = (inr models, w', t) ->
  Forall2 (fun task model => TaskMCPOutput.from_todoist task = Some model)
    tasks models
  /\ w' = w /\ t = [].
Proof.
  revert models w' t.
  induction tasks as [|task rest IH]; simpl; intros models w' t.
  - unfold ret. intros [= <- <- <-]. split; [constructor | split; reflexivity].
  - unfold bind, validated.
    destruct (TaskMCPOutput.from_todoist task) as [model|] eqn:Em; simpl;
      [|discriminate].
    destruct (task_models library_text rest w) as [[[e|ms] w1] t1] eqn:E;
      simpl; [discriminate|].
    destruct (IH ms w1 t1 eq_refl) as (HF & -> & ->).
    intros [= <- <- <-].
    split; [constructor; assumption | split; reflexivity].
Qed.

(** X26: with a limit supplied, a successful list-tasks ends with its one
    listing of the tasks, and answers with the models of the first
    min(limit, total) tasks that this listing returned, in their order. *)
Theorem list_tasks_limit_prefix (arguments : gmap string value)
    (filter_args : TaskFilterMCPInput.t) (n : Z) (w w' : W)
    (tasks : list TaskMCPOutput.t) (t : list event) :
  TaskFilterMCPInput.validate arguments = Some filter_args ->
  TaskFilterMCPInput.limit filter_args = Some n ->
  handle_list_tasks sdk library_text arguments w = (inr (TasksListed tasks), w', t) ->
  exists (c : call (list Task.t)) pre w0 remote,
    t = pre ++ [Called c]
    /\ method_name c = "get_tasks"
    /\ sdk (list Task.t) c w0 = (inr remote, w')
    /\ Forall2 (fun task model => TaskMCPOutput.from_todoist task = Some model)
         (take (Z.to_nat n) remote) tasks.
Proof.
  intros Hv Hn. pose proof (filter_input_limit _ _ _ Hv Hn) as Hrange.
  unfold handle_list_tasks, handle_list_tasks_body. unfold_client.
  rewrite Hv, Hn. cbn [truthy_int default from_option id].
  assert ((n =? 0) = false) as -> by (apply Z.eqb_neq; lia). cbn [negb andb].
  repeat match goal with
         | |- context [sdk ?R ?c ?w] =>
             atomic c; atomic w;
             let E := fresh "Esdk" in
             destruct (sdk R c w) as [[?e|?r] ?w] eqn:E;
             cbn [fst snd trace result state_after app]
         | |- context [match ?x with _ => _ end] =>
             atomic x;
             lazymatch x with
             | task_models _ _ _ => fail
             | _ => destruct x eqn:?
             end;
             cbn [fst snd trace result state_after app]
         end;
    try (intros [=]; fail);
    match goal with
    | |- context [task_models library_text ?ts ?w] =>
        destruct (task_models library_text ts w) as [[[?|models] ?] ?] eqn:Hm
    end;
    cbn [fst snd trace result state_after app];
    try (intros [=]; fail);
    intros [= <- <- <-];
    destruct (task_models_some _ _ _ _ _ Hm) as (HF & -> & ->);
    rewrite ?app_nil_r;
    eexists _, _, _, _;
    (split; [suffix|]); (split; [reflexivity|]); (split; [eassumption|]);
    first [ exact HF
          | rewrite take_ge; [exact HF|];
            match goal with
            | H : (_ <? _) = false |- _ => apply Z.ltb_ge in H; lia
            end ].
Qed.
End Specification.

(** ** Properties on concrete invocations *)

(** C1: list-tasks with due_today, due_upcoming and priority 3 passes
    "((today) & (today | overdue | 7 days)) & p3" to the remote list call,
    and not that text wrapped in one more pair of parentheses. *)
Lemma filter_literal_counterexample :
  trace (handle_list_tasks (demo_sdk 1) demo_text list_today_upcoming_p3 0%nat)
  = [Called (api_get_tasks None None None
               (Some "((today) & (today | overdue | 7 days)) & p3") None None)]
  /\ compose None (Some true) (Some true) (Some 3)
     <> Some "(((today) & (today | overdue | 7 days)) & p3)".
Proof. split; [vm_compute; reflexivity | discriminate]. Qed.

(** C1 on the run of list-tasks with due_today, due_upcoming and priority 3. *)
Lemma filter_composition_witness :
  TaskFilterMCPInput.validate list_today_upcoming_p3 = Some today_upcoming_p3
  /\ Forall (fun ev => forall f, filter_of ev = Some f ->
               f = Some "((today) & (today | overdue | 7 days)) & p3")
       (trace (handle_list_tasks (demo_sdk 1) demo_text
                 list_today_upcoming_p3 0%nat)).
Proof.
  assert (TaskFilterMCPInput.validate list_today_upcoming_p3
          = Some today_upcoming_p3) as H by (vm_compute; reflexivity).
  split; [exact H|].
  exact (proj2 (proj2 (proj2 (proj2 (proj2
           (filter_composition (demo_sdk 1) demo_text list_today_upcoming_p3
              today_upcoming_p3 0%nat H)))))).
Defined.

(** C2: on a service holding 101 records of each kind (101 projects with
    distinct identifiers), each list handler called without a limit answers
    with all 101 of them: no default of 50 is applied and more than 100
    records are returned. *)
Theorem list_without_limit_returns_everything :
  (exists tasks,
      result (handle_list_tasks (demo_sdk 101) demo_text ∅ 0%nat)
      = inr (TasksListed tasks)
      /\ length tasks = 101%nat)
  /\ (exists entries,
         result (handle_list_projects (numbered_sdk 101) ∅ 0%nat)
         = inr (ProjectsListed entries)
         /\ length entries = 101%nat
         /\ map (fun entry => ProjectMCPOutput.id (snd entry)) entries
            = map (fun i : nat => pretty i) (seq 1 101))
  /\ (exists labels,
         result (handle_list_labels (demo_sdk 101) ∅ 0%nat)
         = inr (LabelsListed labels)
         /\ length labels = 101%nat).
Proof.
  split; [|split].
  - eexists. split; [vm_compute; reflexivity | reflexivity].
  - eexists. split; [vm_compute; reflexivity|].
    split; [reflexivity | vm_compute; reflexivity].
  - eexists. split; [vm_compute; reflexivity | reflexivity].
Qed.

(** C3: the service acknowledges a creation with one record and stores
    another; create-task surfaces the acknowledgement, and its only remote
    call is the creation. *)
Lemma create_task_surfaces_acknowledgement :
  handle_create_task (demo_sdk 1) demo_text create_buy_milk 0%nat
  = (inr (TaskCreated acknowledged_model), 1%nat,
     [Called (api_add_task "Buy milk" None None None None None None None None
                None None None None)])
  /\ demo_sdk 1 Task.t (api_get_task (VStr "1")) 1%nat
     = (inr (sample_task "stored"), 2%nat)
  /\ TaskMCPOutput.from_todoist (sample_task "stored") = Some stored_model
  /\ acknowledged_model <> stored_model.
Proof.
  repeat split; try (vm_compute; reflexivity). discriminate.
Qed.

(** C3 on a successful update-task and a successful create-task. *)
Lemma mutation_confirmation_witness :
  (exists task_id fields pre w0 w1 updated_task,
      update_content !! "task_id" = Some task_id
      /\ [Called (api_get_task (VStr "1"));
          Called (api_update_task (VStr "1")
                    (map (fun k => (k, get (delete "task_id" update_content) k))
                       update_task_params));
          Called (api_get_task (VStr "1"))]
         = pre ++ [Called (api_update_task task_id fields);
                   Called (api_get_task task_id)]
      /\ demo_sdk 1 bool (api_update_task task_id fields) w0 = (inr true, w1)
      /\ demo_sdk 1 Task.t (api_get_task task_id) w1 = (inr updated_task, 3%nat)
      /\ TaskMCPOutput.from_todoist updated_task = Some stored_model)
  /\ (exists (c : call Task.t) pre w0 task,
         method_name c = "create_task"
         /\ [Called (api_add_task "Buy milk" None None None None None None None
                       None None None None None)] = pre ++ [Called c]
         /\ demo_sdk 1 Task.t c w0 = (inr task, 1%nat)
         /\ TaskMCPOutput.from_todoist task = Some acknowledged_model).
Proof.
  split.
  - destruct (proj1 (mutation_confirmation (demo_sdk 1) demo_text update_content
                       0%nat 3%nat (TaskUpdated stored_model)
                       [Called (api_get_task (VStr "1"));
                        Called (api_update_task (VStr "1")
                                  (map (fun k =>
                                          (k, get (delete "task_id" update_content) k))
                                     update_task_params));
                        Called (api_get_task (VStr "1"))]))
      as (task_id & fields & pre & w0 & w1 & updated & model & H1 & H2 & H3 & H4 & H5 & H6).
    + vm_compute. reflexivity.
    + exists task_id, fields, pre, w0, w1, updated.
      injection H6 as ->. repeat split; assumption.
  - destruct (proj2 (mutation_confirmation (demo_sdk 1) demo_text create_buy_milk
                       0%nat 1%nat (TaskCreated acknowledged_model)
                       [Called (api_add_task "Buy milk" None None None None None
                                  None None None None None None None)]))
      as (c & pre & w0 & task & model & H1 & H2 & H3 & H4 & H5 & H6).
    + vm_compute. reflexivity.
    + exists c, pre, w0, task.
      injection H6 as ->. repeat split; assumption.
Defined.

(** C4: update-task with an empty project_id and a project name that matches
    no project: the lookup is made, nothing matches, and the invocation goes
    on to the update (with the empty project_id) and answers normally; no
    ValidationError names the unmatched value. *)
Theorem update_task_unmatched_name_accepted :
  first_match Project.name "Nonexistent" [sample_project] = None
  /\ handle_update_task (demo_sdk 1) demo_text update_unmatched_name 0%nat
     = (inr (TaskUpdated stored_model), 4%nat,
        [Called (api_get_task (VStr "1"));
         Called api_get_projects;
         Called (api_update_task (VStr "1")
                   [("content", VNone); ("description", VNone);
                    ("project_id", VStr ""); ("section_id", VNone);
                    ("parent_id", VNone); ("order", VNone); ("labels", VNone);
                    ("priority", VNone); ("due_string", VNone);
                    ("due_date", VNone); ("due_datetime", VNone);
                    ("due_lang", VNone); ("assignee_id", VNone)]);
         Called (api_get_task (VStr "1"))]).
Proof. split; vm_compute; reflexivity. Qed.

(** C5: an exception that is no ValueError and no error of the taxonomy,
    with a text that mentions Todoist, is wrapped as a TodoistError and not
    as the generic base error. *)
Lemma todoist_text_counterexample :
  is_MCPError Exception = false
  /\ is_ValueError Exception = false
  /\ handle_exceptions "get_tasks"
       (fun _ : unit => inl (Raise Exception "Todoist is unreachable" None) : exn + unit)
       tt
     = inl (Raise TodoistError "Todoist API error: Todoist is unreachable"
              (Some "get_tasks"))
  /\ TodoistError <> MCPError.
Proof. repeat split; try reflexivity. discriminate. Qed.

(** C5 on a function that raises the KeyError of a missing key. *)
Lemma handle_exceptions_policy_witness :
  exists e',
    handle_exceptions "handle_update_task"
      (fun _ : unit => inl (Raise KeyError "'task_id'" None) : exn + unit) tt
    = inl e'
    /\ e' = Raise MCPError "An unexpected error occurred: 'task_id'"
              (Some "handle_update_task").
Proof.
  destruct (handle_exceptions_policy "handle_update_task"
              (fun _ : unit => inl (Raise KeyError "'task_id'" None) : exn + unit)
              tt (Raise KeyError "'task_id'" None) eq_refl)
    as (e' & H1 & _ & _ & _ & H5).
  exists e'. split; [exact H1|].
  apply H5; [reflexivity | reflexivity |].
  intros Hc. apply str_in_contains in Hc. vm_compute in Hc. discriminate.
Defined.

(** C6 on a rejected credential (get_labels) and on an unavailable service
    (update_task). *)
Lemma facade_failure_surfaced_witness :
  (exists err,
      client (down_sdk "401 Client Error: Unauthorized for url") api_get_labels
        0%nat
      = (inl err, 0%nat, [Called api_get_labels])
      /\ exn_class_of err = AuthenticationError)
  /\ (exists err,
         update_task (down_sdk "503 Service Unavailable") demo_text (VStr "1")
           (delete "task_id" update_content) 0%nat
         = (inl err, 0%nat,
            [Called (api_update_task (VStr "1")
                       (map (fun k => (k, get (delete "task_id" update_content) k))
                          update_task_params))])
         /\ exn_class_of err = TodoistError
         /\ message err = "Failed to update task: 503 Service Unavailable").
Proof.
  split.
  - destruct (proj1 (facade_failure_surfaced
                       (down_sdk "401 Client Error: Unauthorized for url")
                       demo_text)
                (list Label.t) api_get_labels 0%nat 0%nat
                "401 Client Error: Unauthorized for url" eq_refl)
      as (err & H1 & H2 & _).
    exists err. split; [exact H1|].
    apply H2. apply str_in_contains. vm_compute. reflexivity.
  - destruct (proj2 (facade_failure_surfaced (down_sdk "503 Service Unavailable")
                       demo_text)
                (VStr "1") (delete "task_id" update_content) 0%nat 0%nat
                "503 Service Unavailable")
      as (err & H1 & _ & H3).
    + apply (bool_decide_unpack _). vm_compute. exact I.
    + reflexivity.
    + exists err. split; [exact H1|].
      apply H3. intros Hc. apply str_in_contains in Hc. vm_compute in Hc.
      discriminate.
Defined.

(** C7: create-task given the empty text as project identifier, together
    with a project name, lists the projects to resolve the name and creates
    the task in the project that bears it, not under the identifier that was
    supplied. *)
Lemma empty_identifier_counterexample :
  create_unidentified !! "project_id" = Some (VStr "")
  /\ create_unidentified !! "project_name" = Some (VStr "HOME")
  /\ trace (handle_create_task (demo_sdk 1) demo_text create_unidentified
              0%nat)
     = [Called api_get_projects;
        Called (api_add_task "Buy milk" None (Some "7") None None None None
                  None None None None None None)].
Proof. repeat split; vm_compute; reflexivity. Qed.

(** C7 on arguments that give project, label and parent both by identifier
    and by name, and on an update of a task that gives the project both
    ways. *)
Lemma identifier_precedence_witness :
  truthy (VStr "7") = true
  /\ both_given !! "project_id" = Some (VStr "7")
  /\ both_given !! "label_id" = Some (VStr "7")
  /\ both_given !! "parent_id" = Some (VStr "7")
  /\ Forall (honours_project (VStr "7"))
       (trace (handle_create_task (demo_sdk 1) demo_text both_given 0%nat))
  /\ Forall (honours_label (VStr "7"))
       (trace (handle_update_label (demo_sdk 1) demo_text both_given 0%nat))
  /\ Forall (honours_parent (VStr "7"))
       (trace (handle_create_project (demo_sdk 1) demo_text both_given 0%nat))
  /\ Exists (carries_project (VStr "7"))
       (trace (handle_update_project (demo_sdk 1) demo_text both_given 0%nat))
  /\ Exists (carries_project (VStr "7"))
       (trace (handle_update_task (demo_sdk 1) demo_text update_in_project
                 0%nat))
  /\ Exists (carries_label (VStr "7"))
       (trace (handle_list_tasks (demo_sdk 1) demo_text both_given 0%nat))
  /\ Exists (carries_label (VStr "7"))
       (trace (handle_update_label (demo_sdk 1) demo_text both_given 0%nat))
  /\ Exists (carries_parent (VStr "7"))
       (trace (handle_create_project (demo_sdk 1) demo_text both_given 0%nat))
  /\ trace (handle_delete_project (demo_sdk 1) demo_text both_given 0%nat)
     = [Called (api_get_project (VStr "7"));
        Called (api_delete_project (VStr "7"))]
  /\ trace (handle_create_task (demo_sdk 1) demo_text both_given 0%nat)
     = [Called (api_add_task "Buy milk" None (Some "7") None (Some "7") None
                  None None None None None None None)].
Proof.
  assert (truthy (VStr "7") = true) as Ht by reflexivity.
  assert (both_given !! "project_id" = Some (VStr "7")) as Hp
    by (vm_compute; reflexivity).
  assert (both_given !! "label_id" = Some (VStr "7")) as Hl
    by (vm_compute; reflexivity).
  assert (both_given !! "parent_id" = Some (VStr "7")) as Ha
    by (vm_compute; reflexivity).
  destruct (identifier_precedence (demo_sdk 1) demo_text both_given (VStr "7")
              0%nat Ht) as (Hproject & Hlabel & Hparent).
  destruct (Hproject Hp) as (_ & Hcreate & _ & _ & _ & Hpc & _ & Hdelete).
  destruct (Hlabel Hl) as (_ & Hupdate & _ & Hlc & _ & _).
  destruct (Hparent Ha) as (Hadd & Hac).
  split; [exact Ht|]. split; [exact Hp|]. split; [exact Hl|].
  split; [exact Ha|].
  split; [exact Hcreate|]. split; [exact Hupdate|]. split; [exact Hadd|].
  split.
  { destruct (handle_update_project (demo_sdk 1) demo_text both_given 0%nat)
      as [[[e|r] w'] t] eqn:E; [vm_compute in E; discriminate E|].
    apply (Hpc r w' t). right. right. right. reflexivity. }
  split.
  { destruct (identifier_precedence (demo_sdk 1) demo_text update_in_project
                (VStr "7") 0%nat Ht) as (Hproject' & _).
    destruct Hproject' as (_ & _ & _ & _ & _ & Hpc' & _);
      [vm_compute; reflexivity|].
    destruct (handle_update_task (demo_sdk 1) demo_text update_in_project
                0%nat)
      as [[[e|r] w'] t] eqn:E; [vm_compute in E; discriminate E|].
    apply (Hpc' r w' t). right. right. left. reflexivity. }
  split.
  { destruct (handle_list_tasks (demo_sdk 1) demo_text both_given 0%nat)
      as [[[e|r] w'] t] eqn:E; [vm_compute in E; discriminate E|].
    apply (Hlc r w' t). left. reflexivity. }
  split.
  { destruct (handle_update_label (demo_sdk 1) demo_text both_given 0%nat)
      as [[[e|r] w'] t] eqn:E; [vm_compute in E; discriminate E|].
    apply (Hlc r w' t). right. reflexivity. }
  split.
  { destruct (handle_create_project (demo_sdk 1) demo_text both_given 0%nat)
      as [[[e|r] w'] t] eqn:E; [vm_compute in E; discriminate E|].
    apply (Hac r w' t). reflexivity. }
  split; [exact Hdelete|].
  vm_compute. reflexivity.
Defined.

(** C10 on a service that answers, and on one where the task is not found. *)
Lemma update_fetches_first_witness :
  (is_update_task (Called (api_get_task (VStr "1"))) = false
   /\ exists task_id,
        update_content !! "task_id" = Some task_id
        /\ fetches task_id (Called (api_get_task (VStr "1"))))
  /\ handle_update_task (down_sdk "404 Client Error: Not Found") demo_text
       update_content 0%nat
     = (inl (Raise TodoistError "Failed to get task: 404 Client Error: Not Found"
               None), 0%nat, [Called (api_get_task (VStr "1"))]).
Proof.
  split.
  - apply (proj1 (update_fetches_first (demo_sdk 1) demo_text update_content 0%nat)).
    vm_compute. reflexivity.
  - destruct (proj2 (update_fetches_first (down_sdk "404 Client Error: Not Found")
                       demo_text update_content 0%nat)
                (VStr "1") "404 Client Error: Not Found" 0%nat)
      as (H & _ & _).
    + vm_compute. reflexivity.
    + reflexivity.
    + reflexivity.
    + exact H.
Defined.

(** ** Further properties on concrete invocations *)


(** X4 on a task due in 2100, refused, and on a task due in 2030. *)
Lemma from_todoist_accepts_witness :
  TaskMCPOutput.from_todoist (task_due "2100-01-01") = None
  /\ exists task_model,
       TaskMCPOutput.from_todoist (task_due "2030-05-01") = Some task_model
       /\ TaskMCPOutput.content task_model = "Renew passport".
Proof.
  split.
  - apply (proj1 (from_todoist_accepts (task_due "2100-01-01"))).
    eexists _, "2100-01-01".
    split; [reflexivity|]. split; [reflexivity|].
    split; [discriminate | reflexivity].
  - assert (exists task_model,
               TaskMCPOutput.from_todoist (task_due "2030-05-01") = Some task_model)
      as [task_model H] by (eexists; vm_compute; reflexivity).
    exists task_model. split; [exact H|].
    destruct (proj2 (from_todoist_accepts (task_due "2030-05-01")) task_model H)
      as (_ & Hc & _).
    exact Hc.
Defined.

(** X5 on a base filter with a false flag and the priority 0. *)
Lemma compose_active_witness :
  compose (Some "@work") (Some false) None (Some 0) = Some "@work".
Proof.
  apply (proj2 (compose_active (Some "@work") (Some false) None (Some 0))).
  reflexivity.
Defined.

(** X6 on the base filter "@work" with due-today and the priority 2. *)
Lemma compose_keeps_base_witness :
  exists composed,
    compose (Some "@work") (Some true) None (Some 2) = Some composed
    /\ contains "(@work)" composed.
Proof.
  destruct (compose_keeps_base "@work" (Some true) None (Some 2))
    as (composed & Hc & _ & Hw); [discriminate|].
  exists composed. split; [exact Hc|]. apply Hw. reflexivity.
Defined.

(** X7 on the name "Home" of the sample project. *)
Lemma first_match_ignores_case_witness :
  first_match Project.name "home" [sample_project]
  = first_match Project.name "Home" [sample_project]
  /\ first_match Project.name "HOME" [sample_project]
     = first_match Project.name "Home" [sample_project].
Proof.
  destruct (first_match_ignores_case Project.name "Home" [sample_project])
    as (Hl & Hu & _).
  - reflexivity.
  - repeat constructor.
  - split; [exact Hl | exact Hu].
Defined.

(** X8 with no token at all, and with a token given to the constructor. *)
Lemma client_token_witness :
  TodoistClient (sample_config "") None
  = inl (Raise AuthenticationError "Todoist API token not provided" None)
  /\ TodoistClient (sample_config "configured") (Some "given") = inr "given"
  /\ TodoistClient (sample_config "configured") None = inr "configured".
Proof.
  split; [|split].
  - apply (proj1 (proj2 (proj2 (client_token (sample_config "") None))));
      reflexivity.
  - apply (proj1 (client_token (sample_config "configured") (Some "given")));
      [reflexivity | discriminate].
  - apply (proj1 (proj2 (client_token (sample_config "configured") None)));
      [reflexivity | discriminate].
Defined.

(** X9 on two tokens. *)
Lemma to_dict_hides_token_witness :
  Config.to_dict (sample_config "token-one") = Config.to_dict (sample_config "token-two").
Proof.
  pose proof (to_dict_hides_token "mcp-todoist" "0.1.0" LogLevel.INFO false 30
                true "https://api.todoist.com/rest/v2" [] "token-one" "token-two")
    as H.
  cbv zeta in H. destruct H as [H _]; [discriminate | discriminate |].
  exact H.
Defined.

(** X10 on an environment that sets the level "Warning" and the flag "Yes". *)
Lemma from_env_reads_witness :
  exists config,
    Config.from_env int_30 sample_environ = Some config
    /\ Config.log_level config = LogLevel.WARNING
    /\ Config.debug config = true.
Proof.
  assert (exists config, Config.from_env int_30 sample_environ = Some config)
    as [config E] by (eexists; vm_compute; reflexivity).
  exists config. split; [exact E|].
  destruct (from_env_reads int_30 sample_environ)
    as (_ & Hlevel & _ & _ & Hdebug & _).
  split.
  - apply (Hlevel config "Warning" LogLevel.WARNING E);
      vm_compute; reflexivity.
  - apply (Hdebug config "Yes" E); [vm_compute; reflexivity..|].
    apply (bool_decide_unpack _). vm_compute. exact I.
Defined.

(** X11 on a creation in the project "HOME", named "Home" by the service. *)
Lemma create_task_resolves_name_witness :
  trace (handle_create_task (demo_sdk 1) demo_text create_in_home 0%nat)
  = [Called api_get_projects;
     Called (api_add_task "Buy milk" None (Some "7") None None None None None
               None None None None None)].
Proof.
  apply (proj1 (create_task_resolves_name (demo_sdk 1) demo_text create_in_home
                  create_in_home_input "HOME" 0%nat 1%nat [sample_project]
                  ltac:(vm_compute; reflexivity) eq_refl ltac:(discriminate)
                  eq_refl eq_refl) sample_project).
  - vm_compute. reflexivity.
  - discriminate.
Defined.

(** X13 on the completion of the task "1". *)
Lemma pre_fetch_never_blocks_witness :
  trace (handle_complete_task (demo_sdk 1) complete_one 0%nat)
  = [Called (api_get_task (VStr "1")); Called (api_close_task (VStr "1"))].
Proof.
  pose proof (pre_fetch_never_blocks (demo_sdk 1) complete_one 0%nat) as H.
  cbv zeta in H. destruct H as [H _]; [vm_compute; reflexivity|].
  exact H.
Defined.

(** X14 on a service that refuses. *)
Lemma refused_mutation_fails_witness :
  handle_complete_task refusing_sdk complete_one 0%nat
  = (inl (Raise TodoistError "Failed to complete task" None), 2%nat,
     [Called (api_get_task (VStr "1")); Called (api_close_task (VStr "1"))]).
Proof.
  pose proof (refused_mutation_fails refusing_sdk complete_one 0%nat 2%nat) as H.
  cbv zeta in H. destruct H as [H _]; [vm_compute; reflexivity|].
  apply H. vm_compute. reflexivity.
Defined.

(** X15 on the limit 0. *)
Lemma list_tasks_rejects_limit_witness :
  handle_list_tasks (demo_sdk 1) demo_text {[ "limit" := VInt 0 ]} 0%nat
  = (inl (Raise PydanticValidationError
            "1 validation error for TaskFilterMCPInput" None), 0%nat, []).
Proof.
  apply (list_tasks_rejects_limit (demo_sdk 1) demo_text
           {[ "limit" := VInt 0 ]} 0 0%nat).
  - vm_compute. reflexivity.
  - left. lia.
Defined.

(** X16 on empty arguments. *)
Lemma create_task_rejects_witness :
  handle_create_task (demo_sdk 1) demo_text ∅ 0%nat
  = (inl (Raise PydanticValidationError "1 validation error for TaskMCPInput"
            None), 0%nat, []).
Proof.
  apply (create_task_rejects (demo_sdk 1) demo_text ∅ 0%nat).
  left. intros s H. vm_compute in H. discriminate.
Defined.

(** X17 on the limit 2 and three records. *)
Lemma list_limit_prefix_witness :
  exists sorted_labels entries,
    result (handle_list_labels (demo_sdk 3) limit_two 0%nat)
    = inr (LabelsListed (map LabelMCPOutput.from_todoist sorted_labels))
    /\ sorted_labels ≡ₚ [sample_label; sample_label]
    /\ result (handle_list_projects (demo_sdk 3) limit_two 0%nat)
       = inr (ProjectsListed entries)
    /\ project_tree 2 [sample_project; sample_project] = Some entries.
Proof.
  destruct (list_limit_prefix (demo_sdk 3) limit_two 0%nat 1%nat 1%nat
              (replicate 3 sample_label) (replicate 3 sample_project)
              eq_refl eq_refl)
    as (k & sorted_labels & entries & Hl & Hperm & _ & _ & Hp & Htree & Hk & _).
  assert (k = 2%nat) as -> by (apply (Hk 2); [vm_compute; reflexivity | lia]).
  exists sorted_labels, entries.
  split; [exact Hl|]. split; [exact Hperm|]. split; [exact Hp|].
  apply (Htree 2%nat). simpl. lia.
Defined.

(** X18 on the renaming of the label "3". *)
Lemma update_rereads_witness :
  exists label_id name color favorite w0 w1 updated_label,
    demo_sdk 1 bool (api_update_label label_id name color favorite) w0
    = (inr true, w1)
    /\ demo_sdk 1 Label.t (api_get_label label_id) w1 = (inr updated_label, 3%nat)
    /\ LabelMCPOutput.from_todoist sample_label
       = LabelMCPOutput.from_todoist updated_label.
Proof.
  destruct (proj1 (update_rereads (demo_sdk 1) demo_text rename_label 0%nat 3%nat
                     [Called (api_get_label (VStr "3"));
                      Called (api_update_label (VStr "3") (VStr "soon") VNone VNone);
                      Called (api_get_label (VStr "3"))])
              (LabelMCPOutput.from_todoist sample_label))
    as (label_id & name & color & favorite & pre & w0 & w1 & updated
        & _ & H1 & H2 & H3).
  - vm_compute. reflexivity.
  - exists label_id, name, color, favorite, w0, w1, updated.
    repeat split; assumption.
Defined.

(** X19 on the deletion of the label "Urgent" and of the project "home". *)
Lemma delete_by_name_witness :
  trace (handle_delete_label (demo_sdk 2) demo_text delete_urgent 0%nat)
  = [Called api_get_labels; Called (api_get_label (VStr "3"));
     Called (api_delete_label (VStr "3"))]
  /\ trace (handle_delete_project (demo_sdk 2) demo_text delete_urgent 0%nat)
     = [Called api_get_projects; Called (api_get_project (VStr "7"));
        Called (api_delete_project (VStr "7"))].
Proof.
  split.
  - apply (proj1 (proj1 (delete_by_name (demo_sdk 2) demo_text delete_urgent
                           "Urgent" 0%nat 1%nat 1%nat
                           (replicate 2 sample_label) (replicate 2 sample_project)
                           ltac:(discriminate) eq_refl eq_refl)
                    ltac:(vm_compute; reflexivity) ltac:(vm_compute; reflexivity))
             sample_label).
    + vm_compute. reflexivity.
    + discriminate.
  - apply (proj1 (proj2 (delete_by_name (demo_sdk 2) demo_text delete_urgent
                           "home" 0%nat 1%nat 1%nat
                           (replicate 2 sample_label) (replicate 2 sample_project)
                           ltac:(discriminate) eq_refl eq_refl)
                    ltac:(vm_compute; reflexivity) ltac:(vm_compute; reflexivity))
             sample_project).
    + vm_compute. reflexivity.
    + discriminate.
Defined.

(** X20 on the colours "pink", which the palette does not have, and "red". *)
Lemma create_label_colour_witness :
  handle_create_label (demo_sdk 1) demo_text create_pink_label 0%nat
  = (inl (Raise PydanticValidationError "1 validation error for LabelMCPInput"
            None), 0%nat, [])
  /\ trace (handle_create_label (demo_sdk 1) demo_text create_red_label 0%nat)
     = [Called (api_add_label "work" (Some "red") (Some false))].
Proof.
  split.
  - apply (proj1 (create_label_colour (demo_sdk 1) demo_text create_pink_label
                    "work" "pink" 0%nat ltac:(vm_compute; reflexivity)
                    ltac:(vm_compute; reflexivity) ltac:(discriminate))).
    intros H. apply (bool_decide_pack _) in H. vm_compute in H. exact H.
  - apply (proj2 (create_label_colour (demo_sdk 1) demo_text create_red_label
                    "work" "red" 0%nat ltac:(vm_compute; reflexivity)
                    ltac:(vm_compute; reflexivity) ltac:(discriminate))).
    + apply (bool_decide_unpack _). vm_compute. exact I.
    + left. split; [vm_compute; reflexivity | reflexivity].
Defined.

(** X21 on a parent name that no project bears. *)
Lemma create_project_unknown_parent_witness :
  handle_create_project (demo_sdk 1) demo_text create_under_unknown 0%nat
  = (inl (Raise ValidationError "Parent project not found: Nonexistent" None),
     1%nat, [Called api_get_projects]).
Proof.
  apply (create_project_unknown_parent (demo_sdk 1) demo_text
           create_under_unknown "Nonexistent" 0%nat 1%nat [sample_project]).
  - discriminate.
  - vm_compute. reflexivity.
  - vm_compute. reflexivity.
  - reflexivity.
  - vm_compute. reflexivity.
Defined.

(** X22 on a listing with a task due in 2100, and on one without. *)
Lemma task_models_all_or_none_witness :
  task_models demo_text [sample_task "stored"; task_due "2100-01-01"] 0%nat
  = (inl (Raise PydanticValidationError "1 validation error for TaskMCPOutput"
            None), 0%nat, [])
  /\ exists models,
       task_models demo_text [sample_task "stored"; task_due "2030-05-01"] 0%nat
       = (inr models, 0%nat, [])
       /\ length models = 2%nat.
Proof.
  split.
  - apply (proj2 (task_models_all_or_none demo_text
                    [sample_task "stored"; task_due "2100-01-01"] 0%nat)).
    apply Exists_cons_tl, Exists_cons_hd. vm_compute. reflexivity.
  - destruct (proj1 (task_models_all_or_none demo_text
                       [sample_task "stored"; task_due "2030-05-01"] 0%nat))
      as (models & Hm & HF).
    + repeat constructor; vm_compute; discriminate.
    + exists models. split; [exact Hm|].
      symmetry. exact (Forall2_length _ _ _ HF).
Defined.

(** X23 on empty arguments. *)
Lemma project_reference_required_witness :
  handle_delete_project (demo_sdk 1) demo_text ∅ 0%nat
  = (inl (Raise ValidationError "Either project_id or project_name is required"
            None), 0%nat, []).
Proof.
  destruct (project_reference_required (demo_sdk 1) demo_text ∅ 0%nat)
    as [_ H]; [vm_compute; reflexivity | vm_compute; reflexivity | exact H].
Defined.

(** X24 without a token, and with a token on a tool of another module. *)
Lemma dispatch_guards_witness :
  handle_call_tool_labels (demo_sdk 1) demo_text (sample_config "")
    "list-labels" None 0%nat
  = (inl (Raise AuthenticationError "Todoist API token not provided" None),
     0%nat, [])
  /\ handle_call_tool_tasks (demo_sdk 1) demo_text (sample_config "token")
       "list-labels" (Some ∅) 0%nat
     = (inl (Raise ValueError "Unknown tool: list-labels" None), 0%nat, []).
Proof.
  split.
  - destruct (dispatch_guards (demo_sdk 1) demo_text (sample_config "")
                "list-labels" None 0%nat) as (_ & _ & _ & H & _).
    destruct (H eq_refl) as (_ & _ & Hl). exact Hl.
  - destruct (dispatch_guards (demo_sdk 1) demo_text (sample_config "token")
                "list-labels" (Some ∅) 0%nat) as (_ & _ & _ & _ & H).
    destruct (H ltac:(discriminate)) as (Ht & _).
    apply Ht; [eexists; reflexivity|].
    intros Hin. apply (bool_decide_pack _) in Hin. vm_compute in Hin. exact Hin.
Defined.

(** X26 on the limit 2 and three tasks. *)
Lemma list_tasks_limit_prefix_witness :
  exists (c : call (list Task.t)) w0 remote,
    demo_sdk 3 (list Task.t) c w0 = (inr remote, 1%nat)
    /\ Forall2 (fun task model => TaskMCPOutput.from_todoist task = Some model)
         (take 2 remote) [stored_model; stored_model].
Proof.
  destruct (list_tasks_limit_prefix (demo_sdk 3) demo_text limit_two
              limit_two_input 2 0%nat 1%nat [stored_model; stored_model]
              [Called (api_get_tasks None None None None None None)])
    as (c & pre & w0 & remote & _ & _ & H1 & H2).
  - vm_compute. reflexivity.
  - reflexivity.
  - vm_compute. reflexivity.
  - exists c, w0, remote. split; [exact H1 | exact H2].
Defined.

(** X27 on empty arguments. *)
Lemma task_id_required_witness :
  handle_complete_task (demo_sdk 1) ∅ 0%nat
  = (inl (Raise ValidationError "Task ID is required" None), 0%nat, [])
  /\ handle_delete_task (demo_sdk 1) ∅ 0%nat
     = (inl (Raise ValidationError "Task ID is required" None), 0%nat, []).
Proof.
  apply (task_id_required (demo_sdk 1) ∅ 0%nat). vm_compute. reflexivity.
Defined.

(** X28 on empty arguments. *)
Lemma label_reference_required_witness :
  handle_update_label (demo_sdk 1) demo_text ∅ 0%nat
  = (inl (Raise ValidationError "Either label_id or label_name is required"
            None), 0%nat, [])
  /\ handle_delete_label (demo_sdk 1) demo_text ∅ 0%nat
     = (inl (Raise ValidationError "Either label_id or label_name is required"
               None), 0%nat, []).
Proof.
  apply (label_reference_required (demo_sdk 1) demo_text ∅ 0%nat);
    vm_compute; reflexivity.
Defined.

(** X29 on a list with two projects that name each other as parent. *)
Lemma project_tree_ends_witness :
  exists lines,
    project_tree 4 circular_listing = Some lines
    /\ project_tree 40 circular_listing = Some lines.
Proof.
  destruct (project_tree_ends circular_listing) as [lines H].
  exists lines. split; apply H; simpl; lia.
Defined.

(** X30 on a list of three projects, one of them below a project that is not
    listed. *)
Lemma project_tree_entries_witness :
  project_tree 3 orphan_listing
  = Some [(0%nat, ProjectMCPOutput.from_todoist (project_under "1" None));
          (1%nat, ProjectMCPOutput.from_todoist (project_under "2" (Some "1")))]
  /\ forall n lines,
       project_tree 3 orphan_listing = Some lines ->
       (n, ProjectMCPOutput.from_todoist (project_under "5" (Some "9")))
       ∉ lines.
Proof.
  split; [vm_compute; reflexivity|]. intros n lines H.
  destruct (project_tree_entries 3 orphan_listing lines H)
    as (_ & _ & _ & Horphan & _).
  apply (Horphan n _ "9"); [reflexivity | discriminate|].
  intros Hin. apply (bool_decide_pack _) in Hin. vm_compute in Hin. exact Hin.
Defined.
